(** * Lab_Software: the WhiteLight GUI shell and the LabOne example scripts

    A shallow embedding of

    - [Version 0.2/WhiteLight.py] (module [WhiteLight]),
    - [zhinst/examples/common/example_connect_config.py]
      (module [ConnectConfig]),
    - [zhinst/examples/uhf/example_awg.py] (module [Awg]),

    over a small model of the Python run time (module [Py]): values,
    exceptions, name resolution, call arity, and a state-and-exception monad
    whose [while_] loops are step-indexed.  Floats are IEEE 754 binary64
    values (module [B64]); the routines of numpy that the standard does not
    fix to the bit are parameters of the model (class [Np.Library]). *)

From Stdlib Require Import ZArith Lia List String Ascii Bool SpecFloat DecimalString.
From stdpp Require Import base strings gmap.
Import ListNotations.
Local Open Scope string_scope.
Local Open Scope list_scope.
Local Set Warnings "-register-all".

(* ===================================================================== *)
(** * The Python run time *)
(* ===================================================================== *)

Module Py.

(** Exceptions the three programs can raise. *)
Inductive exn : Type :=
| TypeError (msg : string)
| NameError (name : string)
| AttributeError (attr : string)
| KeyError (key : string)
| IndexError (msg : string)
| RuntimeError (msg : string)
| ValueError (msg : string)
| AssertionError (msg : string)
| Exception_ (msg : string).

(** What a call has done after a given number of loop steps: it returned, it
    raised, or it is still running (the step budget of a [while_] ran out). *)
Inductive outcome (A : Type) : Type :=
| Returned (a : A)
| Raised (e : exn)
| Running.
Arguments Returned {A} a.
Arguments Raised {A} e.
Arguments Running {A}.

(** Statements: state passing with exceptions.  The state that an exception
    or an exhausted budget leaves behind is kept, so the effects issued before
    it stay visible. *)
Definition M (S A : Type) : Type := S -> outcome A * S.

Section Monad.
Context {S : Type}.

Definition ret {A} (a : A) : M S A := fun s => (Returned a, s).

Definition bind {A B} (m : M S A) (k : A -> M S B) : M S B :=
  fun s =>
    match m s with
    | (Returned a, s') => k a s'
    | (Raised e, s') => (Raised e, s')
    | (Running, s') => (Running, s')
    end.

Definition raise {A} (e : exn) : M S A := fun s => (Raised e, s).

Definition modify (f : S -> S) : M S unit := fun s => (Returned tt, f s).

(** [while cond: body], unfolded at most [fuel] times; [a] is the value of
    the local variable the loop updates. *)
Fixpoint while_ {A} (fuel : nat) (cond : A -> M S bool) (body : A -> M S A)
         (a : A) : M S A :=
  match fuel with
  | O => fun s => (Running, s)
  | Datatypes.S k =>
      bind (cond a) (fun b =>
        if b then bind (body a) (fun a' => while_ k cond body a')
        else ret a)
  end.

(** [assert c, msg] *)
Definition assert_ (c : bool) (msg : string) : M S unit :=
  if c then ret tt else raise (AssertionError msg).
End Monad.

Declare Scope py_scope.
Delimit Scope py_scope with py.
Notation "x <- m ;; k" := (bind m (fun x => k))
  (at level 100, m at next level, right associativity) : py_scope.
Notation "m ;; k" := (bind m (fun _ => k))
  (at level 100, right associativity) : py_scope.

(** Values.  [VStringVar] is a [tk.StringVar] holding a string, [VDict] a
    dictionary as its items in insertion order, [VObj] any other object, with
    its identity and its attribute table. *)
Inductive pyval : Type :=
| VNone
| VBool (b : bool)
| VInt (z : Z)
| VStr (s : string)
| VStringVar (content : string)
| VDict (items : list (string * pyval))
| VObj (id : string) (attrs : list (string * pyval)).

(** [bool(v)] *)
Definition truthy (v : pyval) : bool :=
  match v with
  | VNone => false
  | VBool b => b
  | VInt z => negb (z =? 0)%Z
  | VStr s => negb (String.eqb s "")
  | VStringVar _ => true
  | VDict items => match items with [] => false | _ => true end
  | VObj _ _ => true
  end.

(** [v is None] *)
Definition is_None (v : pyval) : bool :=
  match v with VNone => true | _ => false end.

(** [a == b]: numbers by value ([False == 0]), strings by content, dictionaries
    item by item, objects by identity. *)
Fixpoint py_eq (a b : pyval) : bool :=
  match a, b with
  | VNone, VNone => true
  | VBool x, VBool y => Bool.eqb x y
  | VBool x, VInt y => (Z.b2z x =? y)%Z
  | VInt x, VBool y => (x =? Z.b2z y)%Z
  | VInt x, VInt y => (x =? y)%Z
  | VStr x, VStr y => String.eqb x y
  | VStringVar x, VStringVar y => String.eqb x y
  | VDict xs, VDict ys =>
      (fix items_eq (xs ys : list (string * pyval)) : bool :=
         match xs, ys with
         | [], [] => true
         | (k, v) :: xs', (k', v') :: ys' =>
             String.eqb k k' && py_eq v v' && items_eq xs' ys'
         | _, _ => false
         end) xs ys
  | VObj i _, VObj j _ => String.eqb i j
  | _, _ => false
  end.

(** Lookup in an attribute or item table. *)
Fixpoint assoc (k : string) (l : list (string * pyval)) : option pyval :=
  match l with
  | [] => None
  | (k', v) :: l' => if String.eqb k k' then Some v else assoc k l'
  end.

(** [l] with [k] bound to [v] (an existing binding is replaced in place). *)
Fixpoint assoc_set (k : string) (v : pyval) (l : list (string * pyval))
  : list (string * pyval) :=
  match l with
  | [] => [(k, v)]
  | (k', v') :: l' =>
      if String.eqb k k' then (k, v) :: l' else (k', v') :: assoc_set k v l'
  end.

Section Access.
Context {S : Type}.

(** [o.name] *)
Definition getattr (o : pyval) (name : string) : M S pyval :=
  match o with
  | VObj _ attrs =>
      match assoc name attrs with
      | Some v => ret v
      | None => raise (AttributeError name)
      end
  | _ => raise (AttributeError name)
  end.

(** [o[key]] *)
Definition subscript (o : pyval) (key : string) : M S pyval :=
  match o with
  | VDict items =>
      match assoc key items with
      | Some v => ret v
      | None => raise (KeyError key)
      end
  | _ => raise (TypeError "object is not subscriptable")
  end.

(** [v.get()], the call without an argument that the programs make on a
    [tk.StringVar].  A dictionary has a method [get] too, which wants a key;
    [None], a number, a string or a boolean has no attribute [get].  An object
    of another class answers from its attribute table, which holds its data:
    without an entry [get] the lookup fails, and an entry [get] is data and
    cannot be called. *)
Definition StringVar_get (v : pyval) : M S string :=
  match v with
  | VStringVar s => ret s
  | VDict _ => raise (TypeError "get expected at least 1 argument, got 0")
  | VObj _ attrs =>
      match assoc "get" attrs with
      | None => raise (AttributeError "get")
      | Some _ => raise (TypeError "object is not callable")
      end
  | VNone | VBool _ | VInt _ | VStr _ => raise (AttributeError "get")
  end.

(** An object whose attribute table has an entry [get]. *)
Definition has_get_entry (v : pyval) : bool :=
  match v with
  | VObj _ attrs =>
      match assoc "get" attrs with Some _ => true | None => false end
  | _ => false
  end.

(** Name resolution: the local names, then the module's globals, then the
    builtins; [NameError] when none binds the name. *)
Definition load_name (locals globals builtins : list (string * pyval))
           (x : string) : M S pyval :=
  match assoc x locals with
  | Some v => ret v
  | None =>
      match assoc x globals with
      | Some v => ret v
      | None =>
          match assoc x builtins with
          | Some v => ret v
          | None => raise (NameError x)
          end
      end
  end.

(** A function of [n] positional parameters applied to a list of
    arguments: the call binds them one to one and raises [TypeError] when
    their numbers differ. *)
Definition def0 {A} (name : string) (body : M S A) (args : list pyval) : M S A :=
  match args with
  | [] => body
  | _ => raise (TypeError name)
  end.

Definition def1 {A} (name : string) (body : pyval -> M S A)
           (args : list pyval) : M S A :=
  match args with
  | [a] => body a
  | _ => raise (TypeError name)
  end.

Definition def3 {A} (name : string) (body : pyval -> pyval -> pyval -> M S A)
           (args : list pyval) : M S A :=
  match args with
  | [a; b; c] => body a b c
  | _ => raise (TypeError name)
  end.

Definition def4 {A} (name : string)
           (body : pyval -> pyval -> pyval -> pyval -> M S A)
           (args : list pyval) : M S A :=
  match args with
  | [a; b; c; d] => body a b c d
  | _ => raise (TypeError name)
  end.

Definition def5 {A} (name : string)
           (body : pyval -> pyval -> pyval -> pyval -> pyval -> M S A)
           (args : list pyval) : M S A :=
  match args with
  | [a; b; c; d; e] => body a b c d e
  | _ => raise (TypeError name)
  end.
End Access.

End Py.

(* ===================================================================== *)
(** * Version 0.2/WhiteLight.py *)
(* ===================================================================== *)

Module WhiteLight.
Import Py.
Local Open Scope py_scope.

(** What the GUI does to the outside: dialogs of [tkinter.messagebox], the
    settings export and import of [zhinst.utils], [print], and call-backs
    registered with [app.after]. *)
Inductive effect : Type :=
| ShowInfo (icon : option string) (title message : string)
| SaveSettings (daq : pyval) (device filename : string)
| LoadSettings (daq : pyval) (device filename : string)
| Print (text : string)
| After (ms : Z) (callback : string) (args : list pyval).

(** The instance attributes that [White_Light_Inteferometer.__init__] assigns
    on [self], the [File_Dialog] panel its closures capture, and the log of
    effects. *)
Record gui : Type := {
  PI_Data : pyval;
  Zi_Data : pyval;
  ZiFrame : pyval;
  frame : pyval;
  PI_Control : pyval;
  ZI_Control : pyval;
  File_Dialog : pyval;
  effects : list effect
}.

Definition emit (e : effect) : M gui unit :=
  modify (fun g =>
    {| PI_Data := PI_Data g; Zi_Data := Zi_Data g; ZiFrame := ZiFrame g;
       frame := frame g; PI_Control := PI_Control g; ZI_Control := ZI_Control g;
       File_Dialog := File_Dialog g; effects := effects g ++ [e] |}).

Definition instance_attr (g : gui) (name : string) : option pyval :=
  if String.eqb name "PI_Data" then Some (PI_Data g)
  else if String.eqb name "Zi_Data" then Some (Zi_Data g)
  else if String.eqb name "ZiFrame" then Some (ZiFrame g)
  else if String.eqb name "frame" then Some (frame g)
  else if String.eqb name "PI_Control" then Some (PI_Control g)
  else if String.eqb name "ZI_Control" then Some (ZI_Control g)
  else None.

(** The methods the class body defines. *)
Definition class_attrs : list (string * pyval) :=
  map (fun n => (n, VObj n []))
      ["__init__"; "Start"; "Save_Setting"; "Load_Setting"; "Stop_Measurement"].

(** The names the module binds at top level by the time the main loop runs:
    its imports, the three font constants, the class, [Refresh], [app], and
    [width] and [height] ([global] in [__init__]). *)
Definition module_globals : list (string * pyval) :=
  map (fun n => (n, VObj n []))
      ["tk"; "ttk"; "filedialog"; "SP"; "backend"; "Path"; "utils"; "Save_Zi";
       "os"; "LARGE_FONT"; "NORM_FONT"; "SMALL_FONT";
       "White_Light_Inteferometer"; "Refresh"; "app"; "width"; "height"].

(** The functions and constants of Python's [builtins] module (its
    exception classes, none of which is called [messabox] or [Dir], are left
    out). *)
Definition builtins : list (string * pyval) :=
  map (fun n => (n, VObj n []))
      ["abs"; "all"; "any"; "ascii"; "bin"; "bool"; "breakpoint"; "bytearray";
       "bytes"; "callable"; "chr"; "classmethod"; "compile"; "complex";
       "delattr"; "dict"; "dir"; "divmod"; "enumerate"; "eval"; "exec";
       "filter"; "float"; "format"; "frozenset"; "getattr"; "globals";
       "hasattr"; "hash"; "help"; "hex"; "id"; "input"; "int"; "isinstance";
       "issubclass"; "iter"; "len"; "list"; "locals"; "map"; "max";
       "memoryview"; "min"; "next"; "object"; "oct"; "open"; "ord"; "pow";
       "print"; "property"; "range"; "repr"; "reversed"; "round"; "set";
       "setattr"; "slice"; "sorted"; "staticmethod"; "str"; "sum"; "super";
       "tuple"; "type"; "vars"; "zip"; "__import__";
       "None"; "True"; "False"; "Ellipsis"; "NotImplemented"; "__debug__"].

(** The object the name [self] denotes in the closures of [__init__]. *)
Definition self_ : pyval := VObj "app" [].

Section Program.
(** [os.sep] of the platform. *)
Variable os_sep : string.
(** The attributes [app] inherits from [tk.Tk]. *)
Variable Tk_attrs : list (string * pyval).
(** [Sub_Programs.WL_backend] is not part of the sources: the two calls
    into it that [Refresh] makes, [PI_control.Show_device()] and
    [Zi_settings.__call__(DAQ, Device, Prop)]. *)
Variable Show_device : pyval -> M gui pyval.
Variable Zi_settings_call : pyval -> pyval -> pyval -> pyval -> M gui unit.

(** [app.name]: the instance dictionary, then the class, then [tk.Tk]. *)
Definition getattr_app (name : string) : M gui pyval :=
  fun g =>
    match instance_attr g name with
    | Some v => (Returned v, g)
    | None =>
        match assoc name class_attrs with
        | Some v => (Returned v, g)
        | None =>
            match assoc name Tk_attrs with
            | Some v => (Returned v, g)
            | None => (Raised (AttributeError name), g)
            end
        end
    end.

(** [messagebox.showinfo(icon=.., title=.., message=..)] on the object a
    name resolved to. *)
Definition showinfo (module : pyval) (icon : option string)
           (title message : string) : M gui unit :=
  emit (ShowInfo icon title message).

Definition print (text : string) : M gui unit := emit (Print text).

(** ** [Start] and [Stop_Measurement] *)

Definition Start : list pyval -> M gui unit :=
  def5 "Start" (fun self File_List Dir PI_Data Zi_Data => print "hello").

Definition Stop_Measurement : list pyval -> M gui unit :=
  def1 "Stop_Measurement" (fun self => print "stop").

(** ** [Save_Setting] *)

(** The nested [Save(Dir, ZI_Data, PI_Data)]. *)
Definition Save (Dir ZI_Data PI_Data : pyval) : M gui unit :=
  daq <- subscript ZI_Data "DAQ" ;;
  dev_var <- subscript ZI_Data "Device_id" ;;
  dev <- StringVar_get dev_var ;;
  d <- StringVar_get Dir ;;
  emit (SaveSettings daq dev (d +:+ os_sep +:+ "_zi_settings.xml")).

Definition Save_Setting : list pyval -> M gui unit :=
  def4 "Save_Setting" (fun self Folder PI_Data ZI_Data =>
    let locals :=
      [("self", self); ("Folder", Folder); ("PI_Data", PI_Data);
       ("ZI_Data", ZI_Data); ("Save", VObj "Save" [])] in
    if truthy PI_Data || is_None ZI_Data then
      messabox <- load_name locals module_globals builtins "messabox" ;;
      showinfo messabox (Some "error") "WARNING"
               "One of the device is not connected"
    else
      Dir <- load_name locals module_globals builtins "Dir" ;;
      d <- StringVar_get Dir ;;
      if String.eqb d "" then
        messabox <- load_name locals module_globals builtins "messabox" ;;
        showinfo messabox (Some "error") "WARNING"
                 "Please Choose a directory"
      else
        Save Folder ZI_Data PI_Data ;;
        messabox <- load_name locals module_globals builtins "messabox" ;;
        showinfo messabox None "Information"
                 ("Settings as been saved to the" +:+ "desiered folder.")).

(** ** [Load_Setting] *)

(** The nested [Load(Dir, ZI_Data, PI_Data)]. *)
Definition Load (Dir ZI_Data PI_Data : pyval) : M gui unit :=
  daq <- subscript ZI_Data "DAQ" ;;
  dev_var <- subscript ZI_Data "Device_id" ;;
  dev <- StringVar_get dev_var ;;
  d <- StringVar_get Dir ;;
  emit (LoadSettings daq dev (d +:+ os_sep +:+ "_zi_settings.xml")).

Definition Load_Setting : list pyval -> M gui unit :=
  def4 "Load_Setting" (fun self Folder PI_Data ZI_Data =>
    let locals :=
      [("self", self); ("Folder", Folder); ("PI_Data", PI_Data);
       ("ZI_Data", ZI_Data); ("Load", VObj "Load" [])] in
    if truthy PI_Data || is_None ZI_Data then
      messabox <- load_name locals module_globals builtins "messabox" ;;
      showinfo messabox (Some "error") "WARNING"
               "One of the device is not connected"
    else
      Dir <- load_name locals module_globals builtins "Dir" ;;
      d <- StringVar_get Dir ;;
      if String.eqb d "" then
        messabox <- load_name locals module_globals builtins "messabox" ;;
        showinfo messabox (Some "error") "WARNING"
                 "Please choose a directory"
      else
        Load Folder ZI_Data PI_Data ;;
        messabox <- load_name locals module_globals builtins "messabox" ;;
        showinfo messabox None "Information"
                 ("Settings as been saved to the" +:+ "desiered folder.")).

(** ** The four bindings of [__init__]

    Each call-back is a [lambda] without parameters; its body reads the
    attributes of [self] and of [File_Dialog] when it runs. *)

Definition Start_binding : list pyval -> M gui unit :=
  def0 "<lambda>"
    (pi <- getattr_app "PI_Data" ;;
     zi <- getattr_app "Zi_Data" ;;
     Start [self_; pi; zi]).

Definition OpBut_binding : list pyval -> M gui unit :=
  def0 "<lambda>"
    (fd <- (fun g => (Returned (File_Dialog g), g)) ;;
     dirvar <- getattr fd "DirVar" ;;
     pi <- getattr_app "PI_Data" ;;
     zi <- getattr_app "Zi_Data" ;;
     Load_Setting [self_; dirvar; pi; zi]).

Definition SvBut_binding : list pyval -> M gui unit :=
  def0 "<lambda>"
    (fd <- (fun g => (Returned (File_Dialog g), g)) ;;
     dirvar <- getattr fd "DirVar" ;;
     file_indir <- getattr fd "File_InDir" ;;
     pi <- getattr_app "PI_Data" ;;
     zi <- getattr_app "Zi_Data" ;;
     Save_Setting [self_; dirvar; file_indir; pi; zi]).

Definition Stop_binding : list pyval -> M gui unit :=
  def0 "<lambda>"
    (pi <- getattr_app "PI_Data" ;;
     zi <- getattr_app "Zi_Data" ;;
     Stop_Measurement [self_; pi; zi]).

(** Tkinter calls the function bound to ['<Button-1>'] with the event
    object as its one argument. *)
Definition button_press (binding : list pyval -> M gui unit)
           (event : pyval) : M gui unit :=
  binding [event].

(** ** [Refresh] *)

Definition set_PI_Control (v : pyval) : M gui unit :=
  modify (fun g =>
    {| PI_Data := PI_Data g; Zi_Data := Zi_Data g; ZiFrame := ZiFrame g;
       frame := frame g; PI_Control := v; ZI_Control := ZI_Control g;
       File_Dialog := File_Dialog g; effects := effects g |}).

Definition set_PI_Data (v : pyval) : M gui unit :=
  modify (fun g =>
    {| PI_Data := v; Zi_Data := Zi_Data g; ZiFrame := ZiFrame g;
       frame := frame g; PI_Control := PI_Control g;
       ZI_Control := ZI_Control g;
       File_Dialog := File_Dialog g; effects := effects g |}).

Definition set_Zi_Data (v : pyval) : M gui unit :=
  modify (fun g =>
    {| PI_Data := PI_Data g; Zi_Data := v; ZiFrame := ZiFrame g;
       frame := frame g; PI_Control := PI_Control g;
       ZI_Control := ZI_Control g;
       File_Dialog := File_Dialog g; effects := effects g |}).

(** [o.name = v] on an object value. *)
Definition with_attr (o : pyval) (name : string) (v : pyval) : M gui pyval :=
  match o with
  | VObj id attrs => ret (VObj id (assoc_set name v attrs))
  | _ => raise (AttributeError name)
  end.

Definition Refresh : list pyval -> M gui unit :=
  def3 "Refresh" (fun app Frame receiver =>
    F <- getattr_app "Frame" ;;
    connected <- getattr F "connected" ;;
    if py_eq connected (VBool false) then
      emit (After 1000 "Refresh" [app; Frame; receiver])
    else
      F <- getattr_app "Frame" ;;
      fr <- getattr_app "frame" ;;
      if py_eq F fr then
        fr <- getattr_app "frame" ;;
        devices <- getattr fr "Devices_connected" ;;
        pc <- getattr_app "PI_Control" ;;
        pc' <- with_attr pc "Devices" devices ;;
        set_PI_Control pc' ;;
        pc <- getattr_app "PI_Control" ;;
        shown <- Show_device pc ;;
        set_PI_Data shown
      else
        F <- getattr_app "Frame" ;;
        zf <- getattr_app "ZiFrame" ;;
        if py_eq F zf then
          zc <- getattr_app "ZI_Control" ;;
          zf <- getattr_app "ZiFrame" ;;
          daq <- getattr zf "DAQ" ;;
          zf <- getattr_app "ZiFrame" ;;
          device <- getattr zf "device" ;;
          zf <- getattr_app "ZiFrame" ;;
          prop <- getattr zf "proprieties" ;;
          Zi_settings_call zc daq device prop ;;
          zc <- getattr_app "ZI_Control" ;;
          lst <- getattr zc "Zi_Setting_List" ;;
          set_Zi_Data lst
        else ret tt).
End Program.

End WhiteLight.

(* ===================================================================== *)
(** * Numbers of the scripts *)
(* ===================================================================== *)

(** Python floats and the elements of numpy's float64 arrays are IEEE 754
    binary64 values, computed by [SpecFloat] with round to nearest even. *)
Module B64.
Definition prec : Z := 53.
Definition emax : Z := 1024.

Definition add (a b : spec_float) : spec_float := SFadd prec emax a b.
Definition sub (a b : spec_float) : spec_float := SFsub prec emax a b.
Definition mul (a b : spec_float) : spec_float := SFmul prec emax a b.
Definition div (a b : spec_float) : spec_float := SFdiv prec emax a b.
Definition sqrt (a : spec_float) : spec_float := SFsqrt prec emax a.
Definition opp (a : spec_float) : spec_float := SFopp a.
Definition ltb (a b : spec_float) : bool := SFltb a b.
Definition leb (a b : spec_float) : bool := SFleb a b.

(** [float(z)] of a Python integer. *)
Definition of_Z (z : Z) : spec_float := binary_normalize prec emax z 0 false.

Definition is_nan (a : spec_float) : bool :=
  match a with S754_nan => true | _ => false end.


(** Neither an infinity nor a NaN. *)
Definition is_finite (a : spec_float) : bool :=
  match a with S754_zero _ | S754_finite _ _ _ => true | _ => false end.



(** The literals of the two scripts. *)
Definition f0 : spec_float := S754_zero false.                           (* 0.0 *)
Definition f1 : spec_float := S754_finite false 4503599627370496 (-52).  (* 1.0 *)
Definition f2 : spec_float := S754_finite false 4503599627370496 (-51).  (* 2.0 *)
Definition f10 : spec_float := S754_finite false 5629499534213120 (-49). (* 10.0 *)
Definition f0_1 : spec_float := S754_finite false 7205759403792794 (-56).   (* 0.1 *)
Definition f0_5 : spec_float := S754_finite false 4503599627370496 (-53).   (* 0.5 *)
Definition f0_025 : spec_float := S754_finite false 7205759403792794 (-58). (* 0.025 *)
Definition f1e6 : spec_float := S754_finite false 8589934592000000 (-33).   (* 1e6 *)
Definition f10e3 : spec_float := S754_finite false 5497558138880000 (-39).  (* 10e3 *)
Definition f400e3 : spec_float := S754_finite false 6871947673600000 (-34). (* 400e3 *)
Definition f1e_6 : spec_float := S754_finite false 4722366482869645 (-72).  (* 1e-6 *)
Definition f0_95 : spec_float := S754_finite false 8556839292003942 (-53).  (* 0.95 *)
Definition f0_75 : spec_float := S754_finite false 6755399441055744 (-53).  (* 0.75 *)
Definition fm1 : spec_float := S754_finite true 4503599627370496 (-52).     (* -1.0 *)
Definition pi : spec_float := S754_finite false 7074237752028440 (-51).     (* np.pi *)
End B64.

(** numpy's float64 arrays are lists of binary64 values, its complex128
    arrays lists of pairs of them.  The four arithmetic operations, the square
    root and the comparisons are the operations of IEEE 754.  The routines
    whose results the standard does not fix to the bit (the norm of a complex
    number, the transcendental functions, the generated windows and grids,
    the order in which a scalar product is summed) belong to the numerical
    library of the platform: the programs are modelled over any such library. *)
Module Np.

Abbreviation float64 := spec_float.
Abbreviation ndarray := (list float64).
Abbreviation complex := (float64 * float64)%type.

(** Sum and product of two complex128 values, as numpy's loops compute
    them. *)
Definition Cadd (a b : complex) : complex :=
  (B64.add (fst a) (fst b), B64.add (snd a) (snd b)).
Definition Cmul (a b : complex) : complex :=
  (B64.sub (B64.mul (fst a) (fst b)) (B64.mul (snd a) (snd b)),
   B64.add (B64.mul (fst a) (snd b)) (B64.mul (snd a) (fst b))).
(** A float64 converted to complex128. *)
Definition of_real (x : float64) : complex := (x, B64.f0).
(** The Python literal [1j]. *)
Definition j1 : complex := (B64.f0, B64.f1).

(** Element-wise binary operation with numpy's broadcasting of one-element
    arrays; [None] is the [ValueError] of shapes that do not match. *)
Definition broadcast2 {A B C : Type} (f : A -> B -> C)
           (a : list A) (b : list B) : option (list C) :=
  if (length a =? length b)%nat then Some (zip_with f a b)
  else match a, b with
       | [x], _ => Some (map (f x) b)
       | _, [y] => Some (map (fun x => f x y) a)
       | _, _ => None
       end.

(** The routines of the numerical library that the two scripts use. *)
Class Library : Type := {
  (** the norm of a complex number, from its real and imaginary part *)
  hypot : float64 -> float64 -> float64;
  (** [numpy.arctan2(y, x)] on one pair of elements *)
  arctan2 : float64 -> float64 -> float64;
  (** [numpy.exp], [numpy.sin] and [numpy.sinc] on one element *)
  exp : float64 -> float64;
  sin : float64 -> float64;
  sinc : float64 -> float64;
  (** [numpy.linspace(start, stop, num)], which returns [num] samples, and
      [numpy.blackman(M)] *)
  linspace : float64 -> float64 -> nat -> ndarray;
  linspace_length :
    forall (start stop : float64) (num : nat),
      length (linspace start stop num) = num;
  blackman : nat -> ndarray;
  (** the scalar product of two arrays of one length *)
  dot : ndarray -> ndarray -> float64
}.

Section Functions.
Context {lib : Library}.

(** [numpy.abs] and [numpy.angle] of a complex number. *)
Definition abs (z : complex) : float64 := hypot (fst z) (snd z).
Definition angle (z : complex) : float64 := arctan2 (snd z) (fst z).

(** [numpy.correlate(a, v)] in its default mode ['valid']: the lags at
    which the shorter array lies inside the longer one, in increasing
    order, each the scalar product of the shorter array with the window of
    the longer one; [None] is the [ValueError] of an empty argument. *)
Definition correlate (a v : ndarray) : option ndarray :=
  match a, v with
  | [], _ | _, [] => None
  | _, _ =>
      if (length v <=? length a)%nat then
        Some (map (fun k => dot (firstn (length v) (skipn k a)) v)
                  (seq 0 (length a - length v + 1)))
      else
        Some (rev (map (fun k => dot (firstn (length a) (skipn k v)) a)
                       (seq 0 (length v - length a + 1))))
  end.
End Functions.

(** [a**2] of an array. *)
Definition square (a : ndarray) : ndarray := map (fun v => B64.mul v v) a.

(** The builtin [sum(a)]: the elements are added one after the other to the
    integer [0]. *)
Definition sum (a : ndarray) : float64 := fold_left B64.add a B64.f0.

(** [numpy.argmax]: the first position of the largest element, or of the
    first NaN. *)
Fixpoint argmax_from (best_i : nat) (best : float64) (i : nat) (l : ndarray)
  : nat :=
  match l with
  | [] => best_i
  | x :: l' =>
      if B64.leb x best then argmax_from best_i best (S i) l'
      else if B64.is_nan x then i
           else argmax_from i x (S i) l'
  end.

Definition argmax (l : ndarray) : nat :=
  match l with
  | [] => O
  | x :: l' => if B64.is_nan x then O else argmax_from 0 x 1 l'
  end.
End Np.

(* ===================================================================== *)
(** * The LabOne session *)
(* ===================================================================== *)

Module LabOne.
Import Py.

(** A node value: an integer or a float. *)
Inductive num : Type :=
| I (z : Z)
| F (x : spec_float).

(** An argument of [str.format]. *)
Inductive arg : Type :=
| AInt (z : Z)
| AFloat (x : spec_float)
| AStr (s : string).

(** The calls a script issues, in the order it issues them. *)
Inductive call : Type :=
| create_api_session (device_id : string) (apilevel : Z)
    (required_devtype : string) (required_options : option (list string))
    (required_err_msg : string)
| api_server_version_check
| default_output_mixer_channel
| daq_set (settings : list (string * num))
| daq_sync
| daq_setInt (path : string) (value : num)
| daq_setDouble (path : string) (value : num)
| daq_vectorWrite (path : string) (waveform : Np.ndarray)
| daq_getSample (path : string)
| daq_awgModule
| awgModule_set (path value : string)
| awgModule_execute
| awgModule_getString (path : string)
| awgModule_get (path : string)
| daq_scopeModule
| scopeModule_set (path : string) (value : num)
| scopeModule_subscribe (path : string)
| scopeModule_execute
| scopeModule_progress
| scopeModule_read (flat : bool)
| os_path_isdir (path : string)
| np_savetxt (file : string) (data : Np.ndarray)
| time_sleep (seconds : spec_float)
| print (text : string)
| print_format (template : string) (args : list arg)
| plt_show.

(** ** Synchronisation before dependent reads

    The calls that write a setting (of the device or of a module), the
    barrier, and the two calls that depend on the settings written before
    them: [getSample] in the demodulator example and the [vectorWrite] into the
    waveform slot selected before it in the AWG example. *)
Definition is_write (c : call) : bool :=
  match c with
  | daq_set _ | daq_setInt _ _ | daq_setDouble _ _ | daq_vectorWrite _ _
  | awgModule_set _ _ | scopeModule_set _ _ => true
  | _ => false
  end.

Definition is_sync (c : call) : bool :=
  match c with daq_sync => true | _ => false end.

Definition is_dependent_read (c : call) : bool :=
  match c with daq_getSample _ | daq_vectorWrite _ _ => true | _ => false end.

(** [pending]: no barrier has been issued since the last write (or at all).
    A dependent read is refused while [pending]. *)
Definition advance (pending : bool) (c : call) : option bool :=
  if is_dependent_read c && pending then None
  else Some (if is_sync c then false else if is_write c then true else pending).

Fixpoint scan (pending : bool) (tr : list call) : option bool :=
  match tr with
  | [] => Some pending
  | c :: tr' =>
      match advance pending c with
      | Some p => scan p tr'
      | None => None
      end
  end.

(** Every dependent read of [tr] comes after a barrier, with no write between
    that barrier and the read. *)
Definition sync_before_read (tr : list call) : Prop :=
  forall (pre : list call) (c : call) (post : list call),
    tr = pre ++ c :: post ->
    is_dependent_read c = true ->
    exists p1 p2 : list call,
      pre = p1 ++ daq_sync :: p2
      /\ forallb (fun c' => negb (is_write c')) p2 = true.

Section Discipline.
Context {S : Type} (calls : S -> list call).

(** Started with the pending state [b], the statement [m] appends only calls
    that [scan] accepts, and leaves the pending state [b'] when it returns. *)
Definition keeps {A : Type} (b : bool) (m : M S A) (b' : bool) : Prop :=
  forall s : S,
    exists (d : list call) (b1 : bool),
      calls (snd (m s)) = calls s ++ d
      /\ scan b d = Some b1
      /\ (forall a : A, fst (m s) = Returned a -> b1 = b').
End Discipline.

(** Strings as Python handles them in the scripts. *)

(** [Some rest] when [s] is [p] followed by [rest]. *)
Fixpoint strip_prefix (p s : string) : option string :=
  match p, s with
  | EmptyString, _ => Some s
  | String a p', String b s' =>
      if Ascii.eqb a b then strip_prefix p' s' else None
  | String _ _, EmptyString => None
  end.

(** [s.replace(old, new)] for a non-empty [old]: the occurrences of [old] are
    replaced from left to right, and the search resumes after each one;
    [skip] counts the characters of the occurrence still to be dropped. *)
Fixpoint replace_from (old new : string) (skip : nat) (s : string) : string :=
  match s with
  | EmptyString => EmptyString
  | String c s' =>
      match skip with
      | S k => replace_from old new k s'
      | O =>
          match strip_prefix old s with
          | Some _ => new +:+ replace_from old new (String.length old - 1) s'
          | None => String c (replace_from old new 0 s')
          end
      end
  end.

(** [s.replace(old, new)]; with an empty [old], [new] is put before every
    character and at the end. *)
Fixpoint replace_empty (new s : string) : string :=
  match s with
  | EmptyString => new
  | String c s' => new +:+ String c (replace_empty new s')
  end.

Definition replace (old new s : string) : string :=
  match old with
  | EmptyString => replace_empty new s
  | String _ _ => replace_from old new 0 s
  end.

(** [pat in s] *)
Fixpoint occurs (pat s : string) : bool :=
  match strip_prefix pat s with
  | Some _ => true
  | None =>
      match s with
      | EmptyString => false
      | String _ s' => occurs pat s'
      end
  end.

(** [sep.join(l)] *)
Fixpoint join (sep : string) (l : list string) : string :=
  match l with
  | [] => EmptyString
  | [x] => x
  | x :: l' => x +:+ sep +:+ join sep l'
  end.

(** [os.path.join(a, b)] for a relative [b], with the separator [sep]. *)
Definition path_join (sep a b : string) : string :=
  match a with
  | EmptyString => b
  | _ =>
      match strip_prefix (String.rev sep) (String.rev a) with
      | Some _ => a +:+ b
      | None => a +:+ sep +:+ b
      end
  end.

(** Every character of [s] satisfies [P]. *)
Fixpoint all_chars (P : ascii -> bool) (s : string) : bool :=
  match s with
  | EmptyString => true
  | String c s' => P c && all_chars P s'
  end.

(** The characters of Python's [str] of a float: digits, point, exponent
    and signs, and the letters of [inf] and [nan]. *)
Definition float_repr_char (c : ascii) : bool :=
  existsb (Ascii.eqb c) (list_ascii_of_string "0123456789.e+-infa").

Definition float_repr (s : string) : bool := all_chars float_repr_char s.

Definition not_underscore (c : ascii) : bool := negb (Ascii.eqb "_"%char c).

(** [str(n)] and ['%d' % n] of an integer. *)
Definition str_int (n : Z) : string := DecimalString.NilZero.string_of_int (Z.to_int n).

End LabOne.

(* ===================================================================== *)
(** * zhinst/examples/common/example_connect_config.py *)
(* ===================================================================== *)

Module ConnectConfig.
Import Py LabOne.
Local Open Scope py_scope.

(** What the data server and the device answer. *)
Record session : Type := {
  (** the exception [create_api_session] raises, if any *)
  connect_error : option exn;
  (** the device branch it returns *)
  device : string;
  (** [props['options']] and [props['devicetype']] *)
  options : list string;
  devicetype : string;
  (** [zhinst.utils.default_output_mixer_channel(props)] *)
  mixer_channel : Z;
  (** the dictionary [daq.getSample] returns *)
  demod_sample : gmap string Np.ndarray
}.

Definition emit (c : call) : M (list call) unit := modify (fun t => t ++ [c]).

(** [d[key]] of a sample dictionary. *)
Definition item (d : gmap string Np.ndarray) (key : string)
  : M (list call) Np.ndarray :=
  match d !! key with
  | Some v => ret v
  | None => raise (KeyError key)
  end.

(** [sample['x'] + 1j*sample['y']] *)
Definition x_plus_jy (sample : gmap string Np.ndarray)
  : M (list call) (list Np.complex) :=
  x <- item sample "x" ;;
  y <- item sample "y" ;;
  let jy := map (fun v => Np.Cmul Np.j1 (Np.of_real v)) y in
  match Np.broadcast2 (fun a b => Np.Cadd (Np.of_real a) b) x jy with
  | Some z => ret z
  | None => raise (ValueError "operands could not be broadcast together")
  end.


(** Session, the two bursts of settings, the settling time and the
    synchronisation (lines 59 to 123). *)
Definition configure (ses : session) (device_id : string)
           (amplitude : spec_float) : M (list call) unit :=
  let apilevel_example := 6%Z in
  let err_msg := "This example only supports instruments with demodulators." in
  emit (create_api_session device_id apilevel_example ".*LI|.*IA|.*IS" None
                           err_msg) ;;
  match connect_error ses with Some e => raise e | None => ret tt end ;;
  let device := device ses in
  emit api_server_version_check ;;
  let general_setting :=
    [("/" +:+ device +:+ "/demods/*/enable", I 0);
     ("/" +:+ device +:+ "/demods/*/trigger", I 0);
     ("/" +:+ device +:+ "/sigouts/*/enables/*", I 0);
     ("/" +:+ device +:+ "/scopes/*/enable", I 0)]
    ++ (if existsb (String.eqb "IA") (options ses)
        then [("/" +:+ device +:+ "/imps/*/enable", I 0)] else []) in
  emit (daq_set general_setting) ;;
  emit daq_sync ;;
  let out_channel := 0%Z in
  emit default_output_mixer_channel ;;
  let out_mixer_channel := mixer_channel ses in
  let in_channel := 0%Z in
  let demod_index := 0%Z in
  let osc_index := 0%Z in
  let demod_rate := B64.f10e3 in
  let time_constant := B64.f1e_6 in
  let sigins := "/" +:+ device +:+ "/sigins/" +:+ str_int in_channel in
  let demods := "/" +:+ device +:+ "/demods/" +:+ str_int demod_index in
  let sigouts := "/" +:+ device +:+ "/sigouts/" +:+ str_int out_channel in
  let exp_setting :=
    [(sigins +:+ "/ac", I 0);
     (sigins +:+ "/range", F (B64.mul B64.f2 amplitude));
     (demods +:+ "/enable", I 1);
     (demods +:+ "/rate", F demod_rate);
     (demods +:+ "/adcselect", I in_channel);
     (demods +:+ "/order", I 4);
     (demods +:+ "/timeconstant", F time_constant);
     (demods +:+ "/oscselect", I osc_index);
     (demods +:+ "/harmonic", I 1);
     ("/" +:+ device +:+ "/oscs/" +:+ str_int osc_index +:+ "/freq",
      F B64.f400e3);
     (sigouts +:+ "/on", I 1);
     (sigouts +:+ "/enables/" +:+ str_int out_mixer_channel, I 1);
     (sigouts +:+ "/range", I 1);
     (sigouts +:+ "/amplitudes/" +:+ str_int out_mixer_channel, F amplitude)]
    ++ (if String.prefix "HF2" (devicetype ses)
        then [(sigins +:+ "/diff", I 0); (sigouts +:+ "/add", I 0)]
        else []) in
  emit (daq_set exp_setting) ;;
  emit (time_sleep (B64.mul B64.f10 time_constant)) ;;
  emit daq_sync.

Section Numerical.
Context {lib : Np.Library}.

(** The two derived fields and the report (lines 131 to 134). *)
Definition add_R_phi (sample : gmap string Np.ndarray)
  : M (list call) (gmap string Np.ndarray) :=
  z <- x_plus_jy sample ;;
  let sample := <["R" := map Np.abs z]> sample in
  z <- x_plus_jy sample ;;
  let sample := <["phi" := map Np.angle z]> sample in
  r <- item sample "R" ;;
  match r with
  | r0 :: _ =>
      emit (print_format "Measured RMS amplitude is {:.3e} V." [AFloat r0]) ;;
      ret sample
  | [] => raise (IndexError "index 0 is out of bounds")
  end.

Definition run_example (ses : session) (device_id : string)
           (amplitude : spec_float) : M (list call) (gmap string Np.ndarray) :=
  configure ses device_id amplitude ;;
  let demod_index := 0%Z in
  emit (daq_getSample ("/" +:+ device ses +:+ "/demods/" +:+ str_int demod_index
                           +:+ "/sample")) ;;
  let sample := demod_sample ses in
  add_R_phi sample.
End Numerical.

End ConnectConfig.

(* ===================================================================== *)
(** * zhinst/examples/uhf/example_awg.py *)
(* ===================================================================== *)

Module Awg.
Import Py LabOne.
Local Open Scope py_scope.

(** One record of scope data, [data_read[wave_nodepath][0][0]]; [wave] holds
    the samples of each channel as [np.double] converts them. *)
Record scope_data : Type := {
  channelenable : list bool;
  wave : list Np.ndarray;
  channelscaling : Np.ndarray;
  channeloffset : Np.ndarray;
  dt : Np.float64;
  timestamp : Z;
  triggertimestamp : Z
}.

(** What the data server, the device and the file system answer.  A node that
    is read several times answers the [n]-th read with the [n]-th value of its
    sequence. *)
Record session : Type := {
  (** the exception [create_api_session] raises, if any *)
  connect_error : option exn;
  (** the device branch it returns, and [props['options']] *)
  device : string;
  options : list string;
  (** [os.sep], [awgModule/directory], and [os.path.isdir(wave_dir)] *)
  os_sep : string;
  data_dir : string;
  wave_dir_isdir : bool;
  (** [awgModule/compiler/status] and [awgModule/compiler/statusstring] *)
  compiler_status : nat -> Z;
  compiler_statusstring : string;
  (** [awgModule/progress] *)
  awg_progress : nat -> spec_float;
  (** [scopeModule.progress()[0]] *)
  scope_progress : nat -> spec_float;
  (** [scopeModule.read(True)] *)
  data_read : list (string * list (list scope_data))
}.

(** The calls issued so far, and how often each polled node has been read. *)
Record world : Type := {
  trace : list call;
  status_reads : nat;
  progress_reads : nat;
  scope_polls : nat
}.

Definition start : world :=
  {| trace := []; status_reads := 0; progress_reads := 0; scope_polls := 0 |}.

Definition emit (c : call) : M world unit :=
  modify (fun w =>
    {| trace := trace w ++ [c]; status_reads := status_reads w;
       progress_reads := progress_reads w; scope_polls := scope_polls w |}).

(** [awgModule.get('awgModule/compiler/status')['compiler']['status'][0]] *)
Definition get_compiler_status (ses : session) : M world Z :=
  fun w =>
    (Returned (compiler_status ses (status_reads w)),
     {| trace := trace w ++ [awgModule_get "awgModule/compiler/status"];
        status_reads := S (status_reads w);
        progress_reads := progress_reads w; scope_polls := scope_polls w |}).

(** [awgModule.get('awgModule/compiler/statusstring')['compiler']['statusstring'][0]] *)
Definition get_compiler_statusstring (ses : session) : M world string :=
  emit (awgModule_get "awgModule/compiler/statusstring") ;;
  ret (compiler_statusstring ses).

(** [awgModule.get('awgModule/progress')['progress'][0]] *)
Definition get_awg_progress (ses : session) : M world spec_float :=
  fun w =>
    (Returned (awg_progress ses (progress_reads w)),
     {| trace := trace w ++ [awgModule_get "awgModule/progress"];
        status_reads := status_reads w;
        progress_reads := S (progress_reads w); scope_polls := scope_polls w |}).

(** [scopeModule.progress()[0]] *)
Definition get_scope_progress (ses : session) : M world spec_float :=
  fun w =>
    (Returned (scope_progress ses (scope_polls w)),
     {| trace := trace w ++ [scopeModule_progress];
        status_reads := status_reads w;
        progress_reads := progress_reads w; scope_polls := S (scope_polls w) |}).

(** ** The sequencer program and the four waveforms *)

Definition AWG_N : Z := 2000.

Definition nl : string := String "010"%char EmptyString.
Definition dquote : string := String "034"%char EmptyString.

(** The text between the triple quotes. *)
Definition awg_program_template : string :=
  Eval cbv in
    (nl +:+ "const AWG_N = _c1_;" +:+ nl
     +:+ "wave w0 = " +:+ dquote +:+ "wave0" +:+ dquote +:+ ";" +:+ nl
     +:+ "wave w1 = gauss(AWG_N, AWG_N/2, AWG_N/20);" +:+ nl
     +:+ "wave w2 = vect(_w2_);" +:+ nl
     +:+ "wave w3 = zeros(AWG_N);" +:+ nl
     +:+ "while(getUserReg(0) == 0);" +:+ nl
     +:+ "setTrigger(1);" +:+ nl
     +:+ "setTrigger(0);" +:+ nl
     +:+ "playWave(w0);" +:+ nl
     +:+ "playWave(w1);" +:+ nl
     +:+ "playWave(w2);" +:+ nl
     +:+ "playWave(w3);" +:+ nl).

(** The program text around the two placeholders. *)
Definition program_before_c1 : string :=
  Eval cbv in (nl +:+ "const AWG_N = ").

Definition program_between : string :=
  Eval cbv in
    (";" +:+ nl
     +:+ "wave w0 = " +:+ dquote +:+ "wave0" +:+ dquote +:+ ";" +:+ nl
     +:+ "wave w1 = gauss(AWG_N, AWG_N/2, AWG_N/20);" +:+ nl
     +:+ "wave w2 = vect(").

Definition program_tail : string :=
  Eval cbv in
    (");" +:+ nl
     +:+ "wave w3 = zeros(AWG_N);" +:+ nl
     +:+ "while(getUserReg(0) == 0);" +:+ nl
     +:+ "setTrigger(1);" +:+ nl
     +:+ "setTrigger(0);" +:+ nl
     +:+ "playWave(w0);" +:+ nl
     +:+ "playWave(w1);" +:+ nl
     +:+ "playWave(w2);" +:+ nl
     +:+ "playWave(w3);" +:+ nl).

Section Numerical.
Context {lib : Np.Library}.

(** [-1.0 * np.blackman(AWG_N)] *)
Definition waveform_0 : Np.ndarray :=
  map (fun v => B64.mul B64.fm1 v) (Np.blackman (Z.to_nat AWG_N)).

(** [AWG_N/20], a true division *)
Definition width : Np.float64 := B64.div (B64.of_Z AWG_N) (B64.of_Z 20).

(** [np.exp(-(np.linspace(-AWG_N/2, AWG_N/2, AWG_N))**2/(2*width**2))]: the
    grid is squared, negated and divided. *)
Definition waveform_1 : Np.ndarray :=
  map (fun v =>
         Np.exp (B64.div (B64.opp (B64.mul v v))
                         (B64.mul (B64.of_Z 2) (B64.mul width width))))
      (Np.linspace (B64.div (B64.of_Z (- AWG_N)) (B64.of_Z 2))
                   (B64.div (B64.of_Z AWG_N) (B64.of_Z 2)) (Z.to_nat AWG_N)).

(** [np.sin(np.linspace(0, 2*np.pi, AWG_N))] *)
Definition waveform_2 : Np.ndarray :=
  map Np.sin (Np.linspace (B64.of_Z 0) (B64.mul (B64.of_Z 2) B64.pi)
                          (Z.to_nat AWG_N)).

(** [np.sinc(np.linspace(-6*np.pi, 6*np.pi, AWG_N))] *)
Definition waveform_3 : Np.ndarray :=
  map Np.sinc (Np.linspace (B64.mul (B64.of_Z (-6)) B64.pi)
                           (B64.mul (B64.of_Z 6) B64.pi) (Z.to_nat AWG_N)).

(** The two [replace] calls; [float_str] is [str] on a numpy float64. *)
Definition fill_program (float_str : Np.float64 -> string) : string :=
  let awg_program := awg_program_template in
  let awg_program :=
    replace "_w2_" (join "," (map float_str waveform_2)) awg_program in
  let awg_program := replace "_c1_" (str_int AWG_N) awg_program in
  awg_program.

(** ** The phases of [run_example] *)

(** Session and the two bursts of settings (lines 63 to 110). *)
Definition configure (ses : session) (device_id : string) : M world unit :=
  let apilevel_example := 6%Z in
  let err_msg :=
    "This example can only be ran on either a UHFAWG or a UHF with the AWG option enabled." in
  emit (create_api_session device_id apilevel_example "UHF" (Some ["AWG"])
                           err_msg) ;;
  match connect_error ses with Some e => raise e | None => ret tt end ;;
  let device := device ses in
  emit api_server_version_check ;;
  let general_setting :=
    [("/" +:+ device +:+ "/demods/*/enable", I 0);
     ("/" +:+ device +:+ "/demods/*/trigger", I 0);
     ("/" +:+ device +:+ "/sigouts/*/enables/*", I 0);
     ("/" +:+ device +:+ "/scopes/*/enable", I 0)]
    ++ (if existsb (String.eqb "IA") (options ses)
        then [("/" +:+ device +:+ "/imps/*/enable", I 0)] else []) in
  emit (daq_set general_setting) ;;
  emit daq_sync ;;
  let out_channel := 0%Z in
  let out_mixer_channel := 3%Z in
  let in_channel := 0%Z in
  let osc_index := 0%Z in
  let awg_channel := 0%Z in
  let frequency := B64.f1e6 in
  let amplitude := B64.f1 in
  let sigins := "/" +:+ device +:+ "/sigins/" +:+ str_int in_channel in
  let sigouts := "/" +:+ device +:+ "/sigouts/" +:+ str_int out_channel in
  let exp_setting :=
    [(sigins +:+ "/imp50", I 1);
     (sigins +:+ "/ac", I 0);
     (sigins +:+ "/diff", I 0);
     (sigins +:+ "/range", I 1);
     ("/" +:+ device +:+ "/oscs/" +:+ str_int osc_index +:+ "/freq", F frequency);
     (sigouts +:+ "/on", I 1);
     (sigouts +:+ "/range", I 1);
     (sigouts +:+ "/enables/" +:+ str_int out_mixer_channel, I 1);
     (sigouts +:+ "/amplitudes/*", F B64.f0);
     ("/" +:+ device +:+ "/awgs/0/outputs/" +:+ str_int awg_channel
          +:+ "/amplitude", F amplitude);
     ("/" +:+ device +:+ "/awgs/0/outputs/0/mode", I 0);
     ("/" +:+ device +:+ "/awgs/0/time", I 0);
     ("/" +:+ device +:+ "/awgs/0/userregs/0", I 0)] in
  emit (daq_set exp_setting) ;;
  emit daq_sync.

(** The AWG module, the CSV file of [wave0], and the transfer of the program
    (lines 161 to 178). *)
Definition submit_program (ses : session) (awg_program : string) : M world unit :=
  emit daq_awgModule ;;
  emit (awgModule_set "awgModule/device" (device ses)) ;;
  emit awgModule_execute ;;
  emit (awgModule_getString "awgModule/directory") ;;
  let data_dir := data_dir ses in
  let wave_dir :=
    path_join (os_sep ses) (path_join (os_sep ses) data_dir "awg") "waves" in
  emit (os_path_isdir wave_dir) ;;
  (if negb (wave_dir_isdir ses) then
     raise (Exception_ ("AWG module wave directory " +:+ wave_dir
                        +:+ " does not exist or is not a directory"))
   else ret tt) ;;
  let csv_file := path_join (os_sep ses) wave_dir "wave0.csv" in
  emit (np_savetxt csv_file waveform_0) ;;
  emit (awgModule_set "awgModule/compiler/sourcestring" awg_program).

(** [while status == -1: time.sleep(0.1)] (lines 181 and 182). *)
Definition wait_compile (fuel : nat) (ses : session) : M world unit :=
  while_ fuel
    (fun _ : unit => st <- get_compiler_status ses ;; ret (st =? -1)%Z)
    (fun _ => emit (time_sleep B64.f0_1))
    tt.

(** [while progress < 1.0: ...] (lines 195 to 199); the value is the final
    [i]. *)
Definition wait_upload (fuel : nat) (ses : session) : M world Z :=
  while_ fuel
    (fun _ : Z => p <- get_awg_progress ses ;; ret (B64.ltb p B64.f1))
    (fun i =>
       p <- get_awg_progress ses ;;
       emit (print_format "{} progress: {}" [AInt i; AFloat p]) ;;
       emit (time_sleep B64.f0_5) ;;
       ret (i + 1)%Z)
    0%Z.

(** The branch on the compiler status (lines 184 to 199). *)
Definition check_compile (fuel : nat) (ses : session) : M world unit :=
  st <- get_compiler_status ses ;;
  if (st =? 1)%Z then
    msg <- get_compiler_statusstring ses ;;
    raise (Exception_ msg)
  else
    st <- get_compiler_status ses ;;
    (if (st =? 0)%Z then
       emit (print "Compilation successful with no warnings, will upload the program to the instrument.")
     else ret tt) ;;
    st <- get_compiler_status ses ;;
    (if (st =? 2)%Z then
       emit (print "Compilation successful with warnings, will upload the program to the instrument.") ;;
       msg <- get_compiler_statusstring ses ;;
       emit (print ("Compiler warning: " +:+ msg))
     else ret tt) ;;
    wait_upload fuel ses ;;
    ret tt.

(** Replacing wave [w3] (lines 202 to 213). *)
Definition replace_waveform (ses : session) : M world unit :=
  let index := 2%Z in
  emit (daq_setInt ("/" +:+ device ses +:+ "/awgs/0/waveform/index") (I index)) ;;
  emit daq_sync ;;
  emit (daq_vectorWrite ("/" +:+ device ses +:+ "/awgs/0/waveform/data")
                        waveform_3).

(** Scope and scope module, and the start of the AWG (lines 218 to 272). *)
Definition arm_scope (ses : session) : M world unit :=
  let device := device ses in
  let in_channel := 0%Z in
  let scope := "/" +:+ device +:+ "/scopes/0" in
  emit (daq_setInt (scope +:+ "/channels/0/inputselect") (I in_channel)) ;;
  emit (daq_setInt (scope +:+ "/time") (I 0)) ;;
  emit (daq_setInt (scope +:+ "/trigenable") (I 1)) ;;
  emit (daq_setInt (scope +:+ "/enable") (I 0)) ;;
  emit (daq_setInt (scope +:+ "/length") (I 16836)) ;;
  emit (daq_setInt (scope +:+ "/trigenable") (I 1)) ;;
  emit (daq_setInt (scope +:+ "/trigchannel") (I 192)) ;;
  emit (daq_setInt (scope +:+ "/trigslope") (I 1)) ;;
  emit (daq_setDouble (scope +:+ "/trighysteresis/mode") (I 0)) ;;
  emit (daq_setDouble (scope +:+ "/trighysteresis/relative") (F B64.f0_025)) ;;
  emit (daq_setDouble (scope +:+ "/trigdelay") (F B64.f0)) ;;
  emit (daq_setDouble (scope +:+ "/trigholdoff") (F B64.f0_025)) ;;
  emit daq_scopeModule ;;
  emit (scopeModule_set "scopeModule/mode" (I 0)) ;;
  emit (scopeModule_subscribe ("/" +:+ device +:+ "/scopes/0/wave")) ;;
  emit (daq_setInt (scope +:+ "/single") (I 1)) ;;
  emit scopeModule_execute ;;
  emit (daq_set [("/" +:+ device +:+ "/awgs/0/single", I 1);
                 ("/" +:+ device +:+ "/awgs/0/enable", I 1)]) ;;
  emit daq_sync ;;
  emit (daq_setInt (scope +:+ "/enable") (I 1)) ;;
  emit daq_sync ;;
  emit (time_sleep B64.f1) ;;
  emit (daq_setDouble ("/" +:+ device +:+ "/awgs/0/userregs/0") (I 1)).

(** [while scopeModule.progress()[0] < 1.0 and local_timeout > 0: ...]
    (lines 275 to 278); the value is the final [local_timeout]. *)
Definition wait_scope (fuel : nat) (ses : session) : M world spec_float :=
  let local_timeout := B64.f2 in
  while_ fuel
    (fun local_timeout =>
       p <- get_scope_progress ses ;;
       ret (B64.ltb p B64.f1 && B64.ltb B64.f0 local_timeout))
    (fun local_timeout =>
       emit (time_sleep B64.f0_1) ;;
       ret (B64.sub local_timeout B64.f0_1))
    local_timeout.

(** Disabling the scope and reading its data (lines 281 to 286). *)
Definition read_scope (ses : session) : M world scope_data :=
  emit (daq_setInt ("/" +:+ device ses +:+ "/scopes/0/enable") (I 0)) ;;
  emit (scopeModule_read true) ;;
  let data_read := data_read ses in
  let wave_nodepath := "/" +:+ device ses +:+ "/scopes/0/wave" in
  match find (fun kv => String.eqb wave_nodepath (fst kv)) data_read with
  | None =>
      raise (AssertionError ("Error: The subscribed data `" +:+ wave_nodepath
                             +:+ "` was returned."))
  | Some (_, records) =>
      match records with
      | (data :: _) :: _ => ret data
      | _ => raise (IndexError "list index out of range")
      end
  end.

(** [a[n]] of a list. *)
Definition index {A : Type} (a : list A) (n : nat) : M world A :=
  match nth_error a n with
  | Some v => ret v
  | None => raise (IndexError "list index out of range")
  end.

(** The loop over the channels (lines 289 to 293): [y] is [y_measured],
    unbound until an enabled channel is met.  [x_measured], which only the
    plot uses, is left out. *)
Fixpoint measured_signal (data : scope_data) (ns : list nat)
         (y : option Np.ndarray) : M world (option Np.ndarray) :=
  match ns with
  | [] => ret y
  | n :: ns' =>
      p <- index (channelenable data) n ;;
      if p : bool then
        w <- index (wave data) n ;;
        scaling <- index (channelscaling data) n ;;
        offset <- index (channeloffset data) n ;;
        measured_signal data ns'
          (Some (map (fun v => B64.add (B64.mul v scaling) offset) w))
      else measured_signal data ns' y
  end.

Definition full_scale : Np.float64 := B64.f0_75.
Definition amplitude : Np.float64 := B64.f1.

(** [np.concatenate((waveform_0, .., waveform_3))*full_scale*amplitude] *)
Definition y_expected : Np.ndarray :=
  map (fun v => B64.mul (B64.mul v full_scale) amplitude)
      (waveform_0 ++ waveform_1 ++ waveform_2 ++ waveform_3).

(** [corr_meas_expect[index_match]/np.sqrt(sum(y_measured**2)*sum(y_expected**2))] *)
Definition norm_correlation_coeff (corr_meas_expect : Np.ndarray)
           (index_match : nat) (y_measured y_expected : Np.ndarray)
  : Np.float64 :=
  B64.div (nth index_match corr_meas_expect B64.f0)
          (B64.sqrt (B64.mul (Np.sum (Np.square y_measured))
                             (Np.sum (Np.square y_expected)))).

(** Comparison of the measured with the expected signal (lines 301 to 332);
    of the plotting branch only the [print] and the final [plt.show()] are
    kept.  The value is the coefficient. *)
Definition verify (do_plot : bool) (y_measured : option Np.ndarray)
           (y_expected : Np.ndarray) : M world Np.float64 :=
  match y_measured with
  | None => raise (NameError "y_measured")
  | Some y_measured =>
      match Np.correlate y_measured y_expected with
      | None => raise (ValueError "Array arguments cannot be empty")
      | Some corr_meas_expect =>
          let index_match := Np.argmax corr_meas_expect in
          (if do_plot then
             emit (print "Plotting the expected and measured AWG signal.") ;;
             emit plt_show
           else ret tt) ;;
          let coeff :=
            norm_correlation_coeff corr_meas_expect index_match
                                   y_measured y_expected in
          assert_ (B64.ltb B64.f0_95 coeff)
            "Detected a disagreement between the measured and expected signals" ;;
          emit (print_format
                  "Measured and expected signals agree, normalized correlation coefficient: {}."
                  [AFloat coeff]) ;;
          ret coeff
      end
  end.

(** [run_example(device_id, do_plot)].  [fuel] bounds the number of
    iterations of each of the three [while] loops. *)
Definition run_example (fuel : nat) (float_str : Np.float64 -> string)
           (ses : session)
           (device_id : string) (do_plot : bool)
  : M world (list (string * list (list scope_data))) :=
  configure ses device_id ;;
  let awg_program := fill_program float_str in
  submit_program ses awg_program ;;
  wait_compile fuel ses ;;
  check_compile fuel ses ;;
  replace_waveform ses ;;
  arm_scope ses ;;
  wait_scope fuel ses ;;
  data <- read_scope ses ;;
  y_measured <-
    measured_signal data (seq 0 (length (channelenable data))) None ;;
  verify do_plot y_measured y_expected ;;
  ret (data_read ses).
End Numerical.

(** ** What the loops leave in the trace *)

(** [k] turns of the compilation wait loop: a status read and a sleep each. *)
Fixpoint compile_polls (k : nat) : list call :=
  match k with
  | O => []
  | S k' =>
      awgModule_get "awgModule/compiler/status" :: time_sleep B64.f0_1
      :: compile_polls k'
  end.

(** The world after [k] turns of that loop and the read that ends it. *)
Definition after_wait_compile (w : world) (k : nat) : world :=
  {| trace := trace w ++ compile_polls k
                      ++ [awgModule_get "awgModule/compiler/status"];
     status_reads := status_reads w + k + 1;
     progress_reads := progress_reads w;
     scope_polls := scope_polls w |}.

(** [n] turns of the scope wait loop: a progress poll and a sleep each. *)
Fixpoint scope_turns (n : nat) : list call :=
  match n with
  | O => []
  | S n' => scopeModule_progress :: time_sleep B64.f0_1 :: scope_turns n'
  end.

(** [local_timeout -= 0.1], and [local_timeout] after [n] turns. *)
Definition decrement (local_timeout : spec_float) : spec_float :=
  B64.sub local_timeout B64.f0_1.

Definition local_timeout_after (n : nat) : spec_float :=
  Nat.iter n decrement B64.f2.

End Awg.


(* ===================================================================== *)
(** * Version 0.2/WhiteLight.py: the panels and the connect buttons *)
(* ===================================================================== *)

Module WhiteLightWiring.
Import Py.
Local Open Scope py_scope.

(** A panel as the grid manager sees it: the cell it is shown in, if any, and
    its label widget. *)
Record panel : Type := {
  cell : option (Z * Z);
  labelwidget : option string
}.

(** A read-only combobox: its identity and the value selected in it. *)
Record combobox : Type := {
  box_id : string;
  selection : string
}.

(** [w.grid_forget()], [w.configure(labelwidget = Box)] and
    [w.grid(row = rw, column = clm, ...)]. *)
Definition grid_forget (p : panel) : panel :=
  {| cell := None; labelwidget := labelwidget p |}.

Definition configure_labelwidget (Box : combobox) (p : panel) : panel :=
  {| cell := cell p; labelwidget := Some (box_id Box) |}.

Definition grid (rw clm : Z) (p : panel) : panel :=
  {| cell := Some (rw, clm); labelwidget := labelwidget p |}.

(** [f] applied to the widget [lst[element]]: a dictionary of panels is the
    list of its items in insertion order, and the widget found under a key
    is the first one with that key. *)
Fixpoint on_item (element : string) (f : panel -> panel)
         (lst : list (string * panel)) : list (string * panel) :=
  match lst with
  | [] => []
  | (k, p) :: lst' =>
      if String.eqb element k then (k, f p) :: lst'
      else (k, p) :: on_item element f lst'
  end.

(** [Switch_Frame(lst, Box, rw, clm)] of [__init__]: the two loops over the
    keys of [lst]. *)
Definition Switch_Frame (lst : list (string * panel)) (Box : combobox)
           (rw clm : Z) : list (string * panel) :=
  let Current := selection Box in
  let lst :=
    fold_left (fun l element => on_item element grid_forget l)
              (map fst lst) lst in
  let lst :=
    fold_left
      (fun l element =>
         if String.eqb element Current then
           on_item element
                   (fun p => grid rw clm (configure_labelwidget Box p)) l
         else l)
      (map fst lst) lst in
  lst.

(** What a switch is to leave of an item: the panel under the selected
    value shown in the cell [(rw, clm)] and labelled with the combobox, every
    other panel hidden. *)
Definition switched (Box : combobox) (rw clm : Z) (kp : string * panel)
  : string * panel :=
  (fst kp,
   if String.eqb (fst kp) (selection Box)
   then grid rw clm (configure_labelwidget Box (grid_forget (snd kp)))
   else grid_forget (snd kp)).

(** The call-back bound to ["<<ComboboxSelected>>"],
    [lambda x : Switch_Frame(Flist, Box, rw, clm)], on the panels of [Flist]. *)
Definition Combobox_binding (Box : combobox) (rw clm : Z)
  : list pyval -> M (list (string * panel)) unit :=
  def1 "<lambda>" (fun x => modify (fun lst => Switch_Frame lst Box rw clm)).

(** The keys of a dictionary are pairwise different. *)
Fixpoint distinct (keys : list string) : bool :=
  match keys with
  | [] => true
  | k :: keys' => negb (existsb (String.eqb k) keys') && distinct keys'
  end.

(** The call-backs bound to ['<Button-1>'] of the two connect buttons at the
    end of the module: [lambda x : Refresh(app, frame, PI_Control)] and
    [lambda x : Refresh(app, ZiFrame, ZI_Control)]. *)
Section Connect_buttons.
Variable Tk_attrs : list (string * pyval).
Variable Show_device : pyval -> M WhiteLight.gui pyval.
Variable Zi_settings_call :
  pyval -> pyval -> pyval -> pyval -> M WhiteLight.gui unit.

Definition PI_CButton_binding : list pyval -> M WhiteLight.gui unit :=
  def1 "<lambda>" (fun x =>
    let locals := [("x", x)] in
    _Refresh <- load_name locals WhiteLight.module_globals WhiteLight.builtins
                          "Refresh" ;;
    app <- load_name locals WhiteLight.module_globals WhiteLight.builtins "app" ;;
    frame <- load_name locals WhiteLight.module_globals WhiteLight.builtins
                       "frame" ;;
    PI_Control <- load_name locals WhiteLight.module_globals WhiteLight.builtins
                            "PI_Control" ;;
    WhiteLight.Refresh Tk_attrs Show_device Zi_settings_call
                       [app; frame; PI_Control]).

Definition ZI_CButton_binding : list pyval -> M WhiteLight.gui unit :=
  def1 "<lambda>" (fun x =>
    let locals := [("x", x)] in
    _Refresh <- load_name locals WhiteLight.module_globals WhiteLight.builtins
                          "Refresh" ;;
    app <- load_name locals WhiteLight.module_globals WhiteLight.builtins "app" ;;
    ZiFrame <- load_name locals WhiteLight.module_globals WhiteLight.builtins
                         "ZiFrame" ;;
    ZI_Control <- load_name locals WhiteLight.module_globals WhiteLight.builtins
                            "ZI_Control" ;;
    WhiteLight.Refresh Tk_attrs Show_device Zi_settings_call
                       [app; ZiFrame; ZI_Control]).
End Connect_buttons.

End WhiteLightWiring.

(* ===================================================================== *)
(** * zhinst/examples/uhf/example_awg.py: sessions and traces of whole runs *)
(* ===================================================================== *)

Module AwgRuns.
Import Py LabOne Awg.

(** [wave_dir] of [run_example]. *)
Definition wave_dir (ses : session) : string :=
  path_join (os_sep ses) (path_join (os_sep ses) (data_dir ses) "awg") "waves".

(** [k] turns of the upload wait loop that starts with [n] reads of the
    progress behind it and with the counter [i]: the read that is tested, the
    read that is printed, the print and the sleep. *)
Fixpoint upload_turns (ses : session) (n : nat) (i : Z) (k : nat) : list call :=
  match k with
  | O => []
  | S k' =>
      awgModule_get "awgModule/progress"
      :: awgModule_get "awgModule/progress"
      :: print_format "{} progress: {}" [AInt i; AFloat (awg_progress ses (S n))]
      :: time_sleep B64.f0_5
      :: upload_turns ses (S (S n)) (i + 1) k'
  end.

(** The compiler is busy for [k] reads of its status and has not failed at
    the read after the one that ends the wait. *)
Definition compiles_after (ses : session) (k : nat) : Prop :=
  (forall i, i < k -> compiler_status ses i = (-1)%Z)
  /\ compiler_status ses k <> (-1)%Z
  /\ compiler_status ses (k + 1) <> 1%Z.

(** The upload is found incomplete at [j] tests of its progress and complete
    at the next one (every turn reads the progress twice). *)
Definition uploads_after (ses : session) (j : nat) : Prop :=
  (forall i, i < j -> B64.ltb (awg_progress ses (2 * i)) B64.f1 = true)
  /\ B64.ltb (awg_progress ses (2 * j)) B64.f1 = false.

(** A session with which [run_example] gets as far as reading the scope. *)
Definition reaches_capture (ses : session) (k j : nat) : Prop :=
  connect_error ses = None
  /\ wave_dir_isdir ses = true
  /\ compiles_after ses k
  /\ uploads_after ses j.

(** The part of [run_example] from the read of the scope data on. *)
Definition capture_and_verify {lib : Np.Library} (ses : session)
           (do_plot : bool)
  : M world (list (string * list (list scope_data))) :=
  bind (read_scope ses) (fun data =>
  bind (measured_signal data (seq 0 (length (channelenable data))) None)
       (fun y_measured =>
  bind (verify do_plot y_measured y_expected) (fun _ =>
  ret (data_read ses)))).

(** The scaled wave of channel [i]. *)
Definition channel_signal (data : scope_data) (i : nat) : option Np.ndarray :=
  match nth_error (wave data) i, nth_error (channelscaling data) i,
        nth_error (channeloffset data) i with
  | Some w, Some scaling, Some offset =>
      Some (map (fun v => B64.add (B64.mul v scaling) offset) w)
  | _, _, _ => None
  end.

End AwgRuns.
(* ===================================================================== *)
(** * Sample inputs *)
(* ===================================================================== *)

(** A ZI settings bundle and a PI bundle of connected devices, and a chosen
    directory. *)
Definition zi_connected : Py.pyval :=
  Py.VDict [("DAQ", Py.VObj "ziDAQServer" []);
            ("Device_id", Py.VStringVar "dev2006")].
Definition pi_connected : Py.pyval :=
  Py.VDict [("C-863", Py.VObj "GCSDevice" [])].
Definition chosen_dir : Py.pyval := Py.VStringVar "/home/lab/settings".

(** The window right after [__init__], neither device connected. *)
Definition fresh_gui : WhiteLight.gui :=
  {| WhiteLight.PI_Data := Py.VNone;
     WhiteLight.Zi_Data := Py.VNone;
     WhiteLight.ZiFrame :=
       Py.VObj "ZiFrame" [("connected", Py.VBool false)];
     WhiteLight.frame :=
       Py.VObj "frame" [("connected", Py.VBool false)];
     WhiteLight.PI_Control := Py.VObj "PI_Control" [];
     WhiteLight.ZI_Control := Py.VObj "ZI_Control" [];
     WhiteLight.File_Dialog :=
       Py.VObj "File_Dialog"
               [("DirVar", Py.VStringVar ""); ("File_InDir", Py.VObj "Listbox" [])];
     WhiteLight.effects := [] |}.

(** Some of the methods [tk.Tk] provides. *)
Definition some_Tk_attrs : list (string * Py.pyval) :=
  map (fun n => (n, Py.VObj n []))
      ["after"; "geometry"; "mainloop"; "winfo_screenwidth";
       "winfo_screenheight"; "tk"; "master"; "children"].

(** ** A numerical library for the examples

    Its [hypot] is the correctly rounded norm: the square root, rounded once,
    of the exact sum of the two squares.  The other routines are the simplest
    of their shape, enough to run the examples: the first terms of the series
    for [arctan2], [exp], [sin] and [sinc], an evenly spaced grid computed in
    binary64, a window of ones, and a scalar product summed from left to
    right. *)
Definition sum_of_squares (mx : positive) (ex : Z) (my : positive) (ey : Z)
  : positive * Z :=
  let e := Z.min ex ey in
  let X := Z.shiftl (Zpos mx) (ex - e) in
  let Y := Z.shiftl (Zpos my) (ey - e) in
  (Z.to_pos (X * X + Y * Y), (2 * e)%Z).

Definition rounded_hypot (x y : Np.float64) : Np.float64 :=
  match x, y with
  | S754_infinity _, _ | _, S754_infinity _ => S754_infinity false
  | S754_nan, _ | _, S754_nan => S754_nan
  | S754_zero _, _ => SFabs y
  | _, S754_zero _ => SFabs x
  | S754_finite _ mx ex, S754_finite _ my ey =>
      let '(m, e) := sum_of_squares mx ex my ey in
      B64.sqrt (S754_finite false m e)
  end.

Definition grid (start stop : Np.float64) (num : nat) : Np.ndarray :=
  let step := B64.div (B64.sub stop start) (B64.of_Z (Z.of_nat num - 1)) in
  map (fun i => B64.add start (B64.mul (B64.of_Z (Z.of_nat i)) step))
      (seq 0 num).

Definition left_to_right_dot (a v : Np.ndarray) : Np.float64 :=
  fold_left B64.add (zip_with B64.mul a v) B64.f0.

#[global] Instance example_library : Np.Library :=
  {| Np.hypot := rounded_hypot;
     Np.arctan2 := fun y x => B64.div y x;
     Np.exp := fun x => B64.add B64.f1 x;
     Np.sin := fun x => x;
     Np.sinc := fun _ => B64.f1;
     Np.linspace := grid;
     Np.linspace_length :=
       fun start stop num =>
         eq_trans (length_map _ (seq 0 num)) (length_seq num 0);
     Np.blackman := fun M => repeat B64.f1 M;
     Np.dot := left_to_right_dot |}.

(** The numbers of the examples. *)
Definition f3 : Np.float64 := S754_finite false 6755399441055744 (-51).      (* 3.0 *)
Definition f4 : Np.float64 := S754_finite false 4503599627370496 (-50).      (* 4.0 *)
Definition f1e200 : Np.float64 := S754_finite false 5883593420661338 612.    (* 1e200 *)
Definition f1e_200 : Np.float64 := S754_finite false 6894565328877484 (-717). (* 1e-200 *)

(** A device that answers one demodulator sample with x = 3 and y = 4. *)
Definition demod_session : ConnectConfig.session :=
  {| ConnectConfig.connect_error := None;
     ConnectConfig.device := "dev2006";
     ConnectConfig.options := ["MF"; "PID"];
     ConnectConfig.devicetype := "UHFLI";
     ConnectConfig.mixer_channel := 3;
     ConnectConfig.demod_sample :=
       <["x" := [f3]]> (<["y" := [f4]]> (<["frequency" := [B64.f400e3]]> ∅)) |}.



(** A UHF with the AWG option: the compiler is busy for two reads and then
    reports success, the upload is done at the third read of its progress,
    and the scope never reports a finished record. *)
Definition awg_session : Awg.session :=
  {| Awg.connect_error := None;
     Awg.device := "dev2006";
     Awg.options := ["AWG"; "MF"];
     Awg.os_sep := "/";
     Awg.data_dir := "/home/lab/Zurich Instruments/LabOne/WebServer";
     Awg.wave_dir_isdir := true;
     Awg.compiler_status := fun n => if (n <? 2)%nat then (-1)%Z else 0%Z;
     Awg.compiler_statusstring := "Compilation successful";
     Awg.awg_progress := fun n => if (n <? 2)%nat then B64.f0_5 else B64.f1;
     Awg.scope_progress := fun _ => B64.f0;
     Awg.data_read := [] |}.

(** The same device with an upload that never completes. *)
Definition stuck_upload_session : Awg.session :=
  {| Awg.connect_error := None;
     Awg.device := "dev2006";
     Awg.options := ["AWG"; "MF"];
     Awg.os_sep := "/";
     Awg.data_dir := "/home/lab/Zurich Instruments/LabOne/WebServer";
     Awg.wave_dir_isdir := true;
     Awg.compiler_status := fun n => if (n <? 2)%nat then (-1)%Z else 0%Z;
     Awg.compiler_statusstring := "Compilation successful";
     Awg.awg_progress := fun _ => B64.f0_5;
     Awg.scope_progress := fun _ => B64.f0;
     Awg.data_read := [] |}.

(** A device whose scope returns the expected signal on its first channel:
    the compiler is busy for two reads and then reports success, the upload
    and the scope record are complete at once. *)
Definition loopback_data : Awg.scope_data :=
  {| Awg.channelenable := [true];
     Awg.wave := [Awg.y_expected];
     Awg.channelscaling := [B64.f1];
     Awg.channeloffset := [B64.f0];
     Awg.dt := S754_finite false 5373003642731685 (-83);
     Awg.timestamp := 16836;
     Awg.triggertimestamp := 0 |}.

(** The signal of that channel. *)
Definition loopback_signal : Np.ndarray :=
  map (fun v => B64.add (B64.mul v B64.f1) B64.f0) Awg.y_expected.

Definition loopback_session : Awg.session :=
  {| Awg.connect_error := None;
     Awg.device := "dev2006";
     Awg.options := ["AWG"; "MF"];
     Awg.os_sep := "/";
     Awg.data_dir := "/home/lab/Zurich Instruments/LabOne/WebServer";
     Awg.wave_dir_isdir := true;
     Awg.compiler_status := fun n => if (n <? 2)%nat then (-1)%Z else 0%Z;
     Awg.compiler_statusstring := "Compilation successful";
     Awg.awg_progress := fun _ => B64.f1;
     Awg.scope_progress := fun _ => B64.f1;
     Awg.data_read := [("/dev2006/scopes/0/wave", [[loopback_data]])] |}.

(** The two connection panels of [Flist1], both hidden, and the combobox
    [CCBox] with its first value selected. *)
Definition hidden_panel : WhiteLightWiring.panel :=
  {| WhiteLightWiring.cell := None; WhiteLightWiring.labelwidget := None |}.

Definition Flist1 : list (string * WhiteLightWiring.panel) :=
  [("PI Module Connection", hidden_panel); ("ZI Module connection", hidden_panel)].

Definition CCBox : WhiteLightWiring.combobox :=
  {| WhiteLightWiring.box_id := "CCBox";
     WhiteLightWiring.selection := "PI Module Connection" |}.

(** A device that cannot be discovered, for either example. *)
Definition unreachable_demod_session : ConnectConfig.session :=
  {| ConnectConfig.connect_error :=
       Some (Py.RuntimeError "Unable to discover the device dev2006");
     ConnectConfig.device := "";
     ConnectConfig.options := [];
     ConnectConfig.devicetype := "";
     ConnectConfig.mixer_channel := 0;
     ConnectConfig.demod_sample := ∅ |}.

Definition unreachable_awg_session : Awg.session :=
  {| Awg.connect_error :=
       Some (Py.RuntimeError "Unable to discover the device dev2006");
     Awg.device := "";
     Awg.options := [];
     Awg.os_sep := "/";
     Awg.data_dir := "";
     Awg.wave_dir_isdir := false;
     Awg.compiler_status := fun _ => (-1)%Z;
     Awg.compiler_statusstring := "";
     Awg.awg_progress := fun _ => B64.f0;
     Awg.scope_progress := fun _ => B64.f0;
     Awg.data_read := [] |}.

(** A device whose demodulator sample lacks the field [x]. *)
Definition no_x_session : ConnectConfig.session :=
  {| ConnectConfig.connect_error := None;
     ConnectConfig.device := "dev2006";
     ConnectConfig.options := ["MF"; "PID"];
     ConnectConfig.devicetype := "UHFLI";
     ConnectConfig.mixer_channel := 3;
     ConnectConfig.demod_sample := <["y" := [f4]]> ∅ |}.

(** A device whose module directory has no [awg/waves] below it. *)
Definition no_waves_session : Awg.session :=
  {| Awg.connect_error := None;
     Awg.device := "dev2006";
     Awg.options := ["AWG"; "MF"];
     Awg.os_sep := "/";
     Awg.data_dir := "/tmp/LabOne";
     Awg.wave_dir_isdir := false;
     Awg.compiler_status := fun _ => (-1)%Z;
     Awg.compiler_statusstring := "";
     Awg.awg_progress := fun _ => B64.f0;
     Awg.scope_progress := fun _ => B64.f0;
     Awg.data_read := [] |}.

(** A device whose compiler is busy for two reads and then reports a
    failure. *)
Definition failing_compile_session : Awg.session :=
  {| Awg.connect_error := None;
     Awg.device := "dev2006";
     Awg.options := ["AWG"; "MF"];
     Awg.os_sep := "/";
     Awg.data_dir := "/home/lab/Zurich Instruments/LabOne/WebServer";
     Awg.wave_dir_isdir := true;
     Awg.compiler_status := fun n => if (n <? 2)%nat then (-1)%Z else 1%Z;
     Awg.compiler_statusstring := "Compilation failed: syntax error in line 3";
     Awg.awg_progress := fun _ => B64.f0;
     Awg.scope_progress := fun _ => B64.f0;
     Awg.data_read := [] |}.

(** A device whose compiler never leaves the in-progress state. *)
Definition busy_compile_session : Awg.session :=
  {| Awg.connect_error := None;
     Awg.device := "dev2006";
     Awg.options := ["AWG"; "MF"];
     Awg.os_sep := "/";
     Awg.data_dir := "/home/lab/Zurich Instruments/LabOne/WebServer";
     Awg.wave_dir_isdir := true;
     Awg.compiler_status := fun _ => (-1)%Z;
     Awg.compiler_statusstring := "";
     Awg.awg_progress := fun _ => B64.f0;
     Awg.scope_progress := fun _ => B64.f0;
     Awg.data_read := [] |}.

(** A device whose scope record is complete at the fourth poll. *)
Definition quick_scope_session : Awg.session :=
  {| Awg.connect_error := None;
     Awg.device := "dev2006";
     Awg.options := ["AWG"; "MF"];
     Awg.os_sep := "/";
     Awg.data_dir := "/home/lab/Zurich Instruments/LabOne/WebServer";
     Awg.wave_dir_isdir := true;
     Awg.compiler_status := fun n => if (n <? 2)%nat then (-1)%Z else 0%Z;
     Awg.compiler_statusstring := "Compilation successful";
     Awg.awg_progress := fun n => if (n <? 2)%nat then B64.f0_5 else B64.f1;
     Awg.scope_progress := fun n => if (n <? 3)%nat then B64.f0_5 else B64.f1;
     Awg.data_read := [] |}.
(* ===================================================================== *)
(** * Sequencing *)
(* ===================================================================== *)

Section Monad_properties.
Import Py.
Context {S : Type}.

Lemma bind_Returned {A B} (m : M S A) (k : A -> M S B) (s s' : S) (a : A) :
  m s = (Returned a, s') -> bind m k s = k a s'.
Proof. intros H. unfold bind. rewrite H. reflexivity. Qed.

Lemma bind_Raised {A B} (m : M S A) (k : A -> M S B) (s s' : S) (e : exn) :
  m s = (Raised e, s') -> bind m k s = (Raised e, s').
Proof. intros H. unfold bind. rewrite H. reflexivity. Qed.

Lemma bind_Running {A B} (m : M S A) (k : A -> M S B) (s s' : S) :
  m s = (Running, s') -> bind m k s = (Running, s').
Proof. intros H. unfold bind. rewrite H. reflexivity. Qed.
End Monad_properties.

(* ===================================================================== *)
(** * Properties of the GUI shell *)
(* ===================================================================== *)

Section WhiteLight_properties.
Import Py WhiteLight.

Variable os_sep : string.
Variable Tk_attrs : list (string * pyval).

(** Neither misspelt name is bound: not by the parameters and the nested
    function of the method, not by the module, not by the builtins. *)
Lemma messabox_unbound (locals : list (string * pyval)) (g : gui) :
  assoc "messabox" locals = None ->
  load_name locals module_globals builtins "messabox" g
  = (Raised (NameError "messabox"), g).
Proof. intros H. unfold load_name. rewrite H. reflexivity. Qed.

Lemma Dir_unbound (locals : list (string * pyval)) (g : gui) :
  assoc "Dir" locals = None ->
  load_name locals module_globals builtins "Dir" g
  = (Raised (NameError "Dir"), g).
Proof. intros H. unfold load_name. rewrite H. reflexivity. Qed.

(** Whatever its four arguments, [Save_Setting] stops at the first of the
    two names it meets. *)
Lemma Save_Setting_NameError (self Folder PI ZI : pyval) (g : gui) :
  Save_Setting os_sep [self; Folder; PI; ZI] g
  = (Raised (NameError (if truthy PI || is_None ZI then "messabox" else "Dir")),
     g).
Proof.
  unfold Save_Setting, def4.
  destruct (truthy PI || is_None ZI); unfold bind.
  - rewrite messabox_unbound; reflexivity.
  - rewrite Dir_unbound; reflexivity.
Qed.

Lemma Load_Setting_NameError (self Folder PI ZI : pyval) (g : gui) :
  Load_Setting os_sep [self; Folder; PI; ZI] g
  = (Raised (NameError (if truthy PI || is_None ZI then "messabox" else "Dir")),
     g).
Proof.
  unfold Load_Setting, def4.
  destruct (truthy PI || is_None ZI); unfold bind.
  - rewrite messabox_unbound; reflexivity.
  - rewrite Dir_unbound; reflexivity.
Qed.

(** A call-back without parameters cannot take the event. *)
Lemma lambda0_rejects_event (body : M gui unit) (event : pyval) (g : gui) :
  button_press (def0 "<lambda>" body) event g
  = (Raised (TypeError "<lambda>"), g).
Proof. reflexivity. Qed.
End WhiteLight_properties.

(** C1 (the code departs from it).  The claim: a save or load with a device
    handle absent or an empty directory is refused with a warning dialog, and
    with both handles present and a directory chosen the settings file is
    written or read.  The code: with both handles absent [Save_Setting] and
    [Load_Setting] raise [NameError] on [messabox] and show no dialog; with
    both handles present and a directory chosen they raise the same error,
    and write and read nothing. *)
Theorem C1_guard_raises_NameError :
  forall (os_sep : string) (g : WhiteLight.gui),
    WhiteLight.Save_Setting os_sep
      [WhiteLight.self_; chosen_dir; Py.VNone; Py.VNone] g
    = (Py.Raised (Py.NameError "messabox"), g)
    /\ WhiteLight.Load_Setting os_sep
         [WhiteLight.self_; chosen_dir; Py.VNone; Py.VNone] g
       = (Py.Raised (Py.NameError "messabox"), g)
    /\ WhiteLight.Save_Setting os_sep
         [WhiteLight.self_; chosen_dir; pi_connected; zi_connected] g
       = (Py.Raised (Py.NameError "messabox"), g)
    /\ WhiteLight.Load_Setting os_sep
         [WhiteLight.self_; chosen_dir; pi_connected; zi_connected] g
       = (Py.Raised (Py.NameError "messabox"), g).
Proof.
  intros os_sep g.
  rewrite !Save_Setting_NameError, !Load_Setting_NameError.
  repeat split; reflexivity.
Qed.

(** C8 (the code departs from it).  The claim: [Refresh] re-schedules itself
    every 1000 ms while the connection flag is false and copies the device
    data once it is true.  The code reads the flag as [app.Frame.connected];
    [app] has no attribute [Frame] (its parameter [Frame] is not used), so
    whenever [tk.Tk] provides none either, every call raises
    [AttributeError], schedules nothing and changes no panel state. *)
Theorem C8_Refresh_raises_AttributeError :
  forall (Tk_attrs : list (string * Py.pyval))
         (Show_device : Py.pyval -> Py.M WhiteLight.gui Py.pyval)
         (Zi_settings_call :
            Py.pyval -> Py.pyval -> Py.pyval -> Py.pyval ->
            Py.M WhiteLight.gui unit)
         (app Frame receiver : Py.pyval) (g : WhiteLight.gui),
    Py.assoc "Frame" Tk_attrs = None ->
    WhiteLight.Refresh Tk_attrs Show_device Zi_settings_call
                       [app; Frame; receiver] g
    = (Py.Raised (Py.AttributeError "Frame"), g).
Proof.
  intros Tk_attrs Show_device Zi_call app Frame receiver g HTk.
  unfold WhiteLight.Refresh, Py.def3, Py.bind, WhiteLight.getattr_app.
  cbn. rewrite HTk. reflexivity.
Qed.

Lemma C8_Refresh_raises_AttributeError_witness :
  Py.assoc "Frame" some_Tk_attrs = None
  /\ WhiteLight.Refresh some_Tk_attrs (fun v => Py.ret v)
       (fun _ _ _ _ => Py.ret tt)
       [WhiteLight.self_; WhiteLight.frame fresh_gui;
        WhiteLight.PI_Control fresh_gui] fresh_gui
     = (Py.Raised (Py.AttributeError "Frame"), fresh_gui).
Proof.
  split; [reflexivity | apply C8_Refresh_raises_AttributeError; reflexivity].
Defined.

(** C9.  Each of the four button bindings is a [lambda] without parameters,
    so a button press, which passes the event, raises [TypeError] before the
    body runs: nothing is saved, loaded, started, stopped or shown.  Beyond
    that, [Start] and [Stop_Measurement] are called with two arguments after
    [self] where they take four and none, and [Save_Setting] and
    [Load_Setting] raise [NameError] on [messabox] or [Dir] whatever their
    arguments. *)
Theorem C9_button_presses_raise :
  forall (os_sep : string) (Tk_attrs : list (string * Py.pyval))
         (g : WhiteLight.gui) (event : Py.pyval),
    (WhiteLight.button_press (WhiteLight.Start_binding Tk_attrs) event g
     = (Py.Raised (Py.TypeError "<lambda>"), g)
     /\ WhiteLight.button_press (WhiteLight.OpBut_binding os_sep Tk_attrs) event g
        = (Py.Raised (Py.TypeError "<lambda>"), g)
     /\ WhiteLight.button_press (WhiteLight.SvBut_binding os_sep Tk_attrs) event g
        = (Py.Raised (Py.TypeError "<lambda>"), g)
     /\ WhiteLight.button_press (WhiteLight.Stop_binding Tk_attrs) event g
        = (Py.Raised (Py.TypeError "<lambda>"), g))
    /\ (forall pi zi : Py.pyval,
          WhiteLight.Start [WhiteLight.self_; pi; zi] g
          = (Py.Raised (Py.TypeError "Start"), g)
          /\ WhiteLight.Stop_Measurement [WhiteLight.self_; pi; zi] g
             = (Py.Raised (Py.TypeError "Stop_Measurement"), g))
    /\ (forall self Folder pi zi : Py.pyval,
          exists name : string,
            (name = "messabox" \/ name = "Dir")
            /\ WhiteLight.Save_Setting os_sep [self; Folder; pi; zi] g
               = (Py.Raised (Py.NameError name), g)
            /\ WhiteLight.Load_Setting os_sep [self; Folder; pi; zi] g
               = (Py.Raised (Py.NameError name), g)).
Proof.
  intros os_sep Tk_attrs g event.
  split; [| split].
  - repeat split; apply lambda0_rejects_event.
  - intros pi zi. split; reflexivity.
  - intros self Folder pi zi.
    exists (if Py.truthy pi || Py.is_None zi then "messabox" else "Dir").
    split; [destruct (Py.truthy pi || Py.is_None zi); auto |].
    split; [apply Save_Setting_NameError | apply Load_Setting_NameError].
Qed.

(* ===================================================================== *)
(** * Properties of the demodulator example *)
(* ===================================================================== *)

Section Binary64_properties.



End Binary64_properties.

Section ConnectConfig_properties.
Import Py LabOne ConnectConfig.





Lemma demod_configure_returns (ses : session) (device_id : string)
      (amplitude : spec_float) (tr : list call) :
  connect_error ses = None ->
  exists tr', configure ses device_id amplitude tr = (Returned tt, tr').
Proof.
  intros Hc. unfold configure, bind, emit, modify, ret.
  rewrite Hc. eexists. reflexivity.
Qed.
End ConnectConfig_properties.




(* ===================================================================== *)
(** * Synchronisation before dependent reads *)
(* ===================================================================== *)

Section Discipline_properties.
Import Py LabOne.

Lemma scan_app (d1 d2 : list call) : forall b : bool,
  scan b (d1 ++ d2)
  = match scan b d1 with Some b1 => scan b1 d2 | None => None end.
Proof.
  induction d1 as [| c d1 IH]; intros b; simpl; [reflexivity |].
  destruct (advance b c); [apply IH | reflexivity].
Qed.

(** An accepted trace has the barrier where the claim wants it. *)
Lemma scan_sync_before_read (tr : list call) : forall (b b' : bool),
  scan b tr = Some b' ->
  forall (pre : list call) (c : call) (post : list call),
    tr = pre ++ c :: post ->
    is_dependent_read c = true ->
    (b = false /\ forallb (fun c' => negb (is_write c')) pre = true)
    \/ (exists p1 p2 : list call,
          pre = p1 ++ daq_sync :: p2
          /\ forallb (fun c' => negb (is_write c')) p2 = true).
Proof.
  induction tr as [| x tr IH]; intros b b' Hscan pre c post Heq Hdep.
  - destruct pre; discriminate.
  - simpl in Hscan. destruct (advance b x) as [b1 |] eqn:Hadv; [| discriminate].
    destruct pre as [| y pre]; simpl in Heq; injection Heq as -> ->.
    + left. unfold advance in Hadv. rewrite Hdep in Hadv. simpl in Hadv.
      destruct b; [discriminate | split; reflexivity].
    + destruct (IH _ _ Hscan pre c post eq_refl Hdep) as [[Hb1 Hpre] | (p1 & p2 & Hp & Hw)].
      * unfold advance in Hadv.
        destruct (is_dependent_read y && b); [discriminate |].
        injection Hadv as Hadv. subst b1.
        destruct (is_sync y) eqn:Hsy.
        -- right. exists [], pre. destruct y; try discriminate. split; [reflexivity | assumption].
        -- destruct (is_write y) eqn:Hwy; [discriminate |].
           left. split; [assumption |]. simpl. rewrite Hwy. simpl. assumption.
      * right. exists (y :: p1), p2. rewrite Hp. split; [reflexivity | assumption].
Qed.

Corollary accepted_sync_before_read (tr : list call) (b' : bool) :
  scan true tr = Some b' -> sync_before_read tr.
Proof.
  intros Hscan pre c post Heq Hdep.
  destruct (scan_sync_before_read tr true b' Hscan pre c post Heq Hdep)
    as [[Hb _] | H]; [discriminate | exact H].
Qed.

Context {S : Type} (calls : S -> list call).

Lemma keeps_ret {A} (b : bool) (a : A) : keeps calls b (ret a) b.
Proof.
  intros s. exists [], b. simpl. rewrite app_nil_r. auto.
Qed.

Lemma keeps_raise {A} (b b' : bool) (e : exn) : keeps calls b (@raise S A e) b'.
Proof.
  intros s. exists [], b. simpl. rewrite app_nil_r.
  repeat split; intros; discriminate.
Qed.

Lemma keeps_bind {A B} (b b1 b2 : bool) (m : M S A) (k : A -> M S B) :
  keeps calls b m b1 ->
  (forall a, keeps calls b1 (k a) b2) ->
  keeps calls b (bind m k) b2.
Proof.
  intros Hm Hk s. destruct (Hm s) as (d1 & c1 & Hd1 & Hs1 & Hr1).
  unfold bind. destruct (m s) as [[a | e |] s1] eqn:E; simpl in *.
  - rewrite (Hr1 a eq_refl) in Hs1.
    destruct (Hk a s1) as (d2 & c2 & Hd2 & Hs2 & Hr2).
    exists (d1 ++ d2), c2. rewrite Hd2, Hd1, app_assoc, scan_app, Hs1. auto.
  - exists d1, c1. repeat split; auto; intros; discriminate.
  - exists d1, c1. repeat split; auto; intros; discriminate.
Qed.

Lemma keeps_while {A} (b : bool) (cond : A -> M S bool) (body : A -> M S A) :
  (forall a, keeps calls b (cond a) b) ->
  (forall a, keeps calls b (body a) b) ->
  forall (fuel : nat) (a : A), keeps calls b (while_ fuel cond body a) b.
Proof.
  intros Hc Hb. induction fuel as [| fuel IH]; intros a; simpl.
  - intros s. exists [], b. simpl. rewrite app_nil_r.
    repeat split; intros; discriminate.
  - apply keeps_bind with (b1 := b); [apply Hc |].
    intros [|]; [| apply keeps_ret].
    apply keeps_bind with (b1 := b); [apply Hb | apply IH].
Qed.

(** A statement that appends exactly one call. *)
Lemma keeps_call {A} (b b' : bool) (c : call) (m : M S A) :
  (forall s, calls (snd (m s)) = calls s ++ [c]) ->
  advance b c = Some b' ->
  keeps calls b m b'.
Proof.
  intros Hm Hadv s. exists [c], b'. simpl. rewrite Hadv. auto.
Qed.
End Discipline_properties.

Section ConnectConfig_discipline.
Import Py LabOne ConnectConfig.
Context {lib : Np.Library}.

Lemma cc_emit (b b' : bool) (c : call) :
  advance b c = Some b' -> keeps (fun tr : list call => tr) b (emit c) b'.
Proof. apply keeps_call. reflexivity. Qed.

Lemma cc_item (b : bool) (d : gmap string Np.ndarray) (key : string) :
  keeps (fun tr : list call => tr) b (item d key) b.
Proof.
  unfold item. destruct (d !! key); [apply keeps_ret | apply keeps_raise].
Qed.

Lemma cc_x_plus_jy (b : bool) (d : gmap string Np.ndarray) :
  keeps (fun tr : list call => tr) b (x_plus_jy d) b.
Proof.
  unfold x_plus_jy.
  eapply keeps_bind; [apply cc_item | intros x].
  eapply keeps_bind; [apply cc_item | intros y].
  destruct (Np.broadcast2 _ _ _); [apply keeps_ret | apply keeps_raise].
Qed.

Lemma cc_configure (ses : session) (device_id : string) (amplitude : spec_float) :
  keeps (fun tr : list call => tr) true (configure ses device_id amplitude) false.
Proof.
  unfold configure. cbv zeta.
  eapply keeps_bind; [apply cc_emit; reflexivity | intros _].
  eapply keeps_bind with (b1 := true);
    [destruct (connect_error ses); [apply keeps_raise | apply keeps_ret] | intros _].
  repeat (eapply keeps_bind; [apply cc_emit; reflexivity | intros _]).
  apply cc_emit; reflexivity.
Qed.

Lemma cc_add_R_phi (b : bool) (sample : gmap string Np.ndarray) :
  keeps (fun tr : list call => tr) b (add_R_phi sample) b.
Proof.
  unfold add_R_phi. cbv zeta.
  eapply keeps_bind; [apply cc_x_plus_jy | intros z].
  eapply keeps_bind; [apply cc_x_plus_jy | intros z'].
  eapply keeps_bind; [apply cc_item | intros r].
  destruct r; [apply keeps_raise |].
  eapply keeps_bind; [apply cc_emit; reflexivity | intros _].
  apply keeps_ret.
Qed.

Lemma cc_run_example (ses : session) (device_id : string) (amplitude : spec_float) :
  keeps (fun tr : list call => tr) true (run_example ses device_id amplitude) false.
Proof.
  unfold run_example. cbv zeta.
  eapply keeps_bind; [apply cc_configure | intros _].
  eapply keeps_bind; [apply cc_emit; reflexivity | intros _].
  apply cc_add_R_phi.
Qed.
(** The sample is requested whenever the session could be opened. *)
Lemma getSample_is_issued (ses : session) (device_id : string)
      (amplitude : spec_float) :
  connect_error ses = None ->
  In (daq_getSample ("/" +:+ device ses +:+ "/demods/" +:+ str_int 0 +:+ "/sample"))
     (snd (run_example ses device_id amplitude [])).
Proof.
  intros Hc.
  destruct (demod_configure_returns ses device_id amplitude [] Hc) as [tr Hconf].
  unfold run_example. cbv zeta.
  rewrite (bind_Returned _ _ _ _ _ Hconf).
  erewrite bind_Returned by reflexivity.
  destruct (cc_add_R_phi true (demod_sample ses)
              (tr ++ [daq_getSample ("/" +:+ device ses +:+ "/demods/"
                                         +:+ str_int 0 +:+ "/sample")]))
    as (d & _ & Hd & _).
  rewrite Hd. apply in_or_app. left. apply in_or_app. right. left. reflexivity.
Qed.
End ConnectConfig_discipline.

Section Awg_discipline.
Import Py LabOne Awg.
Context {lib : Np.Library}.

Lemma awg_emit (b b' : bool) (c : call) :
  advance b c = Some b' -> keeps trace b (emit c) b'.
Proof. apply keeps_call. reflexivity. Qed.

Lemma awg_get_compiler_status (b : bool) (ses : session) :
  keeps trace b (get_compiler_status ses) b.
Proof.
  apply keeps_call with (c := awgModule_get "awgModule/compiler/status");
    [reflexivity | destruct b; reflexivity].
Qed.

Lemma awg_get_compiler_statusstring (b : bool) (ses : session) :
  keeps trace b (get_compiler_statusstring ses) b.
Proof.
  unfold get_compiler_statusstring.
  eapply keeps_bind; [apply awg_emit; destruct b; reflexivity | intros _].
  apply keeps_ret.
Qed.

Lemma awg_get_awg_progress (b : bool) (ses : session) :
  keeps trace b (get_awg_progress ses) b.
Proof.
  apply keeps_call with (c := awgModule_get "awgModule/progress");
    [reflexivity | destruct b; reflexivity].
Qed.

Lemma awg_get_scope_progress (b : bool) (ses : session) :
  keeps trace b (get_scope_progress ses) b.
Proof.
  apply keeps_call with (c := scopeModule_progress);
    [reflexivity | destruct b; reflexivity].
Qed.

Lemma awg_configure (ses : session) (device_id : string) :
  keeps trace true (configure ses device_id) false.
Proof.
  unfold configure. cbv zeta.
  eapply keeps_bind; [apply awg_emit; reflexivity | intros _].
  eapply keeps_bind with (b1 := true);
    [destruct (connect_error ses); [apply keeps_raise | apply keeps_ret] | intros _].
  repeat (eapply keeps_bind; [apply awg_emit; reflexivity | intros _]).
  apply awg_emit; reflexivity.
Qed.

Lemma awg_submit_program (ses : session) (awg_program : string) :
  keeps trace false (submit_program ses awg_program) true.
Proof.
  unfold submit_program. cbv zeta.
  do 5 (eapply keeps_bind; [apply awg_emit; reflexivity | intros _]).
  eapply keeps_bind with (b1 := true);
    [destruct (negb (wave_dir_isdir ses)); [apply keeps_raise | apply keeps_ret]
    | intros _].
  eapply keeps_bind; [apply awg_emit; reflexivity | intros _].
  apply awg_emit; reflexivity.
Qed.

Lemma awg_wait_compile (fuel : nat) (ses : session) :
  keeps trace true (wait_compile fuel ses) true.
Proof.
  unfold wait_compile. apply keeps_while; intros a.
  - eapply keeps_bind; [apply awg_get_compiler_status | intros st].
    apply keeps_ret.
  - apply awg_emit; reflexivity.
Qed.

Lemma awg_wait_upload (fuel : nat) (ses : session) :
  keeps trace true (wait_upload fuel ses) true.
Proof.
  unfold wait_upload. apply keeps_while; intros a.
  - eapply keeps_bind; [apply awg_get_awg_progress | intros p].
    apply keeps_ret.
  - eapply keeps_bind; [apply awg_get_awg_progress | intros p].
    do 2 (eapply keeps_bind; [apply awg_emit; reflexivity | intros _]).
    apply keeps_ret.
Qed.

Lemma awg_check_compile (fuel : nat) (ses : session) :
  keeps trace true (check_compile fuel ses) true.
Proof.
  unfold check_compile.
  eapply keeps_bind; [apply awg_get_compiler_status | intros st].
  destruct (st =? 1)%Z.
  - eapply keeps_bind; [apply awg_get_compiler_statusstring | intros msg].
    apply keeps_raise.
  - eapply keeps_bind; [apply awg_get_compiler_status | intros st0].
    eapply keeps_bind with (b1 := true);
      [destruct (st0 =? 0)%Z; [apply awg_emit; reflexivity | apply keeps_ret]
      | intros _].
    eapply keeps_bind; [apply awg_get_compiler_status | intros st2].
    eapply keeps_bind with (b1 := true).
    + destruct (st2 =? 2)%Z; [| apply keeps_ret].
      eapply keeps_bind; [apply awg_emit; reflexivity | intros _].
      eapply keeps_bind; [apply awg_get_compiler_statusstring | intros msg].
      apply awg_emit; reflexivity.
    + intros _. eapply keeps_bind; [apply awg_wait_upload | intros i].
      apply keeps_ret.
Qed.

Lemma awg_replace_waveform (ses : session) :
  keeps trace true (replace_waveform ses) true.
Proof.
  unfold replace_waveform. cbv zeta.
  do 2 (eapply keeps_bind; [apply awg_emit; reflexivity | intros _]).
  apply awg_emit; reflexivity.
Qed.

Lemma awg_arm_scope (ses : session) :
  keeps trace true (arm_scope ses) true.
Proof.
  unfold arm_scope. cbv zeta.
  repeat (eapply keeps_bind; [apply awg_emit; reflexivity | intros _]).
  apply awg_emit; reflexivity.
Qed.

Lemma awg_wait_scope (fuel : nat) (ses : session) :
  keeps trace true (wait_scope fuel ses) true.
Proof.
  unfold wait_scope. cbv zeta. apply keeps_while; intros a.
  - eapply keeps_bind; [apply awg_get_scope_progress | intros p].
    apply keeps_ret.
  - eapply keeps_bind; [apply awg_emit; reflexivity | intros _].
    apply keeps_ret.
Qed.

Lemma awg_read_scope (ses : session) :
  keeps trace true (read_scope ses) true.
Proof.
  unfold read_scope. cbv zeta.
  do 2 (eapply keeps_bind; [apply awg_emit; reflexivity | intros _]).
  destruct (find _ _) as [[k records] |]; [| apply keeps_raise].
  destruct records as [| [| data ?] ?];
    [apply keeps_raise | apply keeps_raise | apply keeps_ret].
Qed.

Lemma awg_index {A} (b : bool) (a : list A) (n : nat) :
  keeps trace b (index a n) b.
Proof.
  unfold index. destruct (nth_error a n); [apply keeps_ret | apply keeps_raise].
Qed.

Lemma awg_measured_signal (b : bool) (data : scope_data) (ns : list nat) :
  forall y, keeps trace b (measured_signal data ns y) b.
Proof.
  induction ns as [| n ns IH]; intros y; simpl; [apply keeps_ret |].
  eapply keeps_bind; [apply awg_index | intros p].
  destruct p; [| apply IH].
  do 3 (eapply keeps_bind; [apply awg_index | intros ?]).
  apply IH.
Qed.

Lemma awg_verify (do_plot : bool) (y : option Np.ndarray) (e : Np.ndarray) :
  keeps trace true (verify do_plot y e) true.
Proof.
  unfold verify. destruct y as [y |]; [| apply keeps_raise].
  destruct (Np.correlate y e) as [corr |]; [| apply keeps_raise].
  cbv zeta.
  eapply keeps_bind with (b1 := true).
  - destruct do_plot; [| apply keeps_ret].
    eapply keeps_bind; [apply awg_emit; reflexivity | intros _].
    apply awg_emit; reflexivity.
  - intros _.
    eapply keeps_bind with (b1 := true);
      [unfold assert_; destruct (B64.ltb _ _);
       [apply keeps_ret | apply keeps_raise] | intros _].
    eapply keeps_bind; [apply awg_emit; reflexivity | intros _].
    apply keeps_ret.
Qed.

Lemma awg_run_example (fuel : nat) (float_str : Np.float64 -> string) (ses : session)
      (device_id : string) (do_plot : bool) :
  keeps trace true (run_example fuel float_str ses device_id do_plot) true.
Proof.
  unfold run_example. cbv zeta.
  eapply keeps_bind; [apply awg_configure | intros _].
  eapply keeps_bind; [apply awg_submit_program | intros _].
  eapply keeps_bind; [apply awg_wait_compile | intros _].
  eapply keeps_bind; [apply awg_check_compile | intros _].
  eapply keeps_bind; [apply awg_replace_waveform | intros _].
  eapply keeps_bind; [apply awg_arm_scope | intros _].
  eapply keeps_bind; [apply awg_wait_scope | intros t].
  eapply keeps_bind; [apply awg_read_scope | intros data].
  eapply keeps_bind; [apply awg_measured_signal | intros y].
  eapply keeps_bind; [apply awg_verify | intros c].
  apply keeps_ret.
Qed.
End Awg_discipline.

(* ===================================================================== *)
(** * The loops of the AWG example *)
(* ===================================================================== *)

Section Awg_loops.
Import Py LabOne Awg.
Context {lib : Np.Library}.

Lemma world_eq (t t' : list call) (a a' b b' c c' : nat) :
  t = t' -> a = a' -> b = b' -> c = c' ->
  {| trace := t; status_reads := a; progress_reads := b; scope_polls := c |}
  = {| trace := t'; status_reads := a'; progress_reads := b'; scope_polls := c' |}.
Proof. intros; subst; reflexivity. Qed.

Lemma fst_bind_Running {S A B} (m : M S A) (k : A -> M S B) (s : S) :
  fst (m s) = Running -> fst (bind m k s) = Running.
Proof.
  unfold bind. destruct (m s) as [[a | e |] s']; simpl; intros H;
    [discriminate | discriminate | reflexivity].
Qed.

(** *** The compilation wait loop *)

Lemma wait_compile_exits (ses : session) :
  forall (k fuel : nat) (w : world),
    (forall j, j < k -> compiler_status ses (status_reads w + j) = (-1)%Z) ->
    compiler_status ses (status_reads w + k) <> (-1)%Z ->
    k < fuel ->
    wait_compile fuel ses w = (Returned tt, after_wait_compile w k).
Proof.
  unfold wait_compile.
  induction k as [| k IH]; intros fuel w Hbusy Hdone Hfuel;
    (destruct fuel as [| fuel]; [lia |]); cbn [while_].
  - unfold bind, get_compiler_status, ret.
    rewrite Nat.add_0_r in Hdone.
    apply Z.eqb_neq in Hdone. rewrite Hdone.
    unfold after_wait_compile. f_equal. apply world_eq; simpl; auto; lia.
  - unfold bind at 1. unfold bind at 1. unfold get_compiler_status at 1.
    unfold ret at 1.
    pose proof (Hbusy 0 ltac:(lia)) as H0. rewrite Nat.add_0_r in H0.
    rewrite H0. change ((-1 =? -1)%Z) with true. cbv iota.
    unfold bind at 1. unfold emit at 1, modify at 1.
    rewrite IH; [| | | lia]; cbn [status_reads trace progress_reads scope_polls].
    + unfold after_wait_compile; simpl. f_equal. apply world_eq; simpl; auto; try lia.
      rewrite <- !app_assoc. reflexivity.
    + intros j Hj. replace (S (status_reads w) + j) with (status_reads w + S j) by lia.
      apply Hbusy. lia.
    + replace (S (status_reads w) + k) with (status_reads w + S k) by lia.
      exact Hdone.
Qed.

Lemma wait_compile_running (ses : session) :
  forall (fuel : nat) (w : world),
    (forall j, j < fuel -> compiler_status ses (status_reads w + j) = (-1)%Z) ->
    fst (wait_compile fuel ses w) = Running.
Proof.
  unfold wait_compile.
  induction fuel as [| fuel IH]; intros w Hbusy; cbn [while_]; [reflexivity |].
  unfold bind at 1. unfold bind at 1. unfold get_compiler_status at 1.
  unfold ret at 1.
  pose proof (Hbusy 0 ltac:(lia)) as H0. rewrite Nat.add_0_r in H0.
  rewrite H0. change ((-1 =? -1)%Z) with true. cbv iota.
  unfold bind at 1. unfold emit at 1, modify at 1.
  apply IH. cbn [status_reads]. intros j Hj.
  replace (S (status_reads w) + j) with (status_reads w + S j) by lia.
  apply Hbusy. lia.
Qed.

(** *** The branch on the status *)

Lemma check_compile_failure (fuel : nat) (ses : session) (w : world) :
  compiler_status ses (status_reads w) = 1%Z ->
  exists w', check_compile fuel ses w
             = (Raised (Exception_ (compiler_statusstring ses)), w').
Proof.
  intros H. unfold check_compile.
  unfold bind at 1. unfold get_compiler_status at 1. rewrite H.
  change ((1 =? 1)%Z) with true. cbv iota.
  eexists. reflexivity.
Qed.

Lemma check_compile_upload (fuel : nat) (ses : session) (w : world) :
  compiler_status ses (status_reads w) <> 1%Z ->
  exists (announce : list call) (w' : world),
    check_compile fuel ses w = (wait_upload fuel ses ;; ret tt)%py w'
    /\ trace w' = trace w ++ announce
    /\ Forall (fun c => c <> awgModule_get "awgModule/progress") announce
    /\ progress_reads w' = progress_reads w
    /\ scope_polls w' = scope_polls w.
Proof.
  intros H. apply Z.eqb_neq in H. unfold check_compile.
  destruct (compiler_status ses (S (status_reads w)) =? 0)%Z eqn:E0;
  destruct (compiler_status ses (S (S (status_reads w))) =? 2)%Z eqn:E2;
  cbv beta iota delta [bind get_compiler_status get_compiler_statusstring emit
                       modify ret];
  rewrite H; cbn [status_reads trace progress_reads scope_polls];
  rewrite E0; cbn [status_reads trace progress_reads scope_polls];
  rewrite E2; cbn [status_reads trace progress_reads scope_polls];
  (eexists _, _; split; [reflexivity |]);
  (split; [rewrite <- ?app_assoc; reflexivity |]);
  (split; [repeat constructor; discriminate | split; reflexivity]).
Qed.

(** *** The upload wait loop *)

Lemma wait_upload_running (ses : session) :
  (forall n, B64.ltb (awg_progress ses n) B64.f1 = true) ->
  forall (fuel : nat) (w : world), fst (wait_upload fuel ses w) = Running.
Proof.
  intros Hlow fuel. unfold wait_upload. generalize 0%Z.
  induction fuel as [| fuel IH]; intros i w; cbn [while_]; [reflexivity |].
  cbv beta iota delta [bind get_awg_progress emit modify ret].
  rewrite Hlow. cbn [status_reads trace progress_reads scope_polls].
  apply IH.
Qed.

(** *** The scope wait loop *)

Lemma iter_decrement_shift (n : nat) (t : spec_float) :
  Nat.iter n decrement (decrement t) = Nat.iter (S n) decrement t.
Proof. symmetry. apply Nat.iter_succ_r. Qed.

(** Once the countdown from [t] is used up after [m] turns, the loop makes at
    most [m] turns, and exactly [m] when the progress stays below 1.0 and the
    countdown is positive before. *)
Lemma scope_loop_bounded (ses : session) :
  forall (m fuel : nat) (t : spec_float) (w : world),
    B64.ltb B64.f0 (Nat.iter m decrement t) = false ->
    m < fuel ->
    exists (n : nat) (t' : spec_float) (w' : world),
      n <= m
      /\ while_ fuel
           (fun local_timeout =>
              p <- get_scope_progress ses ;;
              ret (B64.ltb p B64.f1 && B64.ltb B64.f0 local_timeout))%py
           (fun local_timeout =>
              emit (time_sleep B64.f0_1) ;;
              ret (B64.sub local_timeout B64.f0_1))%py
           t w
         = (Returned t', w')
      /\ trace w' = trace w ++ scope_turns n ++ [scopeModule_progress]
      /\ t' = Nat.iter n decrement t
      /\ ((forall i, B64.ltb (scope_progress ses i) B64.f1 = true) ->
          (forall i, i < m -> B64.ltb B64.f0 (Nat.iter i decrement t) = true) ->
          n = m).
Proof.
  induction m as [| m IH]; intros fuel t w Hexp Hfuel;
    (destruct fuel as [| fuel]; [lia |]); cbn [while_].
  - simpl in Hexp. exists 0, t, (snd (get_scope_progress ses w)).
    split; [lia |]. split.
    + cbv beta iota delta [bind get_scope_progress ret].
      rewrite Hexp, andb_false_r. reflexivity.
    + repeat split; reflexivity.
  - cbv beta iota delta [bind get_scope_progress ret].
    destruct (B64.ltb (scope_progress ses (scope_polls w)) B64.f1
              && B64.ltb B64.f0 t) eqn:Hcond.
    + cbv beta iota delta [emit modify].
      cbn [status_reads trace progress_reads scope_polls].
      match goal with
      | |- context [while_ fuel ?c ?b ?t1 ?w1] =>
          destruct (IH fuel t1 w1) as (n & t' & w' & Hn & Hrun & Htr & Ht & Hex)
      end.
      * fold (decrement t). rewrite iter_decrement_shift. exact Hexp.
      * lia.
      * exists (S n), t', w'. split; [lia |]. split; [exact Hrun |].
        split; [| split].
        -- rewrite Htr. cbn [trace scope_turns]. rewrite <- !app_assoc. reflexivity.
        -- rewrite Ht. fold (decrement t). apply iter_decrement_shift.
        -- intros Hlow Hpos. f_equal. apply Hex; [exact Hlow |].
           intros i Hi. fold (decrement t). rewrite iter_decrement_shift.
           apply Hpos. lia.
    + exists 0, t, (snd (get_scope_progress ses w)).
      split; [lia |]. split; [reflexivity |].
      split; [reflexivity |]. split; [reflexivity |].
      intros Hlow Hpos. exfalso.
      pose proof (Hpos 0 ltac:(lia)) as H0. simpl in H0.
      rewrite Hlow, H0 in Hcond. discriminate.
Qed.

(** The countdown from 2.0 in steps of 0.1, in binary64: positive for twenty
    turns, negative after the twentieth. *)
Lemma local_timeout_positive (i : nat) :
  i < 20 -> B64.ltb B64.f0 (local_timeout_after i) = true.
Proof.
  intros Hi.
  assert (H : forallb (fun i => B64.ltb B64.f0 (local_timeout_after i)) (seq 0 20)
              = true) by (vm_compute; reflexivity).
  rewrite forallb_forall in H. apply H. apply in_seq. lia.
Qed.

Lemma local_timeout_expired :
  B64.ltb B64.f0 (local_timeout_after 20) = false.
Proof. vm_compute. reflexivity. Qed.

Lemma wait_scope_returns (ses : session) (fuel : nat) (w : world) :
  20 < fuel ->
  exists (n : nat) (w' : world),
    n <= 20
    /\ wait_scope fuel ses w = (Returned (local_timeout_after n), w')
    /\ trace w' = trace w ++ scope_turns n ++ [scopeModule_progress]
    /\ ((forall i, B64.ltb (scope_progress ses i) B64.f1 = true) -> n = 20).
Proof.
  intros Hfuel.
  destruct (scope_loop_bounded ses 20 fuel B64.f2 w local_timeout_expired Hfuel)
    as (n & t' & w' & Hn & Hrun & Htr & Ht & Hex).
  exists n, w'. split; [exact Hn |]. split; [| split; [exact Htr |]].
  - unfold wait_scope. cbv zeta. rewrite Hrun, Ht. reflexivity.
  - intros Hlow. apply Hex; [exact Hlow |]. intros i Hi.
    apply (local_timeout_positive i Hi).
Qed.

Lemma read_scope_trace (ses : session) (w : world) :
  trace (snd (read_scope ses w))
  = trace w ++ [daq_setInt ("/" +:+ device ses +:+ "/scopes/0/enable") (I 0);
                scopeModule_read true].
Proof.
  unfold read_scope. cbv zeta.
  cbv beta iota delta [bind emit modify].
  cbn [status_reads trace progress_reads scope_polls].
  destruct (find _ _) as [[k records] |]; [| simpl; rewrite <- app_assoc; reflexivity].
  destruct records as [| [| data ?] ?]; simpl; rewrite <- app_assoc; reflexivity.
Qed.
End Awg_loops.

Section Awg_phases.
Import Py LabOne Awg.
Context {lib : Np.Library}.

(** The phases before the first loop return, and read no polled node. *)
Lemma awg_configure_returns (ses : session) (device_id : string) (w : world) :
  connect_error ses = None ->
  exists d : list call,
    configure ses device_id w
    = (Returned tt,
       {| trace := trace w ++ d; status_reads := status_reads w;
          progress_reads := progress_reads w; scope_polls := scope_polls w |}).
Proof.
  intros Hc. unfold configure. cbv zeta.
  cbv beta iota delta [bind emit modify ret]. rewrite Hc.
  cbn [status_reads trace progress_reads scope_polls].
  rewrite <- !app_assoc. eexists. reflexivity.
Qed.

Lemma submit_program_returns (ses : session) (awg_program : string) (w : world) :
  wave_dir_isdir ses = true ->
  exists d : list call,
    submit_program ses awg_program w
    = (Returned tt,
       {| trace := trace w ++ d; status_reads := status_reads w;
          progress_reads := progress_reads w; scope_polls := scope_polls w |}).
Proof.
  intros Hd. unfold submit_program. cbv zeta.
  cbv beta iota delta [bind emit modify ret]. rewrite Hd.
  cbn [negb status_reads trace progress_reads scope_polls].
  rewrite <- !app_assoc. eexists. reflexivity.
Qed.

Lemma replace_waveform_trace (ses : session) (w : world) :
  trace (snd (replace_waveform ses w))
  = trace w
    ++ [daq_setInt ("/" +:+ device ses +:+ "/awgs/0/waveform/index") (I 2);
        daq_sync;
        daq_vectorWrite ("/" +:+ device ses +:+ "/awgs/0/waveform/data")
                        waveform_3].
Proof.
  unfold replace_waveform. cbv zeta.
  cbv beta iota delta [bind emit modify].
  cbn [snd status_reads trace progress_reads scope_polls].
  rewrite <- !app_assoc. reflexivity.
Qed.
End Awg_phases.

(** C3.  Whatever sequence of values the compiler status node reports: when
    [k] reads of the in-progress value -1 are followed by another value, the
    wait loop ends with the read of that value, after [k] sleeps, and not
    before.  The status is then read again: if it is 1, the exception with
    the compiler's status string is raised; if it is 0 or 2, execution goes
    on to the wait for the upload, no progress having been read before. *)
Theorem C3_compile_status_polling :
  forall (ses : Awg.session) (w : Awg.world) (k : nat),
    (forall j, j < k ->
               Awg.compiler_status ses (Awg.status_reads w + j) = (-1)%Z) ->
    Awg.compiler_status ses (Awg.status_reads w + k) <> (-1)%Z ->
    let w1 := Awg.after_wait_compile w k in
    let final := Awg.compiler_status ses (Awg.status_reads w1) in
    (forall fuel, fuel <= k -> fst (Awg.wait_compile fuel ses w) = Py.Running)
    /\ (forall fuel, k < fuel ->
                     Awg.wait_compile fuel ses w = (Py.Returned tt, w1))
    /\ (final = 1%Z ->
        forall fuel, exists w2,
          Awg.check_compile fuel ses w1
          = (Py.Raised (Py.Exception_ (Awg.compiler_statusstring ses)), w2))
    /\ (final = 0%Z \/ final = 2%Z ->
        forall fuel, exists (announce : list LabOne.call) (w2 : Awg.world),
          Awg.check_compile fuel ses w1
          = Py.bind (Awg.wait_upload fuel ses) (fun _ => Py.ret tt) w2
          /\ Awg.trace w2 = Awg.trace w1 ++ announce
          /\ Forall (fun c => c <> LabOne.awgModule_get "awgModule/progress")
                    announce
          /\ Awg.progress_reads w2 = Awg.progress_reads w1
          /\ Awg.scope_polls w2 = Awg.scope_polls w1).
Proof.
  intros ses w k Hbusy Hdone w1 final.
  split; [| split; [| split]].
  - intros fuel Hfuel. apply wait_compile_running.
    intros j Hj. apply Hbusy. lia.
  - intros fuel Hfuel. apply wait_compile_exits; assumption.
  - intros Hfinal fuel. apply check_compile_failure. exact Hfinal.
  - intros Hfinal fuel. apply check_compile_upload.
    fold final. destruct Hfinal as [-> | ->]; discriminate.
Qed.

Lemma C3_compile_status_polling_witness :
  let w1 := Awg.after_wait_compile Awg.start 2 in
  let final := Awg.compiler_status awg_session (Awg.status_reads w1) in
  (forall fuel, fuel <= 2 ->
                fst (Awg.wait_compile fuel awg_session Awg.start) = Py.Running)
  /\ (forall fuel, 2 < fuel ->
                   Awg.wait_compile fuel awg_session Awg.start
                   = (Py.Returned tt, w1))
  /\ (final = 1%Z ->
      forall fuel, exists w2,
        Awg.check_compile fuel awg_session w1
        = (Py.Raised (Py.Exception_ (Awg.compiler_statusstring awg_session)), w2))
  /\ (final = 0%Z \/ final = 2%Z ->
      forall fuel, exists (announce : list LabOne.call) (w2 : Awg.world),
        Awg.check_compile fuel awg_session w1
        = Py.bind (Awg.wait_upload fuel awg_session) (fun _ => Py.ret tt) w2
        /\ Awg.trace w2 = Awg.trace w1 ++ announce
        /\ Forall (fun c => c <> LabOne.awgModule_get "awgModule/progress")
                  announce
        /\ Awg.progress_reads w2 = Awg.progress_reads w1
        /\ Awg.scope_polls w2 = Awg.scope_polls w1).
Proof.
  apply (C3_compile_status_polling awg_session Awg.start 2).
  - intros j Hj. destruct j as [| [| j]]; [reflexivity | reflexivity | lia].
  - simpl. discriminate.
Defined.

(** C5.  Whatever the scope module reports as progress, the scope wait loop
    returns after at most 20 turns of 0.1 s, the binary64 countdown from 2.0
    being negative after the twentieth subtraction, and after exactly 20 turns
    when the progress never reaches 1.0.  The scope is then disabled and
    [scopeModule.read] is called. *)
Theorem C5_scope_wait_times_out :
  forall (ses : Awg.session) (w : Awg.world) (fuel : nat),
    20 < fuel ->
    exists (n : nat) (w1 : Awg.world),
      n <= 20
      /\ Awg.wait_scope fuel ses w
         = (Py.Returned (Awg.local_timeout_after n), w1)
      /\ Awg.trace w1
         = Awg.trace w ++ Awg.scope_turns n ++ [LabOne.scopeModule_progress]
      /\ ((forall i, B64.ltb (Awg.scope_progress ses i) B64.f1 = true) -> n = 20)
      /\ Py.bind (Awg.wait_scope fuel ses) (fun _ => Awg.read_scope ses) w
         = Awg.read_scope ses w1
      /\ Awg.trace (snd (Awg.read_scope ses w1))
         = Awg.trace w1
           ++ [LabOne.daq_setInt ("/" +:+ Awg.device ses +:+ "/scopes/0/enable")
                                 (LabOne.I 0);
               LabOne.scopeModule_read true].
Proof.
  intros ses w fuel Hfuel.
  destruct (wait_scope_returns ses fuel w Hfuel) as (n & w1 & Hn & Hrun & Htr & Hex).
  exists n, w1. repeat split; try assumption.
  - rewrite (bind_Returned _ _ _ _ _ Hrun). reflexivity.
  - apply read_scope_trace.
Qed.

Lemma C5_scope_wait_times_out_witness :
  exists (n : nat) (w1 : Awg.world),
    n <= 20
    /\ Awg.wait_scope 21 awg_session Awg.start
       = (Py.Returned (Awg.local_timeout_after n), w1)
    /\ Awg.trace w1
       = Awg.trace Awg.start ++ Awg.scope_turns n ++ [LabOne.scopeModule_progress]
    /\ ((forall i, B64.ltb (Awg.scope_progress awg_session i) B64.f1 = true)
        -> n = 20)
    /\ Py.bind (Awg.wait_scope 21 awg_session)
               (fun _ => Awg.read_scope awg_session) Awg.start
       = Awg.read_scope awg_session w1
    /\ Awg.trace (snd (Awg.read_scope awg_session w1))
       = Awg.trace w1
         ++ [LabOne.daq_setInt
               ("/" +:+ Awg.device awg_session +:+ "/scopes/0/enable")
               (LabOne.I 0);
             LabOne.scopeModule_read true].
Proof.
  apply (C5_scope_wait_times_out awg_session Awg.start 21). lia.
Defined.

(** C7.  In the trace of calls of either script, whatever the session answers
    and however long the loops run, every dependent read ([getSample]; the
    [vectorWrite] into the selected waveform slot) comes after a [daq.sync()]
    with no write of a setting between that barrier and the read. *)
Theorem C7_sync_before_dependent_read :
  forall {lib : Np.Library},
  (forall (ses : ConnectConfig.session) (device_id : string)
          (amplitude : spec_float),
      LabOne.sync_before_read
        (snd (ConnectConfig.run_example ses device_id amplitude [])))
  /\ (forall (fuel : nat) (float_str : Np.float64 -> string) (ses : Awg.session)
             (device_id : string) (do_plot : bool),
         LabOne.sync_before_read
           (Awg.trace
              (snd (Awg.run_example fuel float_str ses device_id do_plot
                                    Awg.start)))).
Proof.
  intros lib.
  split.
  - intros ses device_id amplitude.
    destruct (cc_run_example ses device_id amplitude []) as (d & b1 & Hd & Hs & _).
    rewrite Hd. simpl. eapply accepted_sync_before_read. exact Hs.
  - intros fuel float_str ses device_id do_plot.
    destruct (awg_run_example fuel float_str ses device_id do_plot Awg.start)
      as (d & b1 & Hd & Hs & _).
    rewrite Hd. simpl. eapply accepted_sync_before_read. exact Hs.
Qed.

(** C10.  In the success and warning branch the wait for the upload has no
    bound: for a session that connects, has its wave directory, ends the
    compilation with a status other than 1 and keeps the progress of the
    upload below 1.0 for ever, [run_example] is still running after any
    number of loop steps.  The scope wait loop, in contrast, returns within 21
    steps whatever the session. *)
Theorem C10_upload_wait_unbounded :
  forall {lib : Np.Library} (float_str : Np.float64 -> string)
         (ses : Awg.session) (device_id : string)
         (do_plot : bool) (k : nat),
    Awg.connect_error ses = None ->
    Awg.wave_dir_isdir ses = true ->
    (forall j, j < k -> Awg.compiler_status ses j = (-1)%Z) ->
    Awg.compiler_status ses k <> (-1)%Z ->
    Awg.compiler_status ses (k + 1) <> 1%Z ->
    (forall n, B64.ltb (Awg.awg_progress ses n) B64.f1 = true) ->
    (forall fuel,
        fst (Awg.run_example fuel float_str ses device_id do_plot Awg.start)
        = Py.Running)
    /\ (forall (w : Awg.world) (fuel : nat),
           20 < fuel -> fst (Awg.wait_scope fuel ses w) <> Py.Running).
Proof.
  intros lib float_str ses device_id do_plot k Hc Hd Hbusy Hdone Hbranch Hlow.
  split.
  - intros fuel. unfold Awg.run_example. cbv zeta.
    destruct (awg_configure_returns ses device_id Awg.start Hc) as [d1 H1].
    rewrite (bind_Returned _ _ _ _ _ H1).
    match goal with
    | |- context [Awg.submit_program ses ?p] =>
        destruct (submit_program_returns ses p
                    {| Awg.trace := Awg.trace Awg.start ++ d1;
                       Awg.status_reads := Awg.status_reads Awg.start;
                       Awg.progress_reads := Awg.progress_reads Awg.start;
                       Awg.scope_polls := Awg.scope_polls Awg.start |} Hd)
          as [d2 H2]
    end.
    rewrite (bind_Returned _ _ _ _ _ H2).
    cbn [Awg.status_reads Awg.trace Awg.progress_reads Awg.scope_polls Awg.start].
    destruct (Nat.le_gt_cases fuel k) as [Hle | Hgt].
    + apply fst_bind_Running. apply wait_compile_running.
      intros j Hj. cbn [Awg.status_reads]. apply Hbusy. lia.
    + erewrite bind_Returned
        by (apply (wait_compile_exits ses k); cbn [Awg.status_reads];
            [intros j Hj; apply Hbusy; lia | exact Hdone | exact Hgt]).
      apply fst_bind_Running.
      match goal with
      | |- context [Awg.check_compile fuel ses ?w1] =>
          destruct (check_compile_upload fuel ses w1)
            as (announce & w2 & Hrun & _)
      end.
      * cbn [Awg.after_wait_compile Awg.status_reads].
        replace (0 + k + 1) with (k + 1) by lia. exact Hbranch.
      * rewrite Hrun. apply fst_bind_Running. apply wait_upload_running.
        exact Hlow.
  - intros w fuel Hfuel.
    destruct (wait_scope_returns ses fuel w Hfuel) as (n & w1 & _ & Hrun & _).
    rewrite Hrun. discriminate.
Qed.

Lemma C10_upload_wait_unbounded_witness :
  (forall fuel,
      fst (Awg.run_example fuel (fun _ => "0.0") stuck_upload_session "dev2006"
                           false Awg.start)
      = Py.Running)
  /\ (forall (w : Awg.world) (fuel : nat),
         20 < fuel -> fst (Awg.wait_scope fuel stuck_upload_session w) <> Py.Running).
Proof.
  apply (C10_upload_wait_unbounded (fun _ => "0.0") stuck_upload_session
                                   "dev2006" false 2).
  - reflexivity.
  - reflexivity.
  - intros j Hj. destruct j as [| [| j]]; [reflexivity | reflexivity | lia].
  - simpl. discriminate.
  - simpl. discriminate.
  - intros n. reflexivity.
Defined.

(* ===================================================================== *)
(** * The phases of a complete run *)
(* ===================================================================== *)

Section Awg_complete_run.
Import Py LabOne Awg.
Context {lib : Np.Library}.

Lemma replace_waveform_returns (ses : session) (w : world) :
  exists w', replace_waveform ses w = (Returned tt, w').
Proof.
  destruct w as [t a b c]. unfold replace_waveform. cbv zeta.
  cbv beta iota delta [bind emit modify trace status_reads progress_reads
                       scope_polls].
  eexists. reflexivity.
Qed.

Lemma arm_scope_returns (ses : session) (w : world) :
  exists w', arm_scope ses w = (Returned tt, w').
Proof.
  destruct w as [t a b c]. unfold arm_scope. cbv zeta.
  cbv beta iota delta [bind emit modify trace status_reads progress_reads
                       scope_polls].
  eexists. reflexivity.
Qed.

Lemma wait_upload_done (ses : session) (fuel : nat) (w : world) :
  B64.ltb (awg_progress ses (progress_reads w)) B64.f1 = false ->
  exists w', wait_upload (S fuel) ses w = (Returned 0%Z, w').
Proof.
  intros H. unfold wait_upload. cbn [while_].
  cbv beta iota delta [bind get_awg_progress ret]. rewrite H.
  eexists. reflexivity.
Qed.

Lemma read_scope_returns (ses : session) (w : world) (k : string)
      (data : scope_data) (r : list scope_data) (r' : list (list scope_data)) :
  find (fun kv => String.eqb ("/" +:+ device ses +:+ "/scopes/0/wave") (fst kv))
       (data_read ses)
  = Some (k, (data :: r) :: r') ->
  exists w', read_scope ses w = (Returned data, w').
Proof.
  intros H. unfold read_scope. cbv zeta.
  cbv beta iota delta [bind emit modify]. rewrite H. eexists. reflexivity.
Qed.

End Awg_complete_run.

Section Awg_program.
Import Py LabOne Awg.
Context {lib : Np.Library}.

Lemma float_repr_char_not_underscore (c : ascii) :
  float_repr_char c = true -> not_underscore c = true.
Proof.
  destruct c as [[] [] [] [] [] [] [] []]; vm_compute; intros H;
    first [reflexivity | discriminate H].
Qed.

Lemma all_chars_weaken (P Q : ascii -> bool) (s : string) :
  (forall c, P c = true -> Q c = true) ->
  all_chars P s = true -> all_chars Q s = true.
Proof.
  intros HPQ. induction s as [| c s IH]; simpl; [reflexivity |].
  intros H. apply andb_true_iff in H as [Hc Hs].
  rewrite (HPQ c Hc), (IH Hs). reflexivity.
Qed.

Lemma all_chars_app (P : ascii -> bool) (s t : string) :
  all_chars P s = true -> all_chars P t = true ->
  all_chars P (s +:+ t) = true.
Proof.
  intros Hs Ht. induction s as [| c s IH]; simpl in *; [exact Ht |].
  apply andb_true_iff in Hs as [Hc Hs]. rewrite Hc, (IH Hs). reflexivity.
Qed.

Lemma all_chars_join (P : ascii -> bool) (sep : string) (l : list string) :
  all_chars P sep = true ->
  Forall (fun s => all_chars P s = true) l ->
  all_chars P (join sep l) = true.
Proof.
  intros Hsep Hl. induction Hl as [| s l Hs Hl IH]; [reflexivity |].
  destruct l as [| s' l]; [exact Hs |].
  change (join sep (s :: s' :: l)) with (s +:+ sep +:+ join sep (s' :: l)).
  apply all_chars_app; [exact Hs |]. apply all_chars_app; [exact Hsep | exact IH].
Qed.

(** A text without underscore holds no occurrence, nor the start of one, of
    a pattern that begins with an underscore. *)
Lemma replace_from_skips (p new J rest : string) :
  all_chars not_underscore J = true ->
  replace_from (String "_" p) new 0 (J +:+ rest)
  = J +:+ replace_from (String "_" p) new 0 rest.
Proof.
  induction J as [| c J IH]; intros H; [reflexivity |].
  simpl in H. apply andb_true_iff in H as [Hc HJ].
  unfold not_underscore in Hc. apply negb_true_iff in Hc.
  change (String c J +:+ rest) with (String c (J +:+ rest)).
  cbn [replace_from strip_prefix]. rewrite Hc, (IH HJ). reflexivity.
Qed.

Lemma occurs_skips (p J rest : string) :
  all_chars not_underscore J = true ->
  occurs (String "_" p) (J +:+ rest) = occurs (String "_" p) rest.
Proof.
  induction J as [| c J IH]; intros H; [reflexivity |].
  simpl in H. apply andb_true_iff in H as [Hc HJ].
  unfold not_underscore in Hc. apply negb_true_iff in Hc.
  change (String c J +:+ rest) with (String c (J +:+ rest)).
  cbn [occurs strip_prefix]. rewrite Hc. apply (IH HJ).
Qed.

(** The two replacements, for any text [J] without underscore in the place of
    the samples. *)
Lemma fill_with (J : string) :
  all_chars not_underscore J = true ->
  replace "_c1_" "2000" (replace "_w2_" J awg_program_template)
  = program_before_c1 +:+ "2000" +:+ program_between +:+ J +:+ program_tail.
Proof.
  intros HJ.
  unfold replace, awg_program_template, program_before_c1, program_between,
    program_tail.
  cbn [replace_from strip_prefix Ascii.eqb Bool.eqb String.length Nat.sub
       String.append].
  rewrite (replace_from_skips "c1_" "2000" J _ HJ).
  reflexivity.
Qed.

Lemma filled_has_no_placeholder (J : string) :
  all_chars not_underscore J = true ->
  occurs "_w2_" (program_before_c1 +:+ "2000" +:+ program_between
                                   +:+ J +:+ program_tail) = false
  /\ occurs "_c1_" (program_before_c1 +:+ "2000" +:+ program_between
                                      +:+ J +:+ program_tail) = false.
Proof.
  intros HJ. unfold program_before_c1, program_between, program_tail.
  simpl. change ("" +:+ J +:+ ?r) with (J +:+ r).
  rewrite !(occurs_skips _ J _ HJ).
  split; reflexivity.
Qed.
End Awg_program.

(** C6.  The program text is the template with [_c1_] and [_w2_] in it; after
    the two [replace] calls it is that text with the decimal string of
    [AWG_N], which is 2000, in the place of [_c1_] and the samples of the
    2000-point sine [waveform_2], as [str] writes them and joined by commas,
    in the place of [_w2_]; neither placeholder occurs in it any more.  [str]
    of a float is taken to write only digits, point, signs, the exponent
    letter and the letters of [inf] and [nan]. *)
Theorem C6_placeholders_substituted :
  forall {lib : Np.Library} (float_str : Np.float64 -> string),
    (forall x, LabOne.float_repr (float_str x) = true) ->
    let samples := LabOne.join "," (map float_str Awg.waveform_2) in
    Awg.awg_program_template
    = Awg.program_before_c1 +:+ "_c1_" +:+ Awg.program_between
        +:+ "_w2_" +:+ Awg.program_tail
    /\ Awg.fill_program float_str
       = Awg.program_before_c1 +:+ LabOne.str_int Awg.AWG_N
           +:+ Awg.program_between +:+ samples +:+ Awg.program_tail
    /\ LabOne.str_int Awg.AWG_N = "2000"
    /\ length (map float_str Awg.waveform_2) = 2000
    /\ LabOne.occurs "_w2_" (Awg.fill_program float_str) = false
    /\ LabOne.occurs "_c1_" (Awg.fill_program float_str) = false.
Proof.
  intros lib float_str Hstr samples.
  assert (Hs : LabOne.all_chars LabOne.not_underscore samples = true).
  { apply all_chars_join; [reflexivity |].
    generalize Awg.waveform_2. intros l.
    induction l as [| x l IH]; simpl; constructor; [| exact IH].
    apply (all_chars_weaken LabOne.float_repr_char);
      [apply float_repr_char_not_underscore | apply Hstr]. }
  assert (Hn : LabOne.str_int Awg.AWG_N = "2000") by reflexivity.
  assert (Hfill : Awg.fill_program float_str
                  = Awg.program_before_c1 +:+ "2000" +:+ Awg.program_between
                      +:+ samples +:+ Awg.program_tail).
  { unfold Awg.fill_program. cbv zeta. fold samples. rewrite Hn.
    apply fill_with. exact Hs. }
  split; [reflexivity |].
  split; [rewrite Hn; exact Hfill |].
  split; [exact Hn |].
  split.
  - unfold Awg.waveform_2.
    rewrite !length_map, Np.linspace_length. reflexivity.
  - rewrite Hfill. apply filled_has_no_placeholder. exact Hs.
Qed.

Lemma C6_placeholders_substituted_witness :
  let float_str := fun _ : Np.float64 => "0.0" in
  let samples := LabOne.join "," (map float_str Awg.waveform_2) in
  Awg.awg_program_template
  = Awg.program_before_c1 +:+ "_c1_" +:+ Awg.program_between
      +:+ "_w2_" +:+ Awg.program_tail
  /\ Awg.fill_program float_str
     = Awg.program_before_c1 +:+ LabOne.str_int Awg.AWG_N
         +:+ Awg.program_between +:+ samples +:+ Awg.program_tail
  /\ LabOne.str_int Awg.AWG_N = "2000"
  /\ length (map float_str Awg.waveform_2) = 2000
  /\ LabOne.occurs "_w2_" (Awg.fill_program float_str) = false
  /\ LabOne.occurs "_c1_" (Awg.fill_program float_str) = false.
Proof.
  apply (C6_placeholders_substituted (fun _ : Np.float64 => "0.0")).
  intros x. reflexivity.
Defined.

(* ===================================================================== *)
(** * More properties of the GUI shell *)
(* ===================================================================== *)

Section Switch_Frame_properties.
Import Py WhiteLightWiring.

Lemma on_item_fresh (k : string) (f : panel -> panel) (p : panel)
      (pre suf : list (string * panel)) :
  existsb (String.eqb k) (map fst pre) = false ->
  on_item k f (pre ++ (k, p) :: suf) = pre ++ (k, f p) :: suf.
Proof.
  induction pre as [| [k' p'] pre IH]; simpl; intros H.
  - rewrite String.eqb_refl. reflexivity.
  - apply orb_false_iff in H as [Hk Hpre]. rewrite Hk, (IH Hpre). reflexivity.
Qed.

Lemma on_item_same (k : string) (lst : list (string * panel)) :
  on_item k (fun p => p) lst = lst.
Proof.
  induction lst as [| [k' p'] lst IH]; simpl; [reflexivity |].
  destruct (String.eqb k k'); [reflexivity | rewrite IH; reflexivity].
Qed.

Lemma fold_left_agree {A B : Type} (f g : A -> B -> A) (l : list B) :
  (forall a b, f a b = g a b) -> forall a, fold_left f l a = fold_left g l a.
Proof.
  intros H. induction l as [| b l IH]; intros a; simpl; [reflexivity |].
  rewrite H. apply IH.
Qed.

(** A loop that updates the widget under every key, one key after the other,
    updates every item. *)
Lemma fold_on_items (g : string -> panel -> panel) :
  forall (suf pre : list (string * panel)),
    distinct (map fst suf) = true ->
    (forall k, In k (map fst suf) -> existsb (String.eqb k) (map fst pre) = false) ->
    fold_left (fun l k => on_item k (g k) l) (map fst suf) (pre ++ suf)
    = pre ++ map (fun kp => (fst kp, g (fst kp) (snd kp))) suf.
Proof.
  induction suf as [| [k p] suf IH]; intros pre Hd Hfresh; [reflexivity |].
  simpl in Hd. apply andb_true_iff in Hd as [Hk Hd]. apply negb_true_iff in Hk.
  cbn [map fst snd fold_left].
  rewrite on_item_fresh by (apply Hfresh; left; reflexivity).
  change (pre ++ (k, g k p) :: suf) with (pre ++ [(k, g k p)] ++ suf).
  rewrite app_assoc, IH; [rewrite <- app_assoc; reflexivity | exact Hd |].
  intros k' Hin. rewrite map_app, existsb_app. cbn [map fst existsb].
  rewrite (Hfresh k' (or_intror Hin)), orb_false_r. cbn [orb].
  destruct (String.eqb k' k) eqn:E; [| reflexivity].
  apply String.eqb_eq in E. subst k'. exfalso.
  assert (Hex : existsb (String.eqb k) (map fst suf) = true).
  { apply existsb_exists. exists k. split; [exact Hin | apply String.eqb_refl]. }
  congruence.
Qed.

Lemma Switch_Frame_items (lst : list (string * panel)) (Box : combobox)
      (rw clm : Z) :
  distinct (map fst lst) = true ->
  Switch_Frame lst Box rw clm = map (switched Box rw clm) lst.
Proof.
  intros Hd. unfold Switch_Frame. cbv zeta.
  pose proof (fold_on_items (fun _ => grid_forget) lst [] Hd
                            (fun _ _ => eq_refl)) as H1.
  cbn [app] in H1. rewrite H1. clear H1.
  rewrite (fold_left_agree _
             (fun l k =>
                on_item k
                  (fun p => if String.eqb k (selection Box)
                            then grid rw clm (configure_labelwidget Box p)
                            else p) l)).
  - pose proof (fold_on_items
                  (fun k p => if String.eqb k (selection Box)
                              then grid rw clm (configure_labelwidget Box p)
                              else p)
                  (map (fun kp => (fst kp, grid_forget (snd kp))) lst) []) as H2.
    cbn [app] in H2. rewrite H2.
    + rewrite map_map. reflexivity.
    + rewrite map_map. cbn [fst]. exact Hd.
    + reflexivity.
  - intros l k. destruct (String.eqb k (selection Box)); [reflexivity |].
    symmetry. apply on_item_same.
Qed.
End Switch_Frame_properties.

(** X1.  After [Switch_Frame], and so after every selection in one of the
    two comboboxes, whose call-back takes the event, the panels of the
    dictionary keep their keys, the panel whose key is the selected value is
    shown in the cell asked for, and every other panel is hidden: no two
    panels are shown at once. *)
Theorem X1_Switch_Frame_shows_selected_only :
  forall (lst : list (string * WhiteLightWiring.panel))
         (Box : WhiteLightWiring.combobox) (rw clm : Z),
    WhiteLightWiring.distinct (map fst lst) = true ->
    let lst' := WhiteLightWiring.Switch_Frame lst Box rw clm in
    map fst lst' = map fst lst
    /\ (forall k p, In (k, p) lst' ->
          WhiteLightWiring.cell p
          = if String.eqb k (WhiteLightWiring.selection Box)
            then Some (rw, clm) else None)
    /\ (forall k1 p1 k2 p2,
          In (k1, p1) lst' -> In (k2, p2) lst' ->
          WhiteLightWiring.cell p1 <> None ->
          WhiteLightWiring.cell p2 <> None -> k1 = k2)
    /\ (forall event,
          WhiteLightWiring.Combobox_binding Box rw clm [event] lst
          = (Py.Returned tt, lst')).
Proof.
  intros lst Box rw clm Hd lst'.
  assert (Hitems : lst' = map (WhiteLightWiring.switched Box rw clm) lst)
    by (apply Switch_Frame_items; exact Hd).
  assert (Hcell : forall k p, In (k, p) lst' ->
            WhiteLightWiring.cell p
            = if String.eqb k (WhiteLightWiring.selection Box)
              then Some (rw, clm) else None).
  { intros k p Hin. rewrite Hitems in Hin.
    apply in_map_iff in Hin as [[k0 p0] [Heq _]].
    unfold WhiteLightWiring.switched in Heq. cbn [fst snd] in Heq. injection Heq as <- <-.
    destruct (String.eqb k0 (WhiteLightWiring.selection Box)); reflexivity. }
  split; [| split; [exact Hcell | split]].
  - rewrite Hitems, map_map. reflexivity.
  - intros k1 p1 k2 p2 H1 H2 Hs1 Hs2.
    rewrite (Hcell _ _ H1) in Hs1. rewrite (Hcell _ _ H2) in Hs2.
    destruct (String.eqb k1 (WhiteLightWiring.selection Box)) eqn:E1;
      [| congruence].
    destruct (String.eqb k2 (WhiteLightWiring.selection Box)) eqn:E2;
      [| congruence].
    apply String.eqb_eq in E1, E2. congruence.
  - intros event. reflexivity.
Qed.

Lemma X1_Switch_Frame_shows_selected_only_witness :
  let lst' := WhiteLightWiring.Switch_Frame Flist1 CCBox 0 0 in
  map fst lst' = map fst Flist1
  /\ (forall k p, In (k, p) lst' ->
        WhiteLightWiring.cell p
        = if String.eqb k (WhiteLightWiring.selection CCBox)
          then Some (0%Z, 0%Z) else None)
  /\ (forall k1 p1 k2 p2,
        In (k1, p1) lst' -> In (k2, p2) lst' ->
        WhiteLightWiring.cell p1 <> None ->
        WhiteLightWiring.cell p2 <> None -> k1 = k2)
  /\ (forall event,
        WhiteLightWiring.Combobox_binding CCBox 0 0 [event] Flist1
        = (Py.Returned tt, lst')).
Proof.
  apply (X1_Switch_Frame_shows_selected_only Flist1 CCBox 0 0). reflexivity.
Defined.

(** X2.  A press of either connect button raises [NameError]: the call-back
    passes the names [frame] and [PI_Control] (or [ZiFrame] and [ZI_Control])
    of attributes of [app] as if they were globals; [Refresh] is not called
    and the window is left as it is. *)
Theorem X2_connect_buttons_raise_NameError :
  forall (Tk_attrs : list (string * Py.pyval))
         (Show_device : Py.pyval -> Py.M WhiteLight.gui Py.pyval)
         (Zi_settings_call :
            Py.pyval -> Py.pyval -> Py.pyval -> Py.pyval ->
            Py.M WhiteLight.gui unit)
         (event : Py.pyval) (g : WhiteLight.gui),
    WhiteLight.button_press
      (WhiteLightWiring.PI_CButton_binding Tk_attrs Show_device Zi_settings_call)
      event g
    = (Py.Raised (Py.NameError "frame"), g)
    /\ WhiteLight.button_press
         (WhiteLightWiring.ZI_CButton_binding Tk_attrs Show_device Zi_settings_call)
         event g
       = (Py.Raised (Py.NameError "ZiFrame"), g).
Proof.
  intros. split; reflexivity.
Qed.

(** X3.  With a settings bundle that holds the session under ['DAQ'] and the
    device id under ['Device_id'], and a directory variable, the nested
    [Save] exports the settings once and the nested [Load] imports them once,
    for the same session and device and from the same file,
    [<directory><os.sep>_zi_settings.xml]. *)
Theorem X3_Save_and_Load_use_one_file :
  forall (os_sep : string) (items : list (string * Py.pyval))
         (daq PI_Data : Py.pyval) (dev dir : string) (g : WhiteLight.gui),
    Py.assoc "DAQ" items = Some daq ->
    Py.assoc "Device_id" items = Some (Py.VStringVar dev) ->
    let file := dir +:+ os_sep +:+ "_zi_settings.xml" in
    (fst (WhiteLight.Save os_sep (Py.VStringVar dir) (Py.VDict items) PI_Data g)
     = Py.Returned tt
     /\ WhiteLight.effects
          (snd (WhiteLight.Save os_sep (Py.VStringVar dir) (Py.VDict items)
                                PI_Data g))
        = WhiteLight.effects g ++ [WhiteLight.SaveSettings daq dev file])
    /\ (fst (WhiteLight.Load os_sep (Py.VStringVar dir) (Py.VDict items) PI_Data g)
        = Py.Returned tt
        /\ WhiteLight.effects
             (snd (WhiteLight.Load os_sep (Py.VStringVar dir) (Py.VDict items)
                                   PI_Data g))
           = WhiteLight.effects g ++ [WhiteLight.LoadSettings daq dev file]).
Proof.
  intros os_sep items daq PI_Data dev dir g Hdaq Hdev file.
  unfold WhiteLight.Save, WhiteLight.Load, Py.bind, Py.subscript.
  rewrite Hdaq, Hdev. repeat split; reflexivity.
Qed.

Lemma X3_Save_and_Load_use_one_file_witness :
  let file := "/home/lab/settings" +:+ "/" +:+ "_zi_settings.xml" in
  let items := [("DAQ", Py.VObj "ziDAQServer" []);
                ("Device_id", Py.VStringVar "dev2006")] in
  (fst (WhiteLight.Save "/" chosen_dir (Py.VDict items) pi_connected fresh_gui)
   = Py.Returned tt
   /\ WhiteLight.effects
        (snd (WhiteLight.Save "/" chosen_dir (Py.VDict items) pi_connected
                              fresh_gui))
      = WhiteLight.effects fresh_gui
        ++ [WhiteLight.SaveSettings (Py.VObj "ziDAQServer" []) "dev2006" file])
  /\ (fst (WhiteLight.Load "/" chosen_dir (Py.VDict items) pi_connected fresh_gui)
      = Py.Returned tt
      /\ WhiteLight.effects
           (snd (WhiteLight.Load "/" chosen_dir (Py.VDict items) pi_connected
                                 fresh_gui))
         = WhiteLight.effects fresh_gui
           ++ [WhiteLight.LoadSettings (Py.VObj "ziDAQServer" []) "dev2006" file]).
Proof.
  apply (X3_Save_and_Load_use_one_file "/" _ (Py.VObj "ziDAQServer" [])
           pi_connected "dev2006" "/home/lab/settings" fresh_gui);
    reflexivity.
Defined.

(** X4.  The nested [Save] and [Load] do nothing by halves: whatever their
    arguments (objects that carry an entry [get] of their own apart), they
    either return after the one export or import, or raise and leave the
    window and the file system untouched: [TypeError] for a bundle that is no
    dictionary, [KeyError] for a missing ['DAQ'] or ['Device_id'],
    [AttributeError] for a device id or directory without [get], and
    [TypeError] again for a dictionary in their place, whose [get] wants a
    key. *)
Theorem X4_Save_and_Load_fail_without_effect :
  forall (os_sep : string) (Dir ZI_Data PI_Data : Py.pyval) (g : WhiteLight.gui),
    Py.has_get_entry Dir = false ->
    (forall (items : list (string * Py.pyval)) (dv : Py.pyval),
        ZI_Data = Py.VDict items -> Py.assoc "Device_id" items = Some dv ->
        Py.has_get_entry dv = false) ->
    (match WhiteLight.Save os_sep Dir ZI_Data PI_Data g with
     | (Py.Returned _, g') =>
         exists daq dev file,
           WhiteLight.effects g'
           = WhiteLight.effects g ++ [WhiteLight.SaveSettings daq dev file]
     | (Py.Raised e, g') =>
         g' = g
         /\ (e = Py.TypeError "object is not subscriptable"
             \/ e = Py.KeyError "DAQ" \/ e = Py.KeyError "Device_id"
             \/ e = Py.AttributeError "get"
             \/ e = Py.TypeError "get expected at least 1 argument, got 0")
     | (Py.Running, _) => False
     end)
    /\ (match WhiteLight.Load os_sep Dir ZI_Data PI_Data g with
        | (Py.Returned _, g') =>
            exists daq dev file,
              WhiteLight.effects g'
              = WhiteLight.effects g ++ [WhiteLight.LoadSettings daq dev file]
        | (Py.Raised e, g') =>
            g' = g
            /\ (e = Py.TypeError "object is not subscriptable"
                \/ e = Py.KeyError "DAQ" \/ e = Py.KeyError "Device_id"
                \/ e = Py.AttributeError "get"
                \/ e = Py.TypeError "get expected at least 1 argument, got 0")
        | (Py.Running, _) => False
        end).
Proof.
  intros os_sep Dir ZI_Data PI_Data g HDir Hdev.
  assert (Hget : forall (v : Py.pyval) (g0 : WhiteLight.gui),
             Py.has_get_entry v = false ->
             (exists s, Py.StringVar_get v g0 = (Py.Returned s, g0))
             \/ Py.StringVar_get v g0 = (Py.Raised (Py.AttributeError "get"), g0)
             \/ Py.StringVar_get v g0
                = (Py.Raised (Py.TypeError
                                "get expected at least 1 argument, got 0"), g0)).
  { intros v g0 Hv. destruct v as [| | | | s | items | id attrs]; cbn; auto.
    - left. eexists. reflexivity.
    - cbn in Hv. destruct (Py.assoc "get" attrs); [discriminate | auto]. }
  unfold WhiteLight.Save, WhiteLight.Load, Py.bind, Py.subscript.
  split.
  - destruct ZI_Data as [| | | | | items |]; cbn; try (split; auto; fail).
    destruct (Py.assoc "DAQ" items) as [daq |]; cbn; [| split; auto].
    destruct (Py.assoc "Device_id" items) as [dv |] eqn:Edv; cbn;
      [| split; auto].
    destruct (Hget dv g (Hdev items dv eq_refl Edv)) as [[s ->] | [-> | ->]];
      [| split; auto 6 | split; auto 6].
    destruct (Hget Dir g HDir) as [[d ->] | [-> | ->]];
      [| split; auto 6 | split; auto 6].
    eexists _, _, _. reflexivity.
  - destruct ZI_Data as [| | | | | items |]; cbn; try (split; auto; fail).
    destruct (Py.assoc "DAQ" items) as [daq |]; cbn; [| split; auto].
    destruct (Py.assoc "Device_id" items) as [dv |] eqn:Edv; cbn;
      [| split; auto].
    destruct (Hget dv g (Hdev items dv eq_refl Edv)) as [[s ->] | [-> | ->]];
      [| split; auto 6 | split; auto 6].
    destruct (Hget Dir g HDir) as [[d ->] | [-> | ->]];
      [| split; auto 6 | split; auto 6].
    eexists _, _, _. reflexivity.
Qed.

Lemma X4_Save_and_Load_fail_without_effect_witness :
  WhiteLight.Save "/" (Py.VDict []) zi_connected pi_connected fresh_gui
  = (Py.Raised (Py.TypeError "get expected at least 1 argument, got 0"),
     fresh_gui)
  /\ (match WhiteLight.Save "/" (Py.VDict []) zi_connected pi_connected
                            fresh_gui with
      | (Py.Returned _, g') =>
          exists daq dev file,
            WhiteLight.effects g'
            = WhiteLight.effects fresh_gui
              ++ [WhiteLight.SaveSettings daq dev file]
      | (Py.Raised e, g') =>
          g' = fresh_gui
          /\ (e = Py.TypeError "object is not subscriptable"
              \/ e = Py.KeyError "DAQ" \/ e = Py.KeyError "Device_id"
              \/ e = Py.AttributeError "get"
              \/ e = Py.TypeError "get expected at least 1 argument, got 0")
      | (Py.Running, _) => False
      end)
  /\ (match WhiteLight.Load "/" (Py.VDict []) zi_connected pi_connected
                            fresh_gui with
      | (Py.Returned _, g') =>
          exists daq dev file,
            WhiteLight.effects g'
            = WhiteLight.effects fresh_gui
              ++ [WhiteLight.LoadSettings daq dev file]
      | (Py.Raised e, g') =>
          g' = fresh_gui
          /\ (e = Py.TypeError "object is not subscriptable"
              \/ e = Py.KeyError "DAQ" \/ e = Py.KeyError "Device_id"
              \/ e = Py.AttributeError "get"
              \/ e = Py.TypeError "get expected at least 1 argument, got 0")
      | (Py.Running, _) => False
      end).
Proof.
  split; [reflexivity |].
  apply (X4_Save_and_Load_fail_without_effect "/" (Py.VDict []) zi_connected
           pi_connected fresh_gui).
  - reflexivity.
  - intros items dv [= <-] Hdv. cbn in Hdv. injection Hdv as <-. reflexivity.
Defined.

(* ===================================================================== *)
(** * More properties of the demodulator example *)
(* ===================================================================== *)

Section ConnectConfig_more.
Import Py LabOne ConnectConfig.
Context {lib : Np.Library}.

(** The run of a session that opens, up to the request of the sample. *)
Lemma demod_run_reaches_sample (ses : session) (device_id : string)
      (amplitude : spec_float) :
  connect_error ses = None ->
  exists tr : list call,
    configure ses device_id amplitude [] = (Returned tt, tr)
    /\ run_example ses device_id amplitude []
       = add_R_phi (demod_sample ses)
           (tr ++ [daq_getSample ("/" +:+ device ses +:+ "/demods/"
                                      +:+ str_int 0 +:+ "/sample")]).
Proof.
  intros Hc.
  destruct (demod_configure_returns ses device_id amplitude [] Hc) as [tr Hconf].
  exists tr. split; [exact Hconf |].
  unfold run_example. cbv zeta.
  rewrite (bind_Returned _ _ _ _ _ Hconf).
  erewrite bind_Returned by reflexivity. reflexivity.
Qed.

End ConnectConfig_more.

(** X5.  When the session cannot be opened, each example raises the error of
    [create_api_session] and has issued no other call: nothing is written to
    the device. *)
Theorem X5_connect_failure_leaves_device_untouched :
  forall {lib : Np.Library}
         (e : Py.exn) (ses : ConnectConfig.session) (amplitude : spec_float)
         (fuel : nat) (float_str : Np.float64 -> string) (ses' : Awg.session)
         (do_plot : bool) (device_id : string),
    ConnectConfig.connect_error ses = Some e ->
    Awg.connect_error ses' = Some e ->
    ConnectConfig.run_example ses device_id amplitude []
    = (Py.Raised e,
       [LabOne.create_api_session device_id 6 ".*LI|.*IA|.*IS" None
          "This example only supports instruments with demodulators."])
    /\ Awg.run_example fuel float_str ses' device_id do_plot Awg.start
       = (Py.Raised e,
          {| Awg.trace :=
               [LabOne.create_api_session device_id 6 "UHF" (Some ["AWG"])
                  "This example can only be ran on either a UHFAWG or a UHF with the AWG option enabled."];
             Awg.status_reads := 0; Awg.progress_reads := 0;
             Awg.scope_polls := 0 |}).
Proof.
  intros lib e ses amplitude fuel float_str ses' do_plot device_id Hc Hc'. split.
  - unfold ConnectConfig.run_example. apply bind_Raised.
    unfold ConnectConfig.configure. cbv zeta.
    erewrite bind_Returned by reflexivity.
    apply bind_Raised. rewrite Hc. reflexivity.
  - unfold Awg.run_example. apply bind_Raised.
    unfold Awg.configure. cbv zeta.
    erewrite bind_Returned by reflexivity.
    apply bind_Raised. rewrite Hc'. reflexivity.
Qed.

Lemma X5_connect_failure_leaves_device_untouched_witness :
  ConnectConfig.run_example unreachable_demod_session "dev2006" B64.f0_1 []
  = (Py.Raised (Py.RuntimeError "Unable to discover the device dev2006"),
     [LabOne.create_api_session "dev2006" 6 ".*LI|.*IA|.*IS" None
        "This example only supports instruments with demodulators."])
  /\ Awg.run_example 21 (fun _ => "0.0") unreachable_awg_session "dev2006" false
                     Awg.start
     = (Py.Raised (Py.RuntimeError "Unable to discover the device dev2006"),
        {| Awg.trace :=
             [LabOne.create_api_session "dev2006" 6 "UHF" (Some ["AWG"])
                "This example can only be ran on either a UHFAWG or a UHF with the AWG option enabled."];
           Awg.status_reads := 0; Awg.progress_reads := 0;
           Awg.scope_polls := 0 |}).
Proof.
  apply (X5_connect_failure_leaves_device_untouched
           (Py.RuntimeError "Unable to discover the device dev2006")
           unreachable_demod_session B64.f0_1 21 (fun _ => "0.0")
           unreachable_awg_session false "dev2006");
    reflexivity.
Defined.

(** X6.  In the demodulator example a sample without the field [x], or
    without [y], raises [KeyError]; arrays that cannot be broadcast raise
    [ValueError]; empty arrays raise [IndexError] at the report.  In each
    case the device has been configured and the sample requested, and that
    request is the last call: nothing is reported and no dictionary is
    returned. *)
Theorem X6_sample_errors :
  forall {lib : Np.Library} (ses : ConnectConfig.session) (device_id : string)
         (amplitude : spec_float),
    ConnectConfig.connect_error ses = None ->
    exists tr : list LabOne.call,
      ConnectConfig.configure ses device_id amplitude [] = (Py.Returned tt, tr)
      /\ let requested :=
           tr ++ [LabOne.daq_getSample
                    ("/" +:+ ConnectConfig.device ses +:+ "/demods/"
                         +:+ LabOne.str_int 0 +:+ "/sample")] in
         (ConnectConfig.demod_sample ses !! "x" = None ->
          ConnectConfig.run_example ses device_id amplitude []
          = (Py.Raised (Py.KeyError "x"), requested))
         /\ (forall xs : Np.ndarray,
               ConnectConfig.demod_sample ses !! "x" = Some xs ->
               ConnectConfig.demod_sample ses !! "y" = None ->
               ConnectConfig.run_example ses device_id amplitude []
               = (Py.Raised (Py.KeyError "y"), requested))
         /\ (forall xs ys : Np.ndarray,
               ConnectConfig.demod_sample ses !! "x" = Some xs ->
               ConnectConfig.demod_sample ses !! "y" = Some ys ->
               length xs <> length ys -> length xs <> 1 -> length ys <> 1 ->
               ConnectConfig.run_example ses device_id amplitude []
               = (Py.Raised
                    (Py.ValueError "operands could not be broadcast together"),
                  requested))
         /\ (ConnectConfig.demod_sample ses !! "x" = Some [] ->
             ConnectConfig.demod_sample ses !! "y" = Some [] ->
             ConnectConfig.run_example ses device_id amplitude []
             = (Py.Raised (Py.IndexError "index 0 is out of bounds"), requested)).
Proof.
  intros lib ses device_id amplitude Hc.
  destruct (demod_run_reaches_sample ses device_id amplitude Hc)
    as (tr & Hconf & Hrun).
  exists tr. split; [exact Hconf |]. cbv zeta. rewrite Hrun.
  unfold ConnectConfig.add_R_phi, ConnectConfig.x_plus_jy, ConnectConfig.item.
  split; [| split; [| split]].
  - intros Hx. apply bind_Raised. apply bind_Raised. rewrite Hx. reflexivity.
  - intros xs Hx Hy. apply bind_Raised.
    erewrite bind_Returned by (rewrite Hx; reflexivity).
    apply bind_Raised. rewrite Hy. reflexivity.
  - intros xs ys Hx Hy Hlen Hx1 Hy1. apply bind_Raised.
    erewrite bind_Returned by (rewrite Hx; reflexivity).
    erewrite bind_Returned by (rewrite Hy; reflexivity).
    unfold Np.broadcast2. rewrite length_map.
    apply Nat.eqb_neq in Hlen. rewrite Hlen.
    destruct xs as [| x [| x' xs]]; destruct ys as [| y [| y' ys]];
      cbn in *; try congruence; reflexivity.
  - intros Hx Hy.
    erewrite bind_Returned
      by (erewrite bind_Returned by (rewrite Hx; reflexivity);
          erewrite bind_Returned by (rewrite Hy; reflexivity); reflexivity).
    erewrite bind_Returned
      by (erewrite bind_Returned
            by (rewrite lookup_insert_ne by discriminate; rewrite Hx; reflexivity);
          erewrite bind_Returned
            by (rewrite lookup_insert_ne by discriminate; rewrite Hy; reflexivity);
          reflexivity).
    rewrite lookup_insert_ne by discriminate. rewrite lookup_insert_eq.
    reflexivity.
Qed.

Lemma X6_sample_errors_witness :
  exists tr : list LabOne.call,
    ConnectConfig.configure no_x_session "dev2006" B64.f0_1 []
    = (Py.Returned tt, tr)
    /\ let requested :=
         tr ++ [LabOne.daq_getSample
                  ("/" +:+ ConnectConfig.device no_x_session +:+ "/demods/"
                       +:+ LabOne.str_int 0 +:+ "/sample")] in
       (ConnectConfig.demod_sample no_x_session !! "x" = None ->
        ConnectConfig.run_example no_x_session "dev2006" B64.f0_1 []
        = (Py.Raised (Py.KeyError "x"), requested))
       /\ (forall xs : Np.ndarray,
             ConnectConfig.demod_sample no_x_session !! "x" = Some xs ->
             ConnectConfig.demod_sample no_x_session !! "y" = None ->
             ConnectConfig.run_example no_x_session "dev2006" B64.f0_1 []
             = (Py.Raised (Py.KeyError "y"), requested))
       /\ (forall xs ys : Np.ndarray,
             ConnectConfig.demod_sample no_x_session !! "x" = Some xs ->
             ConnectConfig.demod_sample no_x_session !! "y" = Some ys ->
             length xs <> length ys -> length xs <> 1 -> length ys <> 1 ->
             ConnectConfig.run_example no_x_session "dev2006" B64.f0_1 []
             = (Py.Raised
                  (Py.ValueError "operands could not be broadcast together"),
                requested))
       /\ (ConnectConfig.demod_sample no_x_session !! "x" = Some [] ->
           ConnectConfig.demod_sample no_x_session !! "y" = Some [] ->
           ConnectConfig.run_example no_x_session "dev2006" B64.f0_1 []
           = (Py.Raised (Py.IndexError "index 0 is out of bounds"), requested)).
Proof.
  apply (X6_sample_errors no_x_session "dev2006" B64.f0_1). reflexivity.
Defined.

Section Awg_runs.
Import Py LabOne Awg AwgRuns.
Context {lib : Np.Library}.

(** The run of a session that opens and has its wave directory, up to the
    wait for the compiler. *)
Lemma run_enters_compile (fuel : nat) (float_str : Np.float64 -> string) (ses : session)
      (device_id : string) (do_plot : bool) :
  connect_error ses = None ->
  wave_dir_isdir ses = true ->
  exists d : list call,
    let w := {| trace := d; status_reads := 0; progress_reads := 0;
                scope_polls := 0 |} in
    bind (configure ses device_id)
         (fun _ => submit_program ses (fill_program float_str)) start
    = (Returned tt, w)
    /\ run_example fuel float_str ses device_id do_plot start
       = bind (wait_compile fuel ses) (fun _ =>
         bind (check_compile fuel ses) (fun _ =>
         bind (replace_waveform ses) (fun _ =>
         bind (arm_scope ses) (fun _ =>
         bind (wait_scope fuel ses) (fun _ =>
         capture_and_verify ses do_plot))))) w.
Proof.
  intros Hc Hd.
  destruct (awg_configure_returns ses device_id start Hc) as [d1 H1].
  destruct (submit_program_returns ses (fill_program float_str)
              {| trace := trace start ++ d1;
                 status_reads := status_reads start;
                 progress_reads := progress_reads start;
                 scope_polls := scope_polls start |} Hd) as [d2 H2].
  cbn [status_reads trace progress_reads scope_polls start app] in H1, H2.
  exists (d1 ++ d2). cbv zeta. split.
  - rewrite (bind_Returned _ _ _ _ _ H1). exact H2.
  - unfold run_example. cbv zeta.
    rewrite (bind_Returned _ _ _ _ _ H1).
    rewrite (bind_Returned _ _ _ _ _ H2). reflexivity.
Qed.

(** The upload wait loop returns the number of its turns. *)
Lemma upload_loop_exits (ses : session) :
  forall (k fuel : nat) (i : Z) (w : world),
    (forall t, t < k ->
       B64.ltb (awg_progress ses (progress_reads w + 2 * t)) B64.f1 = true) ->
    B64.ltb (awg_progress ses (progress_reads w + 2 * k)) B64.f1 = false ->
    k < fuel ->
    while_ fuel
      (fun _ : Z => p <- get_awg_progress ses ;; ret (B64.ltb p B64.f1))%py
      (fun i =>
         p <- get_awg_progress ses ;;
         emit (print_format "{} progress: {}" [AInt i; AFloat p]) ;;
         emit (time_sleep B64.f0_5) ;;
         ret (i + 1)%Z)%py
      i w
    = (Returned (i + Z.of_nat k)%Z,
       {| trace := trace w ++ upload_turns ses (progress_reads w) i k
                           ++ [awgModule_get "awgModule/progress"];
          status_reads := status_reads w;
          progress_reads := progress_reads w + 2 * k + 1;
          scope_polls := scope_polls w |}).
Proof.
  induction k as [| k IH]; intros fuel i w Hlow Hdone Hfuel;
    (destruct fuel as [| fuel]; [lia |]); cbn [while_];
    destruct w as [t a b c];
    cbn [status_reads trace progress_reads scope_polls] in *.
  - cbv beta iota delta [bind get_awg_progress ret].
    cbn [status_reads trace progress_reads scope_polls].
    replace (b + 2 * 0) with b in Hdone by lia. rewrite Hdone.
    f_equal; [f_equal; lia | apply world_eq; auto; lia].
  - cbv beta iota delta [bind get_awg_progress emit modify ret].
    cbn [status_reads trace progress_reads scope_polls].
    pose proof (Hlow 0 ltac:(lia)) as H0.
    replace (b + 2 * 0) with b in H0 by lia. rewrite H0.
    rewrite IH; cbn [status_reads trace progress_reads scope_polls].
    + f_equal; [f_equal; lia | apply world_eq; auto; try lia].
      cbn [upload_turns]. rewrite <- !app_assoc. reflexivity.
    + intros t' Ht. replace (S (S b) + 2 * t') with (b + 2 * S t') by lia.
      apply Hlow. lia.
    + replace (S (S b) + 2 * k) with (b + 2 * S k) by lia. exact Hdone.
    + lia.
Qed.

(** The scope wait loop ends at the first poll that finds the record
    complete. *)
Lemma scope_loop_exits (ses : session) :
  forall (k fuel : nat) (t : spec_float) (w : world),
    (forall i, i < k ->
       B64.ltb (scope_progress ses (scope_polls w + i)) B64.f1 = true) ->
    (forall i, i < k -> B64.ltb B64.f0 (Nat.iter i decrement t) = true) ->
    B64.ltb (scope_progress ses (scope_polls w + k)) B64.f1 = false ->
    k < fuel ->
    while_ fuel
      (fun local_timeout =>
         p <- get_scope_progress ses ;;
         ret (B64.ltb p B64.f1 && B64.ltb B64.f0 local_timeout))%py
      (fun local_timeout =>
         emit (time_sleep B64.f0_1) ;;
         ret (B64.sub local_timeout B64.f0_1))%py
      t w
    = (Returned (Nat.iter k decrement t),
       {| trace := trace w ++ scope_turns k ++ [scopeModule_progress];
          status_reads := status_reads w;
          progress_reads := progress_reads w;
          scope_polls := scope_polls w + k + 1 |}).
Proof.
  induction k as [| k IH]; intros fuel t w Hlow Hpos Hdone Hfuel;
    (destruct fuel as [| fuel]; [lia |]); cbn [while_];
    destruct w as [tr a b c];
    cbn [status_reads trace progress_reads scope_polls] in *.
  - cbv beta iota delta [bind get_scope_progress ret].
    cbn [status_reads trace progress_reads scope_polls].
    replace (c + 0) with c in Hdone by lia. rewrite Hdone.
    cbn [andb Nat.iter nat_rect]. f_equal. apply world_eq; auto; lia.
  - cbv beta iota delta [bind get_scope_progress emit modify ret].
    cbn [status_reads trace progress_reads scope_polls].
    pose proof (Hlow 0 ltac:(lia)) as H0.
    replace (c + 0) with c in H0 by lia. rewrite H0.
    pose proof (Hpos 0 ltac:(lia)) as H1. simpl in H1. rewrite H1.
    cbn [andb]. fold (decrement t).
    rewrite IH; cbn [status_reads trace progress_reads scope_polls].
    + rewrite iter_decrement_shift. f_equal. apply world_eq; auto; try lia.
      cbn [scope_turns]. rewrite <- !app_assoc. reflexivity.
    + intros i Hi. replace (S c + i) with (c + S i) by lia. apply Hlow. lia.
    + intros i Hi. rewrite iter_decrement_shift. apply Hpos. lia.
    + replace (S c + k) with (c + S k) by lia. exact Hdone.
    + lia.
Qed.
End Awg_runs.

Section Awg_failures.
Import Py LabOne Awg AwgRuns.
Context {lib : Np.Library}.

Lemma submit_program_raises (ses : session) (awg_program : string) (w : world) :
  wave_dir_isdir ses = false ->
  submit_program ses awg_program w
  = (Raised (Exception_ ("AWG module wave directory " +:+ wave_dir ses
                         +:+ " does not exist or is not a directory")),
     {| trace := trace w
                 ++ [daq_awgModule;
                     awgModule_set "awgModule/device" (device ses);
                     awgModule_execute;
                     awgModule_getString "awgModule/directory";
                     os_path_isdir (wave_dir ses)];
        status_reads := status_reads w;
        progress_reads := progress_reads w;
        scope_polls := scope_polls w |}).
Proof.
  intros Hd. destruct w as [t a b c]. unfold submit_program. cbv zeta.
  cbv beta iota delta [bind emit modify ret trace status_reads progress_reads
                       scope_polls].
  rewrite Hd. cbn [negb]. unfold raise, wave_dir.
  rewrite <- !app_assoc. reflexivity.
Qed.

Lemma check_compile_raises (fuel : nat) (ses : session) (w : world) :
  compiler_status ses (status_reads w) = 1%Z ->
  check_compile fuel ses w
  = (Raised (Exception_ (compiler_statusstring ses)),
     {| trace := trace w
                 ++ [awgModule_get "awgModule/compiler/status";
                     awgModule_get "awgModule/compiler/statusstring"];
        status_reads := S (status_reads w);
        progress_reads := progress_reads w;
        scope_polls := scope_polls w |}).
Proof.
  intros H. destruct w as [t a b c]. unfold check_compile.
  cbn [status_reads] in H.
  cbv beta iota delta [bind get_compiler_status get_compiler_statusstring emit
                       modify ret raise trace status_reads progress_reads
                       scope_polls].
  rewrite H. cbn [Z.eqb Pos.eqb]. rewrite <- !app_assoc. reflexivity.
Qed.

Lemma upload_loop_running (ses : session) :
  forall (fuel : nat) (i : Z) (w : world),
    (forall t, t < fuel ->
       B64.ltb (awg_progress ses (progress_reads w + 2 * t)) B64.f1 = true) ->
    fst (while_ fuel
           (fun _ : Z => p <- get_awg_progress ses ;; ret (B64.ltb p B64.f1))%py
           (fun i =>
              p <- get_awg_progress ses ;;
              emit (print_format "{} progress: {}" [AInt i; AFloat p]) ;;
              emit (time_sleep B64.f0_5) ;;
              ret (i + 1)%Z)%py
           i w)
    = Running.
Proof.
  induction fuel as [| fuel IH]; intros i w Hlow; cbn [while_]; [reflexivity |].
  destruct w as [t a b c].
  cbv beta iota delta [bind get_awg_progress emit modify ret].
  cbn [status_reads trace progress_reads scope_polls] in *.
  pose proof (Hlow 0 ltac:(lia)) as H0.
  replace (b + 2 * 0) with b in H0 by lia. rewrite H0.
  apply IH. cbn [progress_reads]. intros t' Ht.
  replace (S (S b) + 2 * t') with (b + 2 * S t') by lia. apply Hlow. lia.
Qed.
End Awg_failures.

(** X8.  When the wave directory of the AWG module does not exist,
    [run_example] raises the exception that names it; after the device
    settings it has only created and started the module and asked for its
    directory: no CSV file is written and no program is submitted. *)
Theorem X8_missing_wave_directory :
  forall {lib : Np.Library}
         (fuel : nat) (float_str : Np.float64 -> string) (ses : Awg.session)
         (device_id : string) (do_plot : bool),
    Awg.connect_error ses = None ->
    Awg.wave_dir_isdir ses = false ->
    fst (Awg.run_example fuel float_str ses device_id do_plot Awg.start)
    = Py.Raised
        (Py.Exception_ ("AWG module wave directory " +:+ AwgRuns.wave_dir ses
                        +:+ " does not exist or is not a directory"))
    /\ Awg.trace
         (snd (Awg.run_example fuel float_str ses device_id do_plot Awg.start))
       = Awg.trace (snd (Awg.configure ses device_id Awg.start))
         ++ [LabOne.daq_awgModule;
             LabOne.awgModule_set "awgModule/device" (Awg.device ses);
             LabOne.awgModule_execute;
             LabOne.awgModule_getString "awgModule/directory";
             LabOne.os_path_isdir (AwgRuns.wave_dir ses)].
Proof.
  intros lib fuel float_str ses device_id do_plot Hc Hd.
  destruct (awg_configure_returns ses device_id Awg.start Hc) as [d1 H1].
  unfold Awg.run_example. cbv zeta.
  rewrite (bind_Returned _ _ _ _ _ H1).
  erewrite bind_Raised by (apply submit_program_raises; exact Hd).
  rewrite H1. split; reflexivity.
Qed.

Lemma X8_missing_wave_directory_witness :
  fst (Awg.run_example 21 (fun _ => "0.0") no_waves_session "dev2006" false
                       Awg.start)
  = Py.Raised
      (Py.Exception_ ("AWG module wave directory "
                      +:+ AwgRuns.wave_dir no_waves_session
                      +:+ " does not exist or is not a directory"))
  /\ Awg.trace
       (snd (Awg.run_example 21 (fun _ => "0.0") no_waves_session "dev2006"
                             false Awg.start))
     = Awg.trace (snd (Awg.configure no_waves_session "dev2006" Awg.start))
       ++ [LabOne.daq_awgModule;
           LabOne.awgModule_set "awgModule/device" (Awg.device no_waves_session);
           LabOne.awgModule_execute;
           LabOne.awgModule_getString "awgModule/directory";
           LabOne.os_path_isdir (AwgRuns.wave_dir no_waves_session)].
Proof.
  apply (X8_missing_wave_directory 21 (fun _ => "0.0") no_waves_session
                                   "dev2006" false); reflexivity.
Defined.

(** X9.  When the compiler, after [k] reads of the in-progress status,
    reports a failure, [run_example] raises the exception with the
    compiler's status string, and the read of that string is its last call:
    after submitting the program it has only polled the status, so no
    waveform is written and the scope is not touched. *)
Theorem X9_compile_failure_ends_the_run :
  forall {lib : Np.Library}
         (fuel : nat) (float_str : Np.float64 -> string) (ses : Awg.session)
         (device_id : string) (do_plot : bool) (k : nat),
    Awg.connect_error ses = None ->
    Awg.wave_dir_isdir ses = true ->
    (forall i, i < k -> Awg.compiler_status ses i = (-1)%Z) ->
    Awg.compiler_status ses k <> (-1)%Z ->
    Awg.compiler_status ses (k + 1) = 1%Z ->
    k < fuel ->
    fst (Awg.run_example fuel float_str ses device_id do_plot Awg.start)
    = Py.Raised (Py.Exception_ (Awg.compiler_statusstring ses))
    /\ Awg.trace
         (snd (Awg.run_example fuel float_str ses device_id do_plot Awg.start))
       = Awg.trace
           (snd (Py.bind (Awg.configure ses device_id)
                         (fun _ => Awg.submit_program
                                     ses (Awg.fill_program float_str))
                         Awg.start))
         ++ Awg.compile_polls k
         ++ [LabOne.awgModule_get "awgModule/compiler/status";
             LabOne.awgModule_get "awgModule/compiler/status";
             LabOne.awgModule_get "awgModule/compiler/statusstring"].
Proof.
  intros lib fuel float_str ses device_id do_plot k Hc Hd Hbusy Hdone Hfail Hfuel.
  destruct (run_enters_compile fuel float_str ses device_id do_plot Hc Hd)
    as (d & Hpre & Hrun).
  cbv zeta in Hpre, Hrun. rewrite Hrun, Hpre.
  erewrite bind_Returned
    by (apply (wait_compile_exits ses k); cbn [Awg.status_reads];
        [intros j Hj; apply Hbusy; lia | exact Hdone | exact Hfuel]).
  erewrite bind_Raised
    by (apply check_compile_raises; cbn [Awg.after_wait_compile Awg.status_reads];
        replace (0 + k + 1) with (k + 1) by lia; exact Hfail).
  cbn [fst snd Awg.trace Awg.after_wait_compile].
  split; [reflexivity |]. rewrite <- !app_assoc. reflexivity.
Qed.

Lemma X9_compile_failure_ends_the_run_witness :
  fst (Awg.run_example 21 (fun _ => "0.0") failing_compile_session "dev2006"
                       false Awg.start)
  = Py.Raised (Py.Exception_ (Awg.compiler_statusstring failing_compile_session))
  /\ Awg.trace
       (snd (Awg.run_example 21 (fun _ => "0.0") failing_compile_session
                             "dev2006" false Awg.start))
     = Awg.trace
         (snd (Py.bind (Awg.configure failing_compile_session "dev2006")
                       (fun _ => Awg.submit_program
                                   failing_compile_session
                                   (Awg.fill_program (fun _ => "0.0")))
                       Awg.start))
       ++ Awg.compile_polls 2
       ++ [LabOne.awgModule_get "awgModule/compiler/status";
           LabOne.awgModule_get "awgModule/compiler/status";
           LabOne.awgModule_get "awgModule/compiler/statusstring"].
Proof.
  apply (X9_compile_failure_ends_the_run 21 (fun _ => "0.0")
           failing_compile_session "dev2006" false 2).
  - reflexivity.
  - reflexivity.
  - intros i Hi. destruct i as [| [| i]]; [reflexivity | reflexivity | lia].
  - simpl. discriminate.
  - reflexivity.
  - lia.
Defined.

(** X10.  The wait for the compiler has no bound either: with a compiler that
    never leaves the in-progress status, [run_example] is still running after
    any number of loop steps. *)
Theorem X10_compile_wait_unbounded :
  forall {lib : Np.Library} (float_str : Np.float64 -> string)
         (ses : Awg.session) (device_id : string)
         (do_plot : bool),
    Awg.connect_error ses = None ->
    Awg.wave_dir_isdir ses = true ->
    (forall n, Awg.compiler_status ses n = (-1)%Z) ->
    forall fuel,
      fst (Awg.run_example fuel float_str ses device_id do_plot Awg.start)
      = Py.Running.
Proof.
  intros lib float_str ses device_id do_plot Hc Hd Hbusy fuel.
  destruct (run_enters_compile fuel float_str ses device_id do_plot Hc Hd)
    as (d & _ & Hrun).
  cbv zeta in Hrun. rewrite Hrun.
  apply fst_bind_Running. apply wait_compile_running.
  intros j _. apply Hbusy.
Qed.

Lemma X10_compile_wait_unbounded_witness :
  (forall n, Awg.compiler_status busy_compile_session n = (-1)%Z)
  /\ (forall fuel,
        fst (Awg.run_example fuel (fun _ => "0.0") busy_compile_session
                             "dev2006" false Awg.start)
        = Py.Running).
Proof.
  split; [intros n; reflexivity |].
  apply (X10_compile_wait_unbounded (fun _ => "0.0") busy_compile_session
                                    "dev2006" false);
    [reflexivity | reflexivity | intros n; reflexivity].
Defined.

(** X11.  The wait for the upload returns the number of its turns: when the
    progress is found below 1.0 at [k] tests and not at the next, it makes
    exactly [k] turns.  Every turn reads the progress twice: the value it
    prints is the second read, not the one it has tested. *)
Theorem X11_upload_wait_counts_its_turns :
  forall (ses : Awg.session) (w : Awg.world) (k : nat),
    (forall t, t < k ->
       B64.ltb (Awg.awg_progress ses (Awg.progress_reads w + 2 * t)) B64.f1
       = true) ->
    B64.ltb (Awg.awg_progress ses (Awg.progress_reads w + 2 * k)) B64.f1 = false ->
    (forall fuel, fuel <= k -> fst (Awg.wait_upload fuel ses w) = Py.Running)
    /\ (forall fuel, k < fuel ->
          Awg.wait_upload fuel ses w
          = (Py.Returned (Z.of_nat k),
             {| Awg.trace :=
                  Awg.trace w
                  ++ AwgRuns.upload_turns ses (Awg.progress_reads w) 0 k
                  ++ [LabOne.awgModule_get "awgModule/progress"];
                Awg.status_reads := Awg.status_reads w;
                Awg.progress_reads := Awg.progress_reads w + 2 * k + 1;
                Awg.scope_polls := Awg.scope_polls w |})).
Proof.
  intros ses w k Hlow Hdone. split.
  - intros fuel Hfuel. unfold Awg.wait_upload. apply upload_loop_running.
    intros t Ht. apply Hlow. lia.
  - intros fuel Hfuel. unfold Awg.wait_upload.
    rewrite (upload_loop_exits ses k fuel 0 w Hlow Hdone Hfuel). reflexivity.
Qed.

Lemma X11_upload_wait_counts_its_turns_witness :
  (forall fuel, fuel <= 1 ->
     fst (Awg.wait_upload fuel awg_session Awg.start) = Py.Running)
  /\ (forall fuel, 1 < fuel ->
        Awg.wait_upload fuel awg_session Awg.start
        = (Py.Returned (Z.of_nat 1),
           {| Awg.trace :=
                Awg.trace Awg.start
                ++ AwgRuns.upload_turns awg_session
                     (Awg.progress_reads Awg.start) 0 1
                ++ [LabOne.awgModule_get "awgModule/progress"];
              Awg.status_reads := Awg.status_reads Awg.start;
              Awg.progress_reads := Awg.progress_reads Awg.start + 2 * 1 + 1;
              Awg.scope_polls := Awg.scope_polls Awg.start |})).
Proof.
  apply (X11_upload_wait_counts_its_turns awg_session Awg.start 1).
  - intros t Ht. destruct t as [| t]; [reflexivity | lia].
  - reflexivity.
Defined.

(** X12.  The wait for the scope ends at the first poll that finds the
    record complete: when that is the poll after [k] turns, [k] not above 20,
    the loop makes exactly [k] turns and leaves [local_timeout] at 2.0 less
    [k] times 0.1. *)
Theorem X12_scope_wait_ends_when_complete :
  forall (ses : Awg.session) (w : Awg.world) (k fuel : nat),
    k <= 20 ->
    (forall i, i < k ->
       B64.ltb (Awg.scope_progress ses (Awg.scope_polls w + i)) B64.f1 = true) ->
    B64.ltb (Awg.scope_progress ses (Awg.scope_polls w + k)) B64.f1 = false ->
    k < fuel ->
    Awg.wait_scope fuel ses w
    = (Py.Returned (Awg.local_timeout_after k),
       {| Awg.trace :=
            Awg.trace w ++ Awg.scope_turns k ++ [LabOne.scopeModule_progress];
          Awg.status_reads := Awg.status_reads w;
          Awg.progress_reads := Awg.progress_reads w;
          Awg.scope_polls := Awg.scope_polls w + k + 1 |}).
Proof.
  intros ses w k fuel Hk Hlow Hdone Hfuel.
  unfold Awg.wait_scope. cbv zeta.
  apply scope_loop_exits; try assumption.
  intros i Hi. apply (local_timeout_positive i). lia.
Qed.

Lemma X12_scope_wait_ends_when_complete_witness :
  Awg.wait_scope 21 quick_scope_session Awg.start
  = (Py.Returned (Awg.local_timeout_after 3),
     {| Awg.trace :=
          Awg.trace Awg.start ++ Awg.scope_turns 3
                    ++ [LabOne.scopeModule_progress];
        Awg.status_reads := Awg.status_reads Awg.start;
        Awg.progress_reads := Awg.progress_reads Awg.start;
        Awg.scope_polls := Awg.scope_polls Awg.start + 3 + 1 |}).
Proof.
  apply (X12_scope_wait_ends_when_complete quick_scope_session Awg.start 3 21).
  - lia.
  - intros i Hi. destruct i as [| [| [| i]]]; [reflexivity .. | lia].
  - reflexivity.
  - lia.
Defined.

Section Awg_capture.
Import Py LabOne Awg AwgRuns.
Context {lib : Np.Library}.

(** With a session that compiles and uploads, the run gets to the read of the
    scope, after at most 20 turns of the scope wait loop. *)
Lemma run_reaches_capture (fuel : nat) (float_str : Np.float64 -> string)
      (ses : session) (device_id : string) (do_plot : bool) (k j : nat) :
  reaches_capture ses k j ->
  k < fuel -> j < fuel -> 20 < fuel ->
  exists (w : world) (pre : list call) (n : nat),
    n <= 20
    /\ trace w = pre ++ scope_turns n ++ [scopeModule_progress]
    /\ ((forall i, B64.ltb (scope_progress ses i) B64.f1 = true) -> n = 20)
    /\ run_example fuel float_str ses device_id do_plot start
       = capture_and_verify ses do_plot w.
Proof.
  intros (Hc & Hd & (Hbusy & Hdone & Hok) & (Hlow & Hup)) Hk Hj Hfuel.
  destruct (run_enters_compile fuel float_str ses device_id do_plot Hc Hd)
    as (d & _ & Hrun).
  cbv zeta in Hrun. rewrite Hrun. clear Hrun.
  erewrite bind_Returned
    by (apply (wait_compile_exits ses k); cbn [status_reads];
        [intros i Hi; apply Hbusy; lia | exact Hdone | exact Hk]).
  match goal with
  | |- context [bind (check_compile fuel ses) _ ?w1] =>
      destruct (check_compile_upload fuel ses w1) as (announce & w2 & Hcheck & _ & _ & Hp & _)
  end.
  { cbn [after_wait_compile status_reads].
    replace (0 + k + 1) with (k + 1) by lia. exact Hok. }
  cbn [after_wait_compile progress_reads] in Hp.
  assert (Hupload : exists w3, wait_upload fuel ses w2 = (Returned (Z.of_nat j), w3)).
  { unfold wait_upload. eexists.
    apply (upload_loop_exits ses j fuel 0 w2); rewrite ?Hp;
      [intros t Ht; apply Hlow; exact Ht | exact Hup | exact Hj]. }
  destruct Hupload as [w3 Hupload].
  erewrite bind_Returned
    by (rewrite Hcheck, (bind_Returned _ _ _ _ _ Hupload); reflexivity).
  destruct (replace_waveform_returns ses w3) as [w4 H4].
  rewrite (bind_Returned _ _ _ _ _ H4).
  destruct (arm_scope_returns ses w4) as [w5 H5].
  rewrite (bind_Returned _ _ _ _ _ H5).
  destruct (wait_scope_returns ses fuel w5 Hfuel) as (n & w6 & Hn & H6 & Htr & Hex).
  rewrite (bind_Returned _ _ _ _ _ H6).
  exists w6, (trace w5), n. repeat split; assumption.
Qed.

Lemma read_scope_missing (ses : session) (w : world) :
  find (fun kv => String.eqb ("/" +:+ device ses +:+ "/scopes/0/wave") (fst kv))
       (data_read ses) = None ->
  read_scope ses w
  = (Raised (AssertionError
       ("Error: The subscribed data `" +:+ ("/" +:+ device ses +:+ "/scopes/0/wave")
        +:+ "` was returned.")),
     {| trace := trace w
                 ++ [daq_setInt ("/" +:+ device ses +:+ "/scopes/0/enable") (I 0);
                     scopeModule_read true];
        status_reads := status_reads w;
        progress_reads := progress_reads w;
        scope_polls := scope_polls w |}).
Proof.
  intros H. destruct w as [t a b c]. unfold read_scope. cbv zeta.
  cbv beta iota delta [bind emit modify raise trace status_reads progress_reads
                       scope_polls].
  rewrite H. rewrite <- !app_assoc. reflexivity.
Qed.

(** The loop over the channels keeps [y_measured] while no channel is
    enabled. *)
Lemma measured_signal_skips (data : scope_data) (w : world) :
  forall (m a : nat) (y : option (Np.ndarray)),
    (forall i, a <= i < a + m -> nth_error (channelenable data) i = Some false) ->
    measured_signal data (seq a m) y w = (Returned y, w).
Proof.
  induction m as [| m IH]; intros a y Hoff; [reflexivity |].
  cbn [seq measured_signal]. unfold index at 1.
  rewrite (Hoff a) by lia.
  erewrite bind_Returned by reflexivity.
  apply IH. intros i Hi. apply Hoff. lia.
Qed.

(** It ends with the signal of the last enabled channel. *)
Lemma measured_signal_last (data : scope_data) (w : world) (i : nat)
      (y : Np.ndarray) :
  nth_error (channelenable data) i = Some true ->
  channel_signal data i = Some y ->
  forall (m a : nat) (y0 : option (Np.ndarray)),
    a <= i < a + m ->
    (forall l, i < l < a + m -> nth_error (channelenable data) l = Some false) ->
    (forall l, a <= l < i ->
       exists b, nth_error (channelenable data) l = Some b
                 /\ (b = true -> exists s, channel_signal data l = Some s)) ->
    measured_signal data (seq a m) y0 w = (Returned (Some y), w).
Proof.
  intros Hon Hsig.
  induction m as [| m IH]; intros a y0 Hrange Hoff Hbefore; [lia |].
  cbn [seq measured_signal].
  destruct (Nat.eq_dec a i) as [-> | Hne].
  - unfold index at 1. rewrite Hon.
    erewrite bind_Returned by reflexivity.
    unfold channel_signal in Hsig.
    destruct (nth_error (wave data) i) as [wv |] eqn:Ew; [| discriminate].
    destruct (nth_error (channelscaling data) i) as [sc |] eqn:Es; [| discriminate].
    destruct (nth_error (channeloffset data) i) as [off |] eqn:Eo; [| discriminate].
    injection Hsig as <-.
    unfold index. rewrite Ew, Es, Eo.
    do 3 (erewrite bind_Returned by reflexivity).
    apply measured_signal_skips. intros l Hl. apply Hoff. lia.
  - destruct (Hbefore a ltac:(lia)) as (b & Hb & Hs).
    unfold index at 1. rewrite Hb.
    erewrite bind_Returned by reflexivity.
    destruct b.
    + destruct (Hs eq_refl) as [s Hsa]. unfold channel_signal in Hsa.
      destruct (nth_error (wave data) a) as [wv |] eqn:Ew; [| discriminate].
      destruct (nth_error (channelscaling data) a) as [sc |] eqn:Es; [| discriminate].
      destruct (nth_error (channeloffset data) a) as [off |] eqn:Eo; [| discriminate].
      unfold index. rewrite Ew, Es, Eo.
      do 3 (erewrite bind_Returned by reflexivity).
      apply IH; [lia | intros l Hl; apply Hoff; lia
                | intros l Hl; apply Hbefore; lia].
    + apply IH; [lia | intros l Hl; apply Hoff; lia
                | intros l Hl; apply Hbefore; lia].
Qed.
End Awg_capture.

(** X13.  When the scope module returns no data for the subscribed node, as
    after a wait that has timed out with nothing recorded, [run_example]
    does not go on with an empty result: the scope is disabled, the read is
    made, and the run ends with [AssertionError]; no signal is compared. *)
Theorem X13_empty_capture_is_an_AssertionError :
  forall {lib : Np.Library}
         (fuel : nat) (float_str : Np.float64 -> string) (ses : Awg.session)
         (device_id : string) (do_plot : bool) (k j : nat),
    AwgRuns.reaches_capture ses k j ->
    k < fuel -> j < fuel -> 20 < fuel ->
    find (fun kv => String.eqb ("/" +:+ Awg.device ses +:+ "/scopes/0/wave")
                               (fst kv))
         (Awg.data_read ses) = None ->
    exists (pre : list LabOne.call) (n : nat),
      n <= 20
      /\ ((forall i, B64.ltb (Awg.scope_progress ses i) B64.f1 = true) -> n = 20)
      /\ fst (Awg.run_example fuel float_str ses device_id do_plot Awg.start)
         = Py.Raised
             (Py.AssertionError
                ("Error: The subscribed data `"
                 +:+ ("/" +:+ Awg.device ses +:+ "/scopes/0/wave")
                 +:+ "` was returned."))
      /\ Awg.trace
           (snd (Awg.run_example fuel float_str ses device_id do_plot Awg.start))
         = pre ++ Awg.scope_turns n
           ++ [LabOne.scopeModule_progress;
               LabOne.daq_setInt ("/" +:+ Awg.device ses +:+ "/scopes/0/enable")
                                 (LabOne.I 0);
               LabOne.scopeModule_read true].
Proof.
  intros lib fuel float_str ses device_id do_plot k j Hreach Hk Hj Hfuel Hnone.
  destruct (run_reaches_capture fuel float_str ses device_id do_plot k j
              Hreach Hk Hj Hfuel) as (w & pre & n & Hn & Htr & Hex & Hrun).
  exists pre, n. split; [exact Hn |]. split; [exact Hex |].
  rewrite Hrun. unfold AwgRuns.capture_and_verify.
  erewrite bind_Raised by (apply read_scope_missing; exact Hnone).
  cbn [fst snd Awg.trace]. split; [reflexivity |].
  rewrite Htr, <- !app_assoc. reflexivity.
Qed.

Lemma X13_empty_capture_is_an_AssertionError_witness :
  exists (pre : list LabOne.call) (n : nat),
    n <= 20
    /\ ((forall i, B64.ltb (Awg.scope_progress awg_session i) B64.f1 = true)
        -> n = 20)
    /\ fst (Awg.run_example 21 (fun _ => "0.0") awg_session "dev2006" false
                            Awg.start)
       = Py.Raised
           (Py.AssertionError
              ("Error: The subscribed data `"
               +:+ ("/" +:+ Awg.device awg_session +:+ "/scopes/0/wave")
               +:+ "` was returned."))
    /\ Awg.trace
         (snd (Awg.run_example 21 (fun _ => "0.0") awg_session "dev2006" false
                               Awg.start))
       = pre ++ Awg.scope_turns n
         ++ [LabOne.scopeModule_progress;
             LabOne.daq_setInt
               ("/" +:+ Awg.device awg_session +:+ "/scopes/0/enable")
               (LabOne.I 0);
             LabOne.scopeModule_read true].
Proof.
  apply (X13_empty_capture_is_an_AssertionError 21 (fun _ => "0.0") awg_session
           "dev2006" false 2 1); try lia; try reflexivity.
  split; [reflexivity |]. split; [reflexivity |]. split.
  - split; [| split; simpl; discriminate].
    intros i Hi. destruct i as [| [| i]]; [reflexivity | reflexivity | lia].
  - split; [| reflexivity].
    intros i Hi. destruct i as [| i]; [reflexivity | lia].
Defined.

(** X14.  The loop over the channels leaves in [y_measured] the signal of the
    last enabled channel, its wave times its scaling plus its offset; the
    channels enabled before it are overwritten.  With no channel enabled
    [y_measured] stays unbound, and the comparison raises [NameError]. *)
Theorem X14_last_enabled_channel_is_measured :
  forall {lib : Np.Library}
         (data : Awg.scope_data) (w : Awg.world) (i : nat) (y : Np.ndarray),
    nth_error (Awg.channelenable data) i = Some true ->
    (forall l, i < l < length (Awg.channelenable data) ->
               nth_error (Awg.channelenable data) l = Some false) ->
    (forall l, l < length (Awg.channelenable data) ->
               exists s, AwgRuns.channel_signal data l = Some s) ->
    AwgRuns.channel_signal data i = Some y ->
    Awg.measured_signal data (seq 0 (length (Awg.channelenable data))) None w
    = (Py.Returned (Some y), w)
    /\ (forall (data' : Awg.scope_data) (do_plot : bool) (e : Np.ndarray),
          (forall l, l < length (Awg.channelenable data') ->
                     nth_error (Awg.channelenable data') l = Some false) ->
          Py.bind (Awg.measured_signal
                     data' (seq 0 (length (Awg.channelenable data'))) None)
                  (fun y_measured => Awg.verify do_plot y_measured e) w
          = (Py.Raised (Py.NameError "y_measured"), w)).
Proof.
  intros lib data w i y Hon Hoff Hwf Hsig. split.
  - assert (Hi : i < length (Awg.channelenable data))
      by (apply nth_error_Some; congruence).
    apply (measured_signal_last data w i y Hon Hsig); [lia | exact Hoff |].
    intros l Hl.
    destruct (nth_error (Awg.channelenable data) l) as [b |] eqn:E.
    + exists b. split; [reflexivity |]. intros _. apply Hwf. lia.
    + exfalso. apply nth_error_None in E. lia.
  - intros data' do_plot e Hnone.
    erewrite bind_Returned
      by (apply measured_signal_skips; intros l Hl; apply Hnone; lia).
    reflexivity.
Qed.

Lemma X14_last_enabled_channel_is_measured_witness :
  Awg.measured_signal loopback_data
    (seq 0 (length (Awg.channelenable loopback_data))) None Awg.start
  = (Py.Returned (Some loopback_signal), Awg.start)
  /\ (forall (data' : Awg.scope_data) (do_plot : bool) (e : Np.ndarray),
        (forall l, l < length (Awg.channelenable data') ->
                   nth_error (Awg.channelenable data') l = Some false) ->
        Py.bind (Awg.measured_signal
                   data' (seq 0 (length (Awg.channelenable data'))) None)
                (fun y_measured => Awg.verify do_plot y_measured e) Awg.start
        = (Py.Raised (Py.NameError "y_measured"), Awg.start)).
Proof.
  apply (X14_last_enabled_channel_is_measured loopback_data Awg.start 0).
  - reflexivity.
  - intros l Hl. simpl in Hl. lia.
  - intros l Hl. simpl in Hl. destruct l as [| l]; [| lia].
    eexists. reflexivity.
  - reflexivity.
Defined.

(* ===================================================================== *)
(** * The comparison of the measured with the expected signal *)
(* ===================================================================== *)

Section Awg_comparison.
Import Py LabOne Awg.
Context {lib : Np.Library}.

(** The comparison returns the coefficient when it exceeds 0.95. *)
Lemma verify_passes (do_plot : bool) (y e corr : Np.ndarray) (w : world) :
  Np.correlate y e = Some corr ->
  B64.ltb B64.f0_95 (norm_correlation_coeff corr (Np.argmax corr) y e) = true ->
  exists w',
    verify do_plot (Some y) e w
    = (Returned (norm_correlation_coeff corr (Np.argmax corr) y e), w').
Proof.
  intros Hcorr Hpass. destruct w as [t a b c].
  unfold verify. rewrite Hcorr. cbv zeta. rewrite Hpass.
  destruct do_plot;
    cbv beta iota delta [bind emit modify ret assert_ trace status_reads
                         progress_reads scope_polls];
    eexists; reflexivity.
Qed.

(** It raises [AssertionError] when it does not. *)
Lemma verify_fails (do_plot : bool) (y e corr : Np.ndarray) (w : world) :
  Np.correlate y e = Some corr ->
  B64.ltb B64.f0_95 (norm_correlation_coeff corr (Np.argmax corr) y e) = false ->
  fst (verify do_plot (Some y) e w)
  = Raised (AssertionError
      "Detected a disagreement between the measured and expected signals").
Proof.
  intros Hcorr Hfail. destruct w as [t a b c].
  unfold verify. rewrite Hcorr. cbv zeta. rewrite Hfail.
  destruct do_plot;
    cbv beta iota delta [bind emit modify ret raise assert_ trace status_reads
                         progress_reads scope_polls];
    reflexivity.
Qed.
End Awg_comparison.

(** X15.  The comparison depends on the gain of the measured signal.  With a
    finite, positive correlation at the matching lag: when the product of the
    two energies overflows, the coefficient is [0.0] and the run ends with
    [AssertionError]; when it underflows to zero, the coefficient is [+inf]
    and the comparison passes. *)
Theorem X15_energy_out_of_range :
  forall {lib : Np.Library} (do_plot : bool)
         (y_measured y_expected corr : Np.ndarray) (w : Awg.world),
    Np.correlate y_measured y_expected = Some corr ->
    let c := nth (Np.argmax corr) corr B64.f0 in
    let energy := B64.mul (Np.sum (Np.square y_measured))
                          (Np.sum (Np.square y_expected)) in
    B64.is_finite c = true ->
    B64.ltb B64.f0 c = true ->
    (energy = S754_infinity false ->
     fst (Awg.verify do_plot (Some y_measured) y_expected w)
     = Py.Raised
         (Py.AssertionError
            "Detected a disagreement between the measured and expected signals"))
    /\ (energy = S754_zero false ->
        fst (Awg.verify do_plot (Some y_measured) y_expected w)
        = Py.Returned (S754_infinity false)).
Proof.
  intros lib do_plot y_measured y_expected corr w Hcorr c energy Hfin Hpos.
  assert (Hc : exists m e, c = S754_finite false m e).
  { destruct c as [[] | [] | | [] m e]; try discriminate Hfin;
      try discriminate Hpos. eexists _, _. reflexivity. }
  destruct Hc as (m & e & Hc).
  split; intros Henergy.
  - apply (verify_fails do_plot y_measured y_expected corr w Hcorr).
    unfold Awg.norm_correlation_coeff. fold c. fold energy.
    rewrite Hc, Henergy. reflexivity.
  - destruct (verify_passes do_plot y_measured y_expected corr w Hcorr)
      as [w' Hw'].
    + unfold Awg.norm_correlation_coeff. fold c. fold energy.
      rewrite Hc, Henergy. reflexivity.
    + rewrite Hw'. cbn [fst]. unfold Awg.norm_correlation_coeff.
      fold c. fold energy. rewrite Hc, Henergy. reflexivity.
Qed.

Lemma X15_energy_out_of_range_witness :
  fst (Awg.verify false (Some [f1e200]) [B64.f1] Awg.start)
  = Py.Raised
      (Py.AssertionError
         "Detected a disagreement between the measured and expected signals")
  /\ fst (Awg.verify false (Some [f1e_200]) [B64.f1] Awg.start)
     = Py.Returned (S754_infinity false).
Proof.
  split.
  - apply (X15_energy_out_of_range false [f1e200] [B64.f1]
             [Np.dot [f1e200] [B64.f1]] Awg.start);
      reflexivity.
  - apply (X15_energy_out_of_range false [f1e_200] [B64.f1]
             [Np.dot [f1e_200] [B64.f1]] Awg.start);
      reflexivity.
Defined.

(** X17.  A complete run: with a session that opens, compiles and uploads,
    and a scope record whose last enabled channel holds a signal with a
    normalised correlation coefficient above 0.95, [run_example] returns what
    the scope module has read, whether the scope reported the record complete
    or the wait timed out. *)
Theorem X17_loop_back_run_returns_the_data :
  forall {lib : Np.Library} (fuel : nat) (float_str : Np.float64 -> string)
         (ses : Awg.session) (device_id : string) (do_plot : bool) (k j : nat)
         (key : string) (data : Awg.scope_data) (r : list Awg.scope_data)
         (r' : list (list Awg.scope_data)) (i : nat) (y corr : Np.ndarray),
    AwgRuns.reaches_capture ses k j ->
    k < fuel -> j < fuel -> 20 < fuel ->
    find (fun kv => String.eqb ("/" +:+ Awg.device ses +:+ "/scopes/0/wave")
                               (fst kv))
         (Awg.data_read ses) = Some (key, (data :: r) :: r') ->
    nth_error (Awg.channelenable data) i = Some true ->
    (forall l, i < l < length (Awg.channelenable data) ->
               nth_error (Awg.channelenable data) l = Some false) ->
    (forall l, l < length (Awg.channelenable data) ->
               exists s, AwgRuns.channel_signal data l = Some s) ->
    AwgRuns.channel_signal data i = Some y ->
    Np.correlate y Awg.y_expected = Some corr ->
    B64.ltb B64.f0_95
            (Awg.norm_correlation_coeff corr (Np.argmax corr) y Awg.y_expected)
    = true ->
    exists w,
      Awg.run_example fuel float_str ses device_id do_plot Awg.start
      = (Py.Returned (Awg.data_read ses), w).
Proof.
  intros lib fuel float_str ses device_id do_plot k j key data r r' i y corr
         Hreach Hk Hj Hfuel Hfind Hon Hoff Hwf Hsig Hcorr Hpass.
  destruct (run_reaches_capture fuel float_str ses device_id do_plot k j
              Hreach Hk Hj Hfuel) as (w & _ & _ & _ & _ & _ & Hrun).
  rewrite Hrun. unfold AwgRuns.capture_and_verify.
  destruct (read_scope_returns ses w _ _ _ _ Hfind) as [w1 H1].
  rewrite (bind_Returned _ _ _ _ _ H1).
  assert (Hi : i < length (Awg.channelenable data))
    by (apply nth_error_Some; congruence).
  erewrite bind_Returned.
  2: { apply (measured_signal_last data w1 i _ Hon Hsig); [lia | exact Hoff |].
       intros l Hl.
       destruct (nth_error (Awg.channelenable data) l) as [b |] eqn:E.
       - exists b. split; [reflexivity |]. intros _. apply Hwf. lia.
       - exfalso. apply nth_error_None in E. lia. }
  destruct (verify_passes do_plot y Awg.y_expected corr w1 Hcorr Hpass)
    as [w2 H2].
  rewrite (bind_Returned _ _ _ _ _ H2).
  eexists. reflexivity.
Qed.

Lemma X17_loop_back_run_returns_the_data_witness :
  exists w,
    Awg.run_example 21 (fun _ => "0.0") loopback_session "dev2006" false
                    Awg.start
    = (Py.Returned (Awg.data_read loopback_session), w).
Proof.
  apply (X17_loop_back_run_returns_the_data 21 (fun _ => "0.0")
           loopback_session "dev2006" false 2 0
           "/dev2006/scopes/0/wave" loopback_data [] [] 0 loopback_signal
           [Np.dot loopback_signal Awg.y_expected]).
  - split; [reflexivity |]. split; [reflexivity |]. split.
    + split; [| split; simpl; discriminate].
      intros i Hi. destruct i as [| [| i]]; [reflexivity | reflexivity | lia].
    + split; [intros i Hi; lia | reflexivity].
  - lia.
  - lia.
  - lia.
  - reflexivity.
  - reflexivity.
  - intros l Hl. simpl in Hl. lia.
  - intros l Hl. simpl in Hl. destruct l as [| l]; [| lia].
    eexists. reflexivity.
  - reflexivity.
  - vm_compute. reflexivity.
  - vm_compute. reflexivity.
Defined.

Section ConnectConfig_order.
Import Py LabOne ConnectConfig.
Context {lib : Np.Library}.

Lemma x_plus_jy_keeps_trace (sample : gmap string (Np.ndarray)) (tr : list call) :
  snd (x_plus_jy sample tr) = tr.
Proof.
  unfold x_plus_jy, item, bind.
  destruct (sample !! "x") as [xs |]; [| reflexivity].
  destruct (sample !! "y") as [ys |]; [| reflexivity].
  cbn. destruct (Np.broadcast2 _ _ _); reflexivity.
Qed.

(** The post-processing issues no call but the report. *)
Lemma add_R_phi_trace (sample : gmap string (Np.ndarray)) (tr : list call) :
  exists rest : list call,
    snd (add_R_phi sample tr) = tr ++ rest
    /\ (rest = []
        \/ exists r0, rest = [print_format "Measured RMS amplitude is {:.3e} V."
                                           [AFloat r0]]).
Proof.
  unfold add_R_phi.
  pose proof (x_plus_jy_keeps_trace sample tr) as H1.
  unfold bind at 1.
  destruct (x_plus_jy sample tr) as [[z | e |] tr1]; cbn [snd] in H1; subst tr1;
    [| exists []; rewrite app_nil_r; auto ..].
  pose proof (x_plus_jy_keeps_trace (<["R" := map Np.abs z]> sample) tr) as H2.
  unfold bind at 1.
  destruct (x_plus_jy (<["R" := map Np.abs z]> sample) tr) as [[z' | e |] tr2];
    cbn [snd] in H2; subst tr2; [| exists []; rewrite app_nil_r; auto ..].
  unfold item, bind.
  destruct (_ !! "R") as [[| r0 r] |]; cbn;
    [exists []; rewrite app_nil_r; auto | | exists []; rewrite app_nil_r; auto].
  eexists. split; [reflexivity |]. right. eexists. reflexivity.
Qed.

Lemma demod_configure_ends_with_sync (ses : session) (device_id : string)
      (amplitude : spec_float) :
  connect_error ses = None ->
  exists (pre : list call) (exp_setting : list (string * num)),
    configure ses device_id amplitude []
    = (Returned tt,
       pre ++ [daq_set exp_setting;
               time_sleep (B64.mul B64.f10 B64.f1e_6);
               daq_sync]).
Proof.
  intros Hc. unfold configure. cbv zeta.
  cbv beta iota delta [bind emit modify ret]. rewrite Hc.
  cbn [app]. eexists (_ :: _ :: _ :: _ :: _ :: []), _. reflexivity.
Qed.
End ConnectConfig_order.

(** X18.  As the comment in the demodulator example asks, the barrier before
    the sample comes after the settling time: once the session is open, the
    trace is some calls, the burst of experiment settings, the sleep of ten
    time constants, [daq.sync()], the one [getSample], and after it nothing
    but, at most, the report of the amplitude. *)
Theorem X18_settle_then_sync_then_sample :
  forall {lib : Np.Library} (ses : ConnectConfig.session) (device_id : string)
         (amplitude : spec_float),
    ConnectConfig.connect_error ses = None ->
    exists (pre : list LabOne.call) (exp_setting : list (string * LabOne.num))
           (rest : list LabOne.call),
      snd (ConnectConfig.run_example ses device_id amplitude [])
      = pre
        ++ [LabOne.daq_set exp_setting;
            LabOne.time_sleep (B64.mul B64.f10 B64.f1e_6);
            LabOne.daq_sync;
            LabOne.daq_getSample
              ("/" +:+ ConnectConfig.device ses +:+ "/demods/"
                   +:+ LabOne.str_int 0 +:+ "/sample")]
        ++ rest
      /\ (rest = []
          \/ exists r0,
               rest = [LabOne.print_format "Measured RMS amplitude is {:.3e} V."
                                           [LabOne.AFloat r0]]).
Proof.
  intros lib ses device_id amplitude Hc.
  destruct (demod_configure_ends_with_sync ses device_id amplitude Hc)
    as (pre & exp_setting & Hconf).
  unfold ConnectConfig.run_example. cbv zeta.
  rewrite (bind_Returned _ _ _ _ _ Hconf).
  erewrite bind_Returned by reflexivity.
  match goal with
  | |- context [ConnectConfig.add_R_phi ?s ?tr] =>
      destruct (add_R_phi_trace s tr) as (rest & Hrest & Hshape)
  end.
  exists pre, exp_setting, rest. split; [| exact Hshape].
  rewrite Hrest. rewrite <- !app_assoc. reflexivity.
Qed.

Lemma X18_settle_then_sync_then_sample_witness :
  exists (pre : list LabOne.call) (exp_setting : list (string * LabOne.num))
         (rest : list LabOne.call),
    snd (ConnectConfig.run_example demod_session "dev2006" B64.f0_1 [])
    = pre
      ++ [LabOne.daq_set exp_setting;
          LabOne.time_sleep (B64.mul B64.f10 B64.f1e_6);
          LabOne.daq_sync;
          LabOne.daq_getSample
            ("/" +:+ ConnectConfig.device demod_session +:+ "/demods/"
                 +:+ LabOne.str_int 0 +:+ "/sample")]
      ++ rest
    /\ (rest = []
        \/ exists r0,
             rest = [LabOne.print_format "Measured RMS amplitude is {:.3e} V."
                                         [LabOne.AFloat r0]]).
Proof.
  apply (X18_settle_then_sync_then_sample demod_session "dev2006" B64.f0_1).
  reflexivity.
Defined.
